(** * The styles settings panel of 3D Slicer (Base/QTGUI/qSlicerSettingsStylesPanel.cxx)

    A shallow embedding of [qSlicerSettingsStylesPanel] and of its private
    class: the widgets are records, the application object and the two
    settings stores are part of an explicit world state, and signals are
    delivered to the slots connected in [init], in connection order.

    The panel is glue between Qt, CTK and the application, so what it does is
    decided by what those do.  Their operations are modelled after their
    documentation: a [QComboBox] emits [currentIndexChanged] when its current
    index changes and its signals are not blocked; [QCoreApplication] keeps a
    list of library paths without duplicates; a property registered with
    [ctkSettingsPanel] is written to its settings object when its change
    signal is emitted.  What depends on the installation (the style factory,
    the answer of the file dialog, the widgets created by [setupUi]) is a
    parameter. *)

From Stdlib Require Import ZArith String Ascii List Bool Lia.
From stdpp Require Import base option list gmap strings.
Import ListNotations.

Local Open Scope string_scope.
Local Open Scope list_scope.
Local Open Scope Z_scope.

(** ** QString helpers *)

Module QString.

(** Case folding of one code unit; the style names compared by the panel are
    ASCII, so only A-Z are folded. *)
Definition toLower_ascii (c : ascii) : ascii :=
  let n := nat_of_ascii c in
  if (Nat.leb 65 n && Nat.leb n 90)%bool then ascii_of_nat (n + 32) else c.

Fixpoint toLower (s : string) : string :=
  match s with
  | EmptyString => EmptyString
  | String c s' => String (toLower_ascii c) (toLower s')
  end.

(** [QString::compare(a, b, Qt::CaseInsensitive) == 0] *)
Definition eq_ci (a b : string) : bool := String.eqb (toLower a) (toLower b).

(** [QString::isEmpty] *)
Definition isEmpty (s : string) : bool := String.eqb s "".

End QString.

Module QStringList.

(** [QStringList::contains(str, Qt::CaseInsensitive)] *)
Definition contains_ci (l : list string) (str : string) : bool :=
  existsb (QString.eq_ci str) l.

(** [QStringList::contains(str)] with the default, case sensitive. *)
Definition contains (l : list string) (str : string) : bool :=
  existsb (String.eqb str) l.

(** [QList::removeAll] *)
Definition removeAll (l : list string) (str : string) : list string :=
  List.filter (fun x => negb (String.eqb x str)) l.

End QStringList.

(** ** QComboBox

    A non-editable combo box: its items, the current index ([-1] when no item
    is current) and the [blockSignals] flag of [QObject].  The operations
    return the new combo box together with the text of the new current item
    when the current index changed, which is what [currentIndexChanged(QString)]
    carries; whether the signal is emitted is decided by the caller from the
    [signalsBlocked] flag. *)

Record QComboBox := mkComboBox {
  items : list string;
  currentIndex : Z;
  signalsBlocked : bool
}.

Module ComboBox.

Fixpoint findText_from (i : Z) (l : list string) (text : string) : Z :=
  match l with
  | [] => -1
  | x :: xs => if String.eqb x text then i else findText_from (i + 1) xs text
  end.

(** [QComboBox::findText(text)]: index of the first item with exactly this
    text, [-1] when there is none. *)
Definition findText (cb : QComboBox) (text : string) : Z :=
  findText_from 0 (items cb) text.

(** [QComboBox::itemText(index)]: empty for an index out of range. *)
Definition itemText (cb : QComboBox) (index : Z) : string :=
  if index <? 0 then "" else nth (Z.to_nat index) (items cb) "".

(** [QComboBox::currentText()] *)
Definition currentText (cb : QComboBox) : string :=
  itemText cb (currentIndex cb).

Definition count (cb : QComboBox) : Z := Z.of_nat (length (items cb)).

(** [QObject::blockSignals(block)]: returns the previous flag. *)
Definition blockSignals (block : bool) (cb : QComboBox) : bool * QComboBox :=
  (signalsBlocked cb,
   {| items := items cb; currentIndex := currentIndex cb; signalsBlocked := block |}).

(** [QComboBox::setCurrentIndex(index)]: an index out of range makes no
    item current. *)
Definition setCurrentIndex (index : Z) (cb : QComboBox) : QComboBox * option string :=
  let mi := if (0 <=? index) && (index <? count cb) then index else -1 in
  if mi =? currentIndex cb then (cb, None)
  else
    let cb' := {| items := items cb; currentIndex := mi;
                  signalsBlocked := signalsBlocked cb |} in
    (cb', Some (itemText cb' mi)).

(** [QComboBox::clear()] *)
Definition clear (cb : QComboBox) : QComboBox * option string :=
  let cb' := {| items := []; currentIndex := -1;
                signalsBlocked := signalsBlocked cb |} in
  (cb', if currentIndex cb =? -1 then None else Some "").

(** [QComboBox::addItem(text)]: appends; the first item of an empty combo
    box with no current item becomes current. *)
Definition addItem (text : string) (cb : QComboBox) : QComboBox * option string :=
  let cb' := {| items := items cb ++ [text]; currentIndex := currentIndex cb;
                signalsBlocked := signalsBlocked cb |} in
  match items cb with
  | [] => if currentIndex cb =? -1 then setCurrentIndex 0 cb' else (cb', None)
  | _ :: _ => (cb', None)
  end.

End ComboBox.

(** ** QVariant and the settings stores *)

Section Panel.

(** Opaque Qt value types. *)
Context {QStyle QPalette QFont : Type} `{EqDecision QStyle}.

Inductive QVariant :=
| Invalid
| VBool (b : bool)
| VString (s : string)
| VStringList (l : list string)
| VFont (f : QFont).

(** [QVariant::toString()] for the variants the panel stores. *)
Definition QVariant_toString (v : QVariant) : string :=
  match v with
  | VString s => s
  | VBool true => "true"
  | VBool false => "false"
  | _ => ""
  end.

(** The two [QSettings] objects the panel talks to: the application's user
    settings and [qSlicerCoreApplication::revisionUserSettings()]. *)
Inductive SettingsStore := UserSettings | RevisionUserSettings.

(** [QSettings::value(key)]: an invalid variant for a missing key. *)
Definition QSettings_value (s : gmap string QVariant) (key : string) : QVariant :=
  default Invalid (s !! key).

(** ** Objects, signals and connections *)

Inductive Object :=
| obj_FontButton
| obj_ShowToolTipsCheckBox
| obj_ShowToolButtonTextCheckBox
| obj_RestoreUICheckBox
| obj_AdditionalStylePathMoreButton
| obj_AdditionalStylePathsView
| obj_StyleComboBox
| obj_AddAdditionalStylePathButton
| obj_RemoveAdditionalStylePathButton
| obj_q.

Inductive Signal :=
| SIGNAL_currentFontChanged
| SIGNAL_toggled
| SIGNAL_directoryListChanged
| SIGNAL_currentIndexChanged
| SIGNAL_currentStyleChanged
| SIGNAL_clicked.

Inductive Arg :=
| NoArg
| BoolArg (b : bool)
| StringArg (s : string)
| FontArg (f : QFont).

Record Emission := mkEmission {
  sender : Object;
  signal : Signal;
  arg : Arg
}.

#[local] Instance Object_eq_dec : EqDecision Object.
Proof. solve_decision. Defined.
#[local] Instance Signal_eq_dec : EqDecision Signal.
Proof. solve_decision. Defined.

Inductive SettingOption := OptionNone | OptionRequireRestart.

(** [ctkSettingsPanel]'s record of one registered property. *)
Record PropertyType := mkProperty {
  prop_object : Object;
  prop_property : string;
  prop_signal : Signal;
  prop_label : string;
  prop_options : SettingOption;
  prop_settings : option SettingsStore
}.

(** The connections [init] makes.  Each slot of the panel is connected to
    one fixed signal; [Conn_updateSetting key] is the connection
    [registerProperty] makes from the property's change signal to
    [ctkSettingsPanel::updateSetting(key)]. *)
Inductive Connection :=
| Conn_onFontChanged
| Conn_onShowToolTipsToggled
| Conn_onShowToolButtonTextToggled
| Conn_onAdditionalStylePathsChanged
| Conn_onStyleChanged
| Conn_onAddStyleAdditionalPathClicked
| Conn_onRemoveStyleAdditionalPathClicked
| Conn_updateSetting (key : string).

Definition Connection_eq_dec (c c' : Connection) : {c = c'} + {c <> c'}.
Proof. decide equality. apply string_dec. Defined.

(** ** The widgets and the private class *)

(** [ctkDirectoryListView]: the directories shown and the selected ones. *)
Record ctkDirectoryListView := mkDirectoryListView {
  directories : list string;
  selectedDirectories : list string
}.

(** [qSlicerSettingsStylesPanelPrivate], which inherits the widgets of
    [Ui_qSlicerSettingsStylesPanel]; [Properties] and [Settings] are the
    members of the [ctkSettingsPanel] base class, [connections] the
    connections made so far. *)
Record Panel := mkPanel {
  StyleComboBox : QComboBox;
  AdditionalStylePathsView : ctkDirectoryListView;
  FontButton : QFont;
  ShowToolTipsCheckBox : bool;
  ShowToolButtonTextCheckBox : bool;
  RestoreUICheckBox : bool;
  AdditionalStylePathMoreButton : bool;
  AdditionalPaths : list string;
  QtStyles : list string;
  Properties : gmap string PropertyType;
  Settings : option SettingsStore;
  connections : list Connection
}.

Inductive ToolButtonStyle :=
| ToolButtonIconOnly
| ToolButtonTextOnly
| ToolButtonTextBesideIcon
| ToolButtonTextUnderIcon
| ToolButtonFollowStyle.

(** The part of [qSlicerApplication] the panel touches. *)
Record Application := mkApplication {
  style : QStyle;
  eventFilters : list QStyle;
  palette : QPalette;
  font : QFont;
  toolTipsEnabled : bool;
  mainWindow : option ToolButtonStyle;
  libraryPaths : list string
}.

Record World := mkWorld {
  panel : Panel;
  application : Application;
  userSettings : gmap string QVariant;
  revisionUserSettings : gmap string QVariant;
  warnings : list string;
  currentStyleChanged_log : list string
}.

(** *** Field updates *)

Definition with_panel (f : Panel -> Panel) (w : World) : World :=
  {| panel := f (panel w); application := application w;
     userSettings := userSettings w;
     revisionUserSettings := revisionUserSettings w;
     warnings := warnings w;
     currentStyleChanged_log := currentStyleChanged_log w |}.

Definition with_application (f : Application -> Application) (w : World) : World :=
  {| panel := panel w; application := f (application w);
     userSettings := userSettings w;
     revisionUserSettings := revisionUserSettings w;
     warnings := warnings w;
     currentStyleChanged_log := currentStyleChanged_log w |}.

Definition set_StyleComboBox (cb : QComboBox) : World -> World :=
  with_panel (fun p =>
    {| StyleComboBox := cb;
       AdditionalStylePathsView := AdditionalStylePathsView p;
       FontButton := FontButton p;
       ShowToolTipsCheckBox := ShowToolTipsCheckBox p;
       ShowToolButtonTextCheckBox := ShowToolButtonTextCheckBox p;
       RestoreUICheckBox := RestoreUICheckBox p;
       AdditionalStylePathMoreButton := AdditionalStylePathMoreButton p;
       AdditionalPaths := AdditionalPaths p;
       QtStyles := QtStyles p;
       Properties := Properties p;
       Settings := Settings p;
       connections := connections p |}).

Definition set_AdditionalStylePathsView (v : ctkDirectoryListView) : World -> World :=
  with_panel (fun p =>
    {| StyleComboBox := StyleComboBox p;
       AdditionalStylePathsView := v;
       FontButton := FontButton p;
       ShowToolTipsCheckBox := ShowToolTipsCheckBox p;
       ShowToolButtonTextCheckBox := ShowToolButtonTextCheckBox p;
       RestoreUICheckBox := RestoreUICheckBox p;
       AdditionalStylePathMoreButton := AdditionalStylePathMoreButton p;
       AdditionalPaths := AdditionalPaths p;
       QtStyles := QtStyles p;
       Properties := Properties p;
       Settings := Settings p;
       connections := connections p |}).

Definition set_AdditionalPaths (l : list string) : World -> World :=
  with_panel (fun p =>
    {| StyleComboBox := StyleComboBox p;
       AdditionalStylePathsView := AdditionalStylePathsView p;
       FontButton := FontButton p;
       ShowToolTipsCheckBox := ShowToolTipsCheckBox p;
       ShowToolButtonTextCheckBox := ShowToolButtonTextCheckBox p;
       RestoreUICheckBox := RestoreUICheckBox p;
       AdditionalStylePathMoreButton := AdditionalStylePathMoreButton p;
       AdditionalPaths := l;
       QtStyles := QtStyles p;
       Properties := Properties p;
       Settings := Settings p;
       connections := connections p |}).

(** The checked state of a check box or checkable button. *)
Definition set_checked (o : Object) (b : bool) : World -> World :=
  with_panel (fun p =>
    {| StyleComboBox := StyleComboBox p;
       AdditionalStylePathsView := AdditionalStylePathsView p;
       FontButton := FontButton p;
       ShowToolTipsCheckBox :=
         if decide (o = obj_ShowToolTipsCheckBox) then b else ShowToolTipsCheckBox p;
       ShowToolButtonTextCheckBox :=
         if decide (o = obj_ShowToolButtonTextCheckBox) then b
         else ShowToolButtonTextCheckBox p;
       RestoreUICheckBox :=
         if decide (o = obj_RestoreUICheckBox) then b else RestoreUICheckBox p;
       AdditionalStylePathMoreButton :=
         if decide (o = obj_AdditionalStylePathMoreButton) then b
         else AdditionalStylePathMoreButton p;
       AdditionalPaths := AdditionalPaths p;
       QtStyles := QtStyles p;
       Properties := Properties p;
       Settings := Settings p;
       connections := connections p |}).

Definition checked (o : Object) (w : World) : bool :=
  match o with
  | obj_ShowToolTipsCheckBox => ShowToolTipsCheckBox (panel w)
  | obj_ShowToolButtonTextCheckBox => ShowToolButtonTextCheckBox (panel w)
  | obj_RestoreUICheckBox => RestoreUICheckBox (panel w)
  | obj_AdditionalStylePathMoreButton => AdditionalStylePathMoreButton (panel w)
  | _ => false
  end.

Definition set_FontButton (f : QFont) : World -> World :=
  with_panel (fun p =>
    {| StyleComboBox := StyleComboBox p;
       AdditionalStylePathsView := AdditionalStylePathsView p;
       FontButton := f;
       ShowToolTipsCheckBox := ShowToolTipsCheckBox p;
       ShowToolButtonTextCheckBox := ShowToolButtonTextCheckBox p;
       RestoreUICheckBox := RestoreUICheckBox p;
       AdditionalStylePathMoreButton := AdditionalStylePathMoreButton p;
       AdditionalPaths := AdditionalPaths p;
       QtStyles := QtStyles p;
       Properties := Properties p;
       Settings := Settings p;
       connections := connections p |}).

(** [QObject::connect]: the new connection is delivered after the older
    ones. *)
Definition connect (c : Connection) : World -> World :=
  with_panel (fun p =>
    {| StyleComboBox := StyleComboBox p;
       AdditionalStylePathsView := AdditionalStylePathsView p;
       FontButton := FontButton p;
       ShowToolTipsCheckBox := ShowToolTipsCheckBox p;
       ShowToolButtonTextCheckBox := ShowToolButtonTextCheckBox p;
       RestoreUICheckBox := RestoreUICheckBox p;
       AdditionalStylePathMoreButton := AdditionalStylePathMoreButton p;
       AdditionalPaths := AdditionalPaths p;
       QtStyles := QtStyles p;
       Properties := Properties p;
       Settings := Settings p;
       connections := connections p ++ [c] |}).

Definition set_Properties (m : gmap string PropertyType) : World -> World :=
  with_panel (fun p =>
    {| StyleComboBox := StyleComboBox p;
       AdditionalStylePathsView := AdditionalStylePathsView p;
       FontButton := FontButton p;
       ShowToolTipsCheckBox := ShowToolTipsCheckBox p;
       ShowToolButtonTextCheckBox := ShowToolButtonTextCheckBox p;
       RestoreUICheckBox := RestoreUICheckBox p;
       AdditionalStylePathMoreButton := AdditionalStylePathMoreButton p;
       AdditionalPaths := AdditionalPaths p;
       QtStyles := QtStyles p;
       Properties := m;
       Settings := Settings p;
       connections := connections p |}).

Definition set_libraryPaths (l : list string) : World -> World :=
  with_application (fun a =>
    {| style := style a; eventFilters := eventFilters a; palette := palette a;
       font := font a; toolTipsEnabled := toolTipsEnabled a;
       mainWindow := mainWindow a; libraryPaths := l |}).

Definition set_store (s : SettingsStore) (m : gmap string QVariant) (w : World) : World :=
  {| panel := panel w; application := application w;
     userSettings := match s with UserSettings => m | _ => userSettings w end;
     revisionUserSettings :=
       match s with RevisionUserSettings => m | _ => revisionUserSettings w end;
     warnings := warnings w;
     currentStyleChanged_log := currentStyleChanged_log w |}.

Definition store (s : SettingsStore) (w : World) : gmap string QVariant :=
  match s with
  | UserSettings => userSettings w
  | RevisionUserSettings => revisionUserSettings w
  end.

(** ** The application object and the Qt services used *)

(** [QObject::removeEventFilter] *)
Definition removeEventFilter (st : QStyle) : World -> World :=
  with_application (fun a =>
    {| style := style a;
       eventFilters := List.filter (fun x => negb (bool_decide (x = st))) (eventFilters a);
       palette := palette a; font := font a; toolTipsEnabled := toolTipsEnabled a;
       mainWindow := mainWindow a; libraryPaths := libraryPaths a |}).

(** [QObject::installEventFilter]: the filter is moved to the front. *)
Definition installEventFilter (st : QStyle) : World -> World :=
  with_application (fun a =>
    {| style := style a;
       eventFilters :=
         st :: List.filter (fun x => negb (bool_decide (x = st))) (eventFilters a);
       palette := palette a; font := font a; toolTipsEnabled := toolTipsEnabled a;
       mainWindow := mainWindow a; libraryPaths := libraryPaths a |}).

(** [QApplication::setStyle] *)
Definition setStyle (st : QStyle) : World -> World :=
  with_application (fun a =>
    {| style := st; eventFilters := eventFilters a; palette := palette a;
       font := font a; toolTipsEnabled := toolTipsEnabled a;
       mainWindow := mainWindow a; libraryPaths := libraryPaths a |}).

(** [QApplication::setPalette] *)
Definition setPalette (pal : QPalette) : World -> World :=
  with_application (fun a =>
    {| style := style a; eventFilters := eventFilters a; palette := pal;
       font := font a; toolTipsEnabled := toolTipsEnabled a;
       mainWindow := mainWindow a; libraryPaths := libraryPaths a |}).

(** [QApplication::setFont] *)
Definition setFont (f : QFont) : World -> World :=
  with_application (fun a =>
    {| style := style a; eventFilters := eventFilters a; palette := palette a;
       font := f; toolTipsEnabled := toolTipsEnabled a;
       mainWindow := mainWindow a; libraryPaths := libraryPaths a |}).

(** Modelled from the spec: [qSlicerApplication::setToolTipsEnabled] is not
    in the sources at hand; it sets the application's tooltip-enabled flag. *)
Definition setToolTipsEnabled (enable : bool) : World -> World :=
  with_application (fun a =>
    {| style := style a; eventFilters := eventFilters a; palette := palette a;
       font := font a; toolTipsEnabled := enable;
       mainWindow := mainWindow a; libraryPaths := libraryPaths a |}).

(** [QMainWindow::setToolButtonStyle] on the application's main window. *)
Definition setToolButtonStyle (t : ToolButtonStyle) : World -> World :=
  with_application (fun a =>
    {| style := style a; eventFilters := eventFilters a; palette := palette a;
       font := font a; toolTipsEnabled := toolTipsEnabled a;
       mainWindow := Some t; libraryPaths := libraryPaths a |}).

(** [QCoreApplication::removeLibraryPath]: nothing happens for an empty
    path or one that is not in the list. *)
Definition removeLibraryPath (path : string) (w : World) : World :=
  if QString.isEmpty path then w
  else set_libraryPaths (QStringList.removeAll (libraryPaths (application w)) path) w.

(** [QCoreApplication::addLibraryPath]: prepends; nothing happens for an
    empty path or one already in the list. *)
Definition addLibraryPath (path : string) (w : World) : World :=
  if QString.isEmpty path then w
  else if QStringList.contains (libraryPaths (application w)) path then w
  else set_libraryPaths (path :: libraryPaths (application w)) w.

(** [qWarning() << "Style named " << name << " not found !" ...]: the log
    keeps the style name of each warning. *)
Definition qWarning (name : string) (w : World) : World :=
  {| panel := panel w; application := application w;
     userSettings := userSettings w;
     revisionUserSettings := revisionUserSettings w;
     warnings := warnings w ++ [name];
     currentStyleChanged_log := currentStyleChanged_log w |}.

(** The panel's own signal, as seen by any listener. *)
Definition log_currentStyleChanged (name : string) (w : World) : World :=
  {| panel := panel w; application := application w;
     userSettings := userSettings w;
     revisionUserSettings := revisionUserSettings w;
     warnings := warnings w;
     currentStyleChanged_log := currentStyleChanged_log w ++ [name] |}.

(** [QStyle::standardPalette()] *)
Variable standardPalette : QStyle -> QPalette.

(** [QStyleFactory::keys()] and [QStyleFactory::create(key)]: the factory
    loads style plugins from the library paths. *)
Variable QStyleFactory_keys : list string -> list string.
Variable QStyleFactory_create : list string -> string -> option QStyle.

(** [QFileDialog::getExistingDirectory]: the user's answer for a dialog
    opened at the given directory; empty when the dialog is cancelled. *)
Variable QFileDialog_getExistingDirectory : string -> string.

(** ** ctkDirectoryListView *)

(** [ctkDirectoryListView::directoryList(absolutePath)]: the model keeps
    absolute paths. *)
Definition directoryList (absolutePath : bool) (v : ctkDirectoryListView) : list string :=
  directories v.

(** ** ctkSettingsPanel *)

(** [ctkSettingsPanel::registerProperty]: records the property under [key]
    and connects its change signal to [updateSetting(key)].  (What CTK does
    with the settings at registration time is left out: no statement below
    is about the stores right after [init].) *)
Definition registerProperty (key : string) (object : Object) (property : string)
    (sig : Signal) (label : string) (options : SettingOption)
    (settings : option SettingsStore) (w : World) : World :=
  connect (Conn_updateSetting key)
    (set_Properties
       (<[key := mkProperty object property sig label options settings]>
          (Properties (panel w))) w).

(** [QObject::property(name)] on the registered objects. *)
Definition propertyValue (o : Object) (name : string) (w : World) : QVariant :=
  match o with
  | obj_FontButton =>
      if String.eqb name "currentFont" then VFont (FontButton (panel w)) else Invalid
  | obj_ShowToolTipsCheckBox | obj_ShowToolButtonTextCheckBox
  | obj_RestoreUICheckBox | obj_AdditionalStylePathMoreButton =>
      if String.eqb name "checked" then VBool (checked o w) else Invalid
  | obj_AdditionalStylePathsView =>
      if String.eqb name "directoryList"
      then VStringList (directoryList false (AdditionalStylePathsView (panel w)))
      else Invalid
  | obj_q =>
      if String.eqb name "currentStyle"
      then VString (ComboBox.currentText (StyleComboBox (panel w)))
      else Invalid
  | _ => Invalid
  end.

(** [ctkSettingsPanel::updateSetting(key)]: writes the current value of the
    property into the property's settings object, or into the panel's when
    the property has none; nothing is written when there is no settings
    object. *)
Definition updateSetting (key : string) (w : World) : World :=
  match Properties (panel w) !! key with
  | None => w
  | Some p =>
      let target :=
        match prop_settings p with
        | Some s => Some s
        | None => Settings (panel w)
        end in
      match target with
      | None => w
      | Some s =>
          set_store s (<[key := propertyValue (prop_object p) (prop_property p) w]>
                         (store s w)) w
      end
  end.

(** ** Construction *)

(** The style names the constructor of the private class puts in
    [QtStyles]. *)
Definition builtinQtStyles : list string :=
  [ "Windows"; "WindowsCE"; "WindowsXP"; "WindowsVista"; "Motif"; "CDE";
    "Plastique"; "Cleanlooks"; "Macintosh"; "Macintosh (aqua)"; "GTK+" ].

(** The widgets as [setupUi] creates them; the generated
    [Ui_qSlicerSettingsStylesPanel] is not in the sources at hand, so the
    initial widget states are taken as given. *)
Record Ui_qSlicerSettingsStylesPanel := mkUi {
  ui_StyleComboBox : QComboBox;
  ui_AdditionalStylePathsView : ctkDirectoryListView;
  ui_FontButton : QFont;
  ui_ShowToolTipsCheckBox : bool;
  ui_ShowToolButtonTextCheckBox : bool;
  ui_RestoreUICheckBox : bool;
  ui_AdditionalStylePathMoreButton : bool
}.

(** The world right after the constructor of
    [qSlicerSettingsStylesPanelPrivate] and [setupUi], before the rest of
    [init]: no property registered, nothing connected, no settings object. *)
Definition constructed (ui : Ui_qSlicerSettingsStylesPanel) (a : Application)
    (user revision : gmap string QVariant) : World :=
  {| panel :=
       {| StyleComboBox := ui_StyleComboBox ui;
          AdditionalStylePathsView := ui_AdditionalStylePathsView ui;
          FontButton := ui_FontButton ui;
          ShowToolTipsCheckBox := ui_ShowToolTipsCheckBox ui;
          ShowToolButtonTextCheckBox := ui_ShowToolButtonTextCheckBox ui;
          RestoreUICheckBox := ui_RestoreUICheckBox ui;
          AdditionalStylePathMoreButton := ui_AdditionalStylePathMoreButton ui;
          AdditionalPaths := [];
          QtStyles := [] ++ builtinQtStyles;
          Properties := ∅;
          Settings := None;
          connections := [] |};
     application := a;
     userSettings := user;
     revisionUserSettings := revision;
     warnings := [];
     currentStyleChanged_log := [] |}.

(** [ctkSettingsPanel::setSettings]: the settings dialog gives the panel its
    settings object. *)
Definition setSettings (s : option SettingsStore) : World -> World :=
  with_panel (fun p =>
    {| StyleComboBox := StyleComboBox p;
       AdditionalStylePathsView := AdditionalStylePathsView p;
       FontButton := FontButton p;
       ShowToolTipsCheckBox := ShowToolTipsCheckBox p;
       ShowToolButtonTextCheckBox := ShowToolButtonTextCheckBox p;
       RestoreUICheckBox := RestoreUICheckBox p;
       AdditionalStylePathMoreButton := AdditionalStylePathMoreButton p;
       AdditionalPaths := AdditionalPaths p;
       QtStyles := QtStyles p;
       Properties := Properties p;
       Settings := s;
       connections := connections p |}).

(** ** The slots of the panel

    The slots are written over the signal dispatcher [emit], which is
    defined afterwards by recursion on the nesting depth of deliveries. *)

Section Slots.

Variable emit : Emission -> World -> option World.

(** Installs the combo box returned by one of its operations and emits
    [currentIndexChanged(QString)] when the current index changed and the
    signals of the combo box are not blocked. *)
Definition comboNotify (r : QComboBox * option string) (w : World) : option World :=
  let w' := set_StyleComboBox (fst r) w in
  match snd r with
  | Some text =>
      if signalsBlocked (fst r) then Some w'
      else emit (mkEmission obj_StyleComboBox SIGNAL_currentIndexChanged (StringArg text)) w'
  | None => Some w'
  end.

(** [qSlicerSettingsStylesPanelPrivate::styleIndex] *)
Definition styleIndex (styleName : string) (w : World) : Z :=
  let styleIndex := ComboBox.findText (StyleComboBox (panel w)) styleName in
  if styleIndex =? -1
  then ComboBox.findText (StyleComboBox (panel w)) "Slicer"
  else styleIndex.

(** [qSlicerSettingsStylesPanelPrivate::isQtStyle] *)
Definition isQtStyle (styleName : string) (w : World) : bool :=
  QStringList.contains_ci (QtStyles (panel w)) styleName.

(** The body of the [foreach] loop of [populateStyles]. *)
Definition populateStyles_step (w : World) (style : string) : option World :=
  if negb (isQtStyle style w)
  then comboNotify (ComboBox.addItem style (StyleComboBox (panel w))) w
  else Some w.

Fixpoint populateStyles_loop (keys : list string) (w : World) : option World :=
  match keys with
  | [] => Some w
  | style :: rest =>
      w' ← populateStyles_step w style;
      populateStyles_loop rest w'
  end.

(** [qSlicerSettingsStylesPanelPrivate::populateStyles] *)
Definition populateStyles (w : World) : option World :=
  let currentStyle := ComboBox.currentText (StyleComboBox (panel w)) in
  let blocked := ComboBox.blockSignals true (StyleComboBox (panel w)) in
  let wasBlocking := fst blocked in
  let w := set_StyleComboBox (snd blocked) w in
  w ← comboNotify (ComboBox.clear (StyleComboBox (panel w))) w;
  w ← populateStyles_loop
        (QStyleFactory_keys (libraryPaths (application w))) w;
  let currentStyleIndex := styleIndex currentStyle w in
  let w := set_StyleComboBox
             (snd (ComboBox.blockSignals wasBlocking (StyleComboBox (panel w)))) w in
  comboNotify (ComboBox.setCurrentIndex currentStyleIndex (StyleComboBox (panel w))) w.

(** [qSlicerSettingsStylesPanel::onAdditionalStylePathsChanged] *)
Definition onAdditionalStylePathsChanged (w : World) : option World :=
  let w := fold_left (fun w path => removeLibraryPath path w)
             (AdditionalPaths (panel w)) w in
  let w := set_AdditionalPaths
             (directoryList true (AdditionalStylePathsView (panel w))) w in
  let w := fold_left (fun w path => addLibraryPath path w)
             (AdditionalPaths (panel w)) w in
  populateStyles w.

(** [ctkDirectoryListView::addDirectory]: a directory already listed is
    not added again; otherwise it is appended and [directoryListChanged]
    is emitted. *)
Definition addDirectory (path : string) (w : World) : option World :=
  let v := AdditionalStylePathsView (panel w) in
  if QStringList.contains (directories v) path then Some w
  else
    emit (mkEmission obj_AdditionalStylePathsView SIGNAL_directoryListChanged NoArg)
      (set_AdditionalStylePathsView
         (mkDirectoryListView (directories v ++ [path]) (selectedDirectories v)) w).

(** [ctkDirectoryListView::removeSelectedDirectories]: removes the selected
    rows and emits [directoryListChanged] when a row was removed. *)
Definition removeSelectedDirectories (w : World) : option World :=
  let v := AdditionalStylePathsView (panel w) in
  let kept := List.filter
                (fun d => negb (QStringList.contains (selectedDirectories v) d))
                (directories v) in
  if (length kept =? length (directories v))%nat then Some w
  else
    emit (mkEmission obj_AdditionalStylePathsView SIGNAL_directoryListChanged NoArg)
      (set_AdditionalStylePathsView (mkDirectoryListView kept []) w).

(** [qSlicerSettingsStylesPanel::onAddStyleAdditionalPathClicked] *)
Definition onAddStyleAdditionalPathClicked (w : World) : option World :=
  let extensionInstallPath :=
    QVariant_toString
      (QSettings_value (revisionUserSettings w) "Extensions/InstallPath") in
  let path := QFileDialog_getExistingDirectory extensionInstallPath in
  if QString.isEmpty path then Some w
  else addDirectory path w.

(** [qSlicerSettingsStylesPanel::onRemoveStyleAdditionalPathClicked] *)
Definition onRemoveStyleAdditionalPathClicked (w : World) : option World :=
  removeSelectedDirectories w.

(** [qSlicerSettingsStylesPanel::currentStyle] *)
Definition currentStyle (w : World) : string :=
  ComboBox.currentText (StyleComboBox (panel w)).

(** [qSlicerSettingsStylesPanel::setCurrentStyle] *)
Definition setCurrentStyle (newStyleName : string) (w : World) : option World :=
  comboNotify
    (ComboBox.setCurrentIndex (styleIndex newStyleName w) (StyleComboBox (panel w))) w.

(** [qSlicerSettingsStylesPanel::onStyleChanged] *)
Definition onStyleChanged (newStyleName : string) (w : World) : option World :=
  let w := removeEventFilter (style (application w)) w in
  match QStyleFactory_create (libraryPaths (application w)) newStyleName with
  | None =>
      let w := qWarning newStyleName w in
      setCurrentStyle "Slicer" w
  | Some newStyle =>
      let w := setStyle newStyle w in
      let w := installEventFilter (style (application w)) w in
      let w := setPalette (standardPalette newStyle) w in
      emit (mkEmission obj_q SIGNAL_currentStyleChanged (StringArg newStyleName))
        (log_currentStyleChanged newStyleName w)
  end.

(** [qSlicerSettingsStylesPanel::onFontChanged] *)
Definition onFontChanged (font : QFont) (w : World) : World :=
  setFont font w.

(** [qSlicerSettingsStylesPanel::onShowToolTipsToggled] *)
Definition onShowToolTipsToggled (disable : bool) (w : World) : World :=
  setToolTipsEnabled (negb disable) w.

(** [qSlicerSettingsStylesPanel::onShowToolButtonTextToggled] *)
Definition onShowToolButtonTextToggled (enable : bool) (w : World) : World :=
  match mainWindow (application w) with
  | Some _ =>
      setToolButtonStyle
        (if enable then ToolButtonTextUnderIcon else ToolButtonIconOnly) w
  | None => w
  end.

(** [QAbstractButton::setChecked], also what a click on a check box does:
    [toggled(bool)] is emitted when the state changes. *)
Definition setChecked (o : Object) (b : bool) (w : World) : option World :=
  if Bool.eqb (checked o w) b then Some w
  else emit (mkEmission o SIGNAL_toggled (BoolArg b)) (set_checked o b w).

(** [qSlicerSettingsStylesPanelPrivate::init]; [setupUi] has created the
    widgets of [w]. *)
Definition init (w : World) : option World :=
  let w := connect Conn_onFontChanged w in
  let w := connect Conn_onShowToolTipsToggled w in
  let w := connect Conn_onShowToolButtonTextToggled w in
  let w := registerProperty "no-tooltip" obj_ShowToolTipsCheckBox "checked"
             SIGNAL_toggled "" OptionNone None w in
  let w := registerProperty "font" obj_FontButton "currentFont"
             SIGNAL_currentFontChanged "" OptionNone None w in
  let w := registerProperty "MainWindow/ShowToolButtonText"
             obj_ShowToolButtonTextCheckBox "checked"
             SIGNAL_toggled "" OptionNone None w in
  let w := registerProperty "MainWindow/RestoreGeometry" obj_RestoreUICheckBox
             "checked" SIGNAL_toggled "" OptionNone None w in
  w ← setChecked obj_AdditionalStylePathMoreButton false w;
  let w := connect Conn_onAdditionalStylePathsChanged w in
  let w := registerProperty "Styles/AdditionalPaths" obj_AdditionalStylePathsView
             "directoryList" SIGNAL_directoryListChanged
             "Additional style paths" OptionRequireRestart
             (Some RevisionUserSettings) w in
  w ← populateStyles w;
  w ← setCurrentStyle "Slicer" w;
  let w := connect Conn_onStyleChanged w in
  let w := registerProperty "Styles/Style" obj_q "currentStyle"
             SIGNAL_currentStyleChanged "Current style" OptionNone
             (Some RevisionUserSettings) w in
  let w := connect Conn_onAddStyleAdditionalPathClicked w in
  let w := connect Conn_onRemoveStyleAdditionalPathClicked w in
  Some w.

(** The signal each connection listens to: the sender and signal named in
    the [connect] call of [init], or those of the registered property. *)
Definition listens (c : Connection) (e : Emission) (w : World) : bool :=
  match c with
  | Conn_onFontChanged =>
      bool_decide (sender e = obj_FontButton)
      && bool_decide (signal e = SIGNAL_currentFontChanged)
  | Conn_onShowToolTipsToggled =>
      bool_decide (sender e = obj_ShowToolTipsCheckBox)
      && bool_decide (signal e = SIGNAL_toggled)
  | Conn_onShowToolButtonTextToggled =>
      bool_decide (sender e = obj_ShowToolButtonTextCheckBox)
      && bool_decide (signal e = SIGNAL_toggled)
  | Conn_onAdditionalStylePathsChanged =>
      bool_decide (sender e = obj_AdditionalStylePathsView)
      && bool_decide (signal e = SIGNAL_directoryListChanged)
  | Conn_onStyleChanged =>
      bool_decide (sender e = obj_StyleComboBox)
      && bool_decide (signal e = SIGNAL_currentIndexChanged)
  | Conn_onAddStyleAdditionalPathClicked =>
      bool_decide (sender e = obj_AddAdditionalStylePathButton)
      && bool_decide (signal e = SIGNAL_clicked)
  | Conn_onRemoveStyleAdditionalPathClicked =>
      bool_decide (sender e = obj_RemoveAdditionalStylePathButton)
      && bool_decide (signal e = SIGNAL_clicked)
  | Conn_updateSetting key =>
      match Properties (panel w) !! key with
      | Some p =>
          bool_decide (sender e = prop_object p)
          && bool_decide (signal e = prop_signal p)
      | None => false
      end
  end.

(** Runs the slot of one connection for an emission it listens to. *)
Definition deliver (c : Connection) (e : Emission) (w : World) : option World :=
  if listens c e w then
    match c, arg e with
    | Conn_onFontChanged, FontArg f => Some (onFontChanged f w)
    | Conn_onShowToolTipsToggled, BoolArg b => Some (onShowToolTipsToggled b w)
    | Conn_onShowToolButtonTextToggled, BoolArg b =>
        Some (onShowToolButtonTextToggled b w)
    | Conn_onAdditionalStylePathsChanged, _ => onAdditionalStylePathsChanged w
    | Conn_onStyleChanged, StringArg s => onStyleChanged s w
    | Conn_onAddStyleAdditionalPathClicked, _ => onAddStyleAdditionalPathClicked w
    | Conn_onRemoveStyleAdditionalPathClicked, _ =>
        onRemoveStyleAdditionalPathClicked w
    | Conn_updateSetting key, _ => Some (updateSetting key w)
    | _, _ => Some w
    end
  else Some w.

Fixpoint deliverAll (cs : list Connection) (e : Emission) (w : World) : option World :=
  match cs with
  | [] => Some w
  | c :: rest =>
      w' ← deliver c e w;
      deliverAll rest e w'
  end.

End Slots.

(** Emission of a signal: the slots connected at the time of the
    emission run in connection order.  [depth] bounds the nesting of
    deliveries; [None] means the bound was too small (five is enough for
    every signal, see [emit_all] below). *)
Fixpoint emit (depth : nat) (e : Emission) (w : World) : option World :=
  match depth with
  | O => None
  | S depth' => deliverAll (emit depth') (connections (panel w)) e w
  end.

End Panel.

(** ** A concrete Qt for examples

    Styles, palettes and fonts are named by strings; the factory offers the
    keys found in the library paths: the built-in ["Windows"], ["Fusion"] and
    ["Slicer"] always, ["Dark"] when the plugin directory ["/plugins"] is a
    library path. *)

Module Example.

Definition keys (libs : list string) : list string :=
  if QStringList.contains libs "/plugins"
  then ["Windows"; "Fusion"; "Slicer"; "Dark"]
  else ["Windows"; "Fusion"; "Slicer"].

(** [QStyleFactory::create] ignores the case of the key and names the style
    by the lowercased key. *)
Definition create (libs : list string) (key : string) : option string :=
  if QStringList.contains_ci (keys libs) key then Some (QString.toLower key) else None.

(** A factory without the Slicer style. *)
Definition keys_noSlicer (libs : list string) : list string := ["Fusion"].

Definition create_noSlicer (libs : list string) (key : string) : option string :=
  if QStringList.contains_ci (keys_noSlicer libs) key
  then Some (QString.toLower key) else None.

(** A factory that lists a style whose plugin fails to load. *)
Definition keys_broken (libs : list string) : list string := ["Slicer"; "Broken"].

Definition create_broken (libs : list string) (key : string) : option string :=
  if QString.eq_ci key "Slicer" then Some "slicer" else None.

Definition palette_of (st : string) : string := st.

(** The user cancels the dialog, accepts the directory proposed, or picks a
    given directory. *)
Definition dialog_cancel (start : string) : string := "".
Definition dialog_accept (start : string) : string := start.
Definition dialog_pick (path : string) (start : string) : string := path.

(** The worlds of the example. *)
Definition ExWorld : Type := @World string string string.

Definition emit_with (dialog : string -> string) :=
  @emit string string string _ palette_of keys create dialog.

Definition emit_noSlicer :=
  @emit string string string _ palette_of keys_noSlicer create_noSlicer dialog_cancel.

Definition emit_broken :=
  @emit string string string _ palette_of keys_broken create_broken dialog_cancel.

Definition ui : @Ui_qSlicerSettingsStylesPanel string :=
  mkUi (mkComboBox [] (-1) false) (mkDirectoryListView [] []) "Arial" false false true true.

Definition app0 : @Application string string string :=
  mkApplication "windows" [] "windows" "Arial" true (Some ToolButtonIconOnly) ["/usr/lib/qt"].

Definition app_noMainWindow : @Application string string string :=
  mkApplication "windows" [] "windows" "Arial" true None ["/usr/lib/qt"].

Definition world0 : ExWorld := constructed ui app0 ∅ ∅.

(** The panel after its constructor. *)
Definition started : option ExWorld := init keys (emit_with dialog_cancel 5) world0.

(** ... and after the settings dialog gave it the user settings. *)
Definition in_dialog : option ExWorld :=
  w ← started; Some (setSettings (Some UserSettings) w).

(** The user picked the Fusion style. *)
Definition fusion_selected : option ExWorld :=
  w ← started; setCurrentStyle (emit_with dialog_cancel 5) "Fusion" w.

Definition started_noSlicer : option ExWorld :=
  init keys_noSlicer (emit_noSlicer 5) world0.

Definition started_broken : option ExWorld :=
  init keys_broken (emit_broken 5) world0.

Definition started_noMainWindow : option ExWorld :=
  init keys (emit_with dialog_cancel 5) (constructed ui app_noMainWindow ∅ ∅).

(** The revision user settings know where extensions are installed. *)
Definition started_with_extensions : option ExWorld :=
  init keys (emit_with dialog_accept 5)
    (constructed ui app0 ∅ {["Extensions/InstallPath" := VString "/ext"]}).

(** The user added the directory ["/a"], then ["/plugins"], and picked the
    Dark style that the plugins directory provides. *)
Definition a_added : option ExWorld :=
  w ← started;
  onAddStyleAdditionalPathClicked (dialog_pick "/a") (emit_with (dialog_pick "/a") 5) w.



(** The directory list view shows ["/a"] and ["/plugins"] while the panel
    still stores the old list: the state in which
    [onAdditionalStylePathsChanged] runs after the second addition. *)
Definition plugins_listed : option ExWorld :=
  w ← a_added;
  Some (set_AdditionalStylePathsView (mkDirectoryListView ["/a"; "/plugins"] []) w).


(** [onStyleChanged] is invoked with a name no style exists for. *)
Definition bogus_after_fusion : option ExWorld :=
  w ← fusion_selected;
  onStyleChanged palette_of create (emit_with dialog_cancel 5) "Bogus" w.

Definition bogus_noSlicer : option ExWorld :=
  w ← started_noSlicer;
  onStyleChanged palette_of create_noSlicer (emit_noSlicer 5) "Bogus" w.

Definition broken_requested : option ExWorld :=
  w ← started_broken; setCurrentStyle (emit_broken 5) "Broken" w.

Definition tooltips_checked : option ExWorld :=
  w ← in_dialog;
  setChecked (emit_with dialog_cancel 5) obj_ShowToolTipsCheckBox true w.

Definition started_without_extensions : option ExWorld :=
  init keys (emit_with dialog_accept 5) world0.

Definition add_clicked (r : option ExWorld) : option ExWorld :=
  w ← r; onAddStyleAdditionalPathClicked dialog_accept (emit_with dialog_accept 5) w.

Definition add_cancelled (r : option ExWorld) : option ExWorld :=
  w ← r; onAddStyleAdditionalPathClicked dialog_cancel (emit_with dialog_cancel 5) w.


(** Projections used to observe a run. *)
Definition libs (w : ExWorld) : list string := libraryPaths (application w).
Definition listed (w : ExWorld) : list string :=
  directories (AdditionalStylePathsView (panel w)).
Definition styles (w : ExWorld) : list string := items (StyleComboBox (panel w)).
Definition stored (s : SettingsStore) (key : string) (w : ExWorld) : option QVariant :=
  store s w !! key.

(** World values for the panel in the settings dialog, and with Fusion
    current. *)
Definition dialog_world : ExWorld := default world0 in_dialog.
Definition fusion_world : ExWorld := default world0 fusion_selected.

(** The user went back to the Slicer style. *)
Definition slicer_again : option ExWorld :=
  w ← fusion_selected; setCurrentStyle (emit_with dialog_cancel 5) "Slicer" w.

Definition slicer_world : ExWorld := default world0 slicer_again.

(** A caller has blocked the signals of the combo box. *)
Definition blocked_world : ExWorld :=
  set_StyleComboBox (mkComboBox ["Fusion"; "Slicer"] 1 true) dialog_world.

(** The view lists a directory the panel has not been told about yet. *)
Definition a_listed_world : ExWorld :=
  set_AdditionalStylePathsView (mkDirectoryListView ["/a"] []) dialog_world.

(** The directory ["/a"] was added and is now selected in the view. *)
Definition a_selected_world : ExWorld :=
  set_AdditionalStylePathsView (mkDirectoryListView ["/a"] ["/a"])
    (default world0 a_added).

End Example.

(** ** Frames of the slots *)

Section Frames.

Context {QStyle QPalette QFont : Type} `{EqDecision QStyle}.
Variable standardPalette : QStyle -> QPalette.
Variable QStyleFactory_keys : list string -> list string.
Variable QStyleFactory_create : list string -> string -> option QStyle.
Variable QFileDialog_getExistingDirectory : string -> string.

Abbreviation World := (@World QStyle QPalette QFont).
Abbreviation Emission := (@Emission QFont).
Abbreviation Arg := (@Arg QFont).

Abbreviation emit_ :=
  (emit standardPalette QStyleFactory_keys QStyleFactory_create
     QFileDialog_getExistingDirectory).
Abbreviation deliver_ :=
  (deliver standardPalette QStyleFactory_keys QStyleFactory_create
     QFileDialog_getExistingDirectory).
Abbreviation deliverAll_ :=
  (deliverAll standardPalette QStyleFactory_keys QStyleFactory_create
     QFileDialog_getExistingDirectory).
Abbreviation onStyleChanged_ := (onStyleChanged standardPalette QStyleFactory_create).
Abbreviation populateStyles_ := (populateStyles QStyleFactory_keys).
Abbreviation onAdditionalStylePathsChanged_ :=
  (onAdditionalStylePathsChanged QStyleFactory_keys).
Abbreviation onAddStyleAdditionalPathClicked_ :=
  (onAddStyleAdditionalPathClicked QFileDialog_getExistingDirectory).
Abbreviation init_ := (init QStyleFactory_keys).

(** *** Relations between worlds *)

(** The two signals of the style chain. *)
Definition sig_currentStyleChanged (a : Arg) : Emission :=
  mkEmission obj_q SIGNAL_currentStyleChanged a.
Definition sig_currentIndexChanged (a : Arg) : Emission :=
  mkEmission obj_StyleComboBox SIGNAL_currentIndexChanged a.

(** The settings stores are written at registered keys only. *)
Definition stores_frame (w w' : World) : Prop :=
  forall s k, Properties (panel w) !! k = None -> store s w' !! k = store s w !! k.

(** Nothing but the settings stores changes. *)
Definition settings_only (w w' : World) : Prop :=
  panel w' = panel w /\ application w' = application w /\
  warnings w' = warnings w /\
  currentStyleChanged_log w' = currentStyleChanged_log w /\
  stores_frame w w'.

(** What the style chain (a change of the current index, [onStyleChanged],
    [currentStyleChanged]) leaves alone: all of the panel but the current
    index of the combo box, and the font, tooltip flag, main window and
    library paths of the application. *)
Definition style_rest (w : World) :=
  (items (StyleComboBox (panel w)), signalsBlocked (StyleComboBox (panel w)),
   AdditionalStylePathsView (panel w), FontButton (panel w),
   ShowToolTipsCheckBox (panel w), ShowToolButtonTextCheckBox (panel w),
   RestoreUICheckBox (panel w), AdditionalStylePathMoreButton (panel w),
   AdditionalPaths (panel w), QtStyles (panel w), Properties (panel w),
   Settings (panel w), connections (panel w),
   font (application w), toolTipsEnabled (application w),
   mainWindow (application w), libraryPaths (application w)).

(** The factory cannot, or can, create the style under the library paths of
    [w]. *)
Definition notFound (w : World) (name : string) : Prop :=
  QStyleFactory_create (libraryPaths (application w)) name = None.
Definition found (w : World) (name : string) : Prop :=
  QStyleFactory_create (libraryPaths (application w)) name <> None.

(** One run of the style chain: the frame [style_rest] is kept, every
    warning added names a style that was not found, and every
    [currentStyleChanged] emitted names one that was. *)
Definition style_step (w w' : World) : Prop :=
  style_rest w' = style_rest w /\
  (exists l, warnings w' = warnings w ++ l /\ Forall (notFound w) l) /\
  (exists l, currentStyleChanged_log w' = currentStyleChanged_log w ++ l /\
             Forall (found w) l) /\
  stores_frame w w'.

(** The current index is the one [setCurrentStyle("Slicer")] asks for. *)
Definition settled (w : World) : Prop :=
  currentIndex (StyleComboBox (panel w)) =
  ComboBox.findText (StyleComboBox (panel w)) "Slicer".

(** A dispatcher that delivers [currentStyleChanged]: only settings are
    written. *)
Definition LeafOK (em : Emission -> World -> option World) : Prop :=
  forall a w, exists w', em (sig_currentStyleChanged a) w = Some w' /\ settings_only w w'.

(** The world in which [onStyleChanged] calls [setCurrentStyle("Slicer")]
    when the style is not found. *)
Definition warned (name : string) (w : World) : World :=
  qWarning name (removeEventFilter (style (application w)) w).

(** The emission of [currentIndexChanged] is quiet when the world is settled
    or the style it names can be created: the combo box is not touched. *)
Definition quiet (a : Arg) (w : World) : Prop :=
  settled w \/ forall s, a = StringArg s -> found w s.

(** A quiet delivery: the panel is untouched. *)
Definition quiet_step (w w' : World) : Prop :=
  panel w' = panel w /\ style_step w w'.

(** A dispatcher that completes the quiet deliveries of
    [currentIndexChanged]. *)
Definition SettledOK (em : Emission -> World -> option World) : Prop :=
  forall a w, quiet a w ->
    exists w', em (sig_currentIndexChanged a) w = Some w' /\ quiet_step w w'.

(** The [currentStyleChanged] signals added from [w] to [w'] all carry the
    argument [a]. *)
Definition named_step (a : Arg) (w w' : World) : Prop :=
  exists l, currentStyleChanged_log w' = currentStyleChanged_log w ++ l /\
            Forall (fun n => a = StringArg n) l.

(** A dispatcher whose quiet deliveries of [currentIndexChanged(text)]
    announce no style but [text]. *)
Definition SettledLog (em : Emission -> World -> option World) : Prop :=
  forall a w w', quiet a w -> em (sig_currentIndexChanged a) w = Some w' ->
                 named_step a w w'.

(** A dispatcher that delivers [currentIndexChanged] of the style combo
    box. *)
Definition ComboOK (em : Emission -> World -> option World) : Prop :=
  forall a w, exists w', em (sig_currentIndexChanged a) w = Some w' /\ style_step w w'.

(** The filter of [populateStyles]: the factory keys that are not styles
    built into Qt. *)
Definition notQtStyle (qtStyles : list string) (key : string) : bool :=
  negb (QStringList.contains_ci qtStyles key).

(** What [populateStyles] leaves alone: [style_rest] without the items. *)
Definition populate_rest (w : World) :=
  (signalsBlocked (StyleComboBox (panel w)),
   AdditionalStylePathsView (panel w), FontButton (panel w),
   ShowToolTipsCheckBox (panel w), ShowToolButtonTextCheckBox (panel w),
   RestoreUICheckBox (panel w), AdditionalStylePathMoreButton (panel w),
   AdditionalPaths (panel w), QtStyles (panel w), Properties (panel w),
   Settings (panel w), connections (panel w),
   font (application w), toolTipsEnabled (application w),
   mainWindow (application w), libraryPaths (application w)).

(** One run of [populateStyles]. *)
Definition populate_step (w w' : World) : Prop :=
  populate_rest w' = populate_rest w /\
  (exists l, warnings w' = warnings w ++ l /\ Forall (notFound w) l) /\
  (exists l, currentStyleChanged_log w' = currentStyleChanged_log w ++ l /\
             Forall (found w) l) /\
  stores_frame w w'.

(** The library path list after the first loop of
    [onAdditionalStylePathsChanged] ... *)
Definition removePaths (old libs : list string) : list string :=
  fold_left (fun l p => if QString.isEmpty p then l else QStringList.removeAll l p) old libs.

(** ... and after the second one. *)
Definition addPaths (new libs : list string) : list string :=
  fold_left
    (fun l p => if QString.isEmpty p then l
                else if QStringList.contains l p then l else p :: l) new libs.

(** What [onAdditionalStylePathsChanged] leaves alone. *)
Definition paths_rest (w : World) :=
  (signalsBlocked (StyleComboBox (panel w)),
   AdditionalStylePathsView (panel w), FontButton (panel w),
   ShowToolTipsCheckBox (panel w), ShowToolButtonTextCheckBox (panel w),
   RestoreUICheckBox (panel w), AdditionalStylePathMoreButton (panel w),
   QtStyles (panel w), Properties (panel w),
   Settings (panel w), connections (panel w),
   font (application w), toolTipsEnabled (application w),
   mainWindow (application w)).

(** What no slot changes: the built-in style names, the registered
    properties, the settings object and the connections; settings are written
    at registered keys only, and every warning names a style the factory
    could not create. *)
Definition panel_step (w w' : World) : Prop :=
  QtStyles (panel w') = QtStyles (panel w) /\
  Properties (panel w') = Properties (panel w) /\
  Settings (panel w') = Settings (panel w) /\
  connections (panel w') = connections (panel w) /\
  stores_frame w w' /\
  (exists l, warnings w' = warnings w ++ l /\
             Forall (fun n => exists libs, QStyleFactory_create libs n = None) l).

(** The signal of the directory list view. *)
Definition sig_directoryListChanged (a : Arg) : Emission :=
  mkEmission obj_AdditionalStylePathsView SIGNAL_directoryListChanged a.

(** A dispatcher that delivers [directoryListChanged]. *)
Definition DirOK (em : Emission -> World -> option World) : Prop :=
  forall a w, exists w', em (sig_directoryListChanged a) w = Some w' /\ panel_step w w'.

(** A dispatcher that delivers every signal. *)
Definition AllOK (em : Emission -> World -> option World) : Prop :=
  forall e w, exists w', em e w = Some w' /\ panel_step w w'.

(** [em'] delivers whatever [em] delivers, with the same result. *)
Definition em_le (em em' : Emission -> World -> option World) : Prop :=
  forall e w w', em e w = Some w' -> em' e w = Some w'.

(** The emission of [toggled(b)] by the tooltips check box. *)
Definition sig_showToolTipsToggled (b : bool) : Emission :=
  mkEmission obj_ShowToolTipsCheckBox SIGNAL_toggled (BoolArg b).

(** The property [init] registers for the tooltips check box. *)
Definition noTooltipProperty : PropertyType :=
  mkProperty obj_ShowToolTipsCheckBox "checked" SIGNAL_toggled "" OptionNone None.

(** What the delivery of [toggled(b)] by the tooltips check box keeps: the
    box is checked as [b], its property is registered, and the panel has the
    settings object [s]. *)
Definition tooltips_inv (b : bool) (s : SettingsStore) (w : World) : Prop :=
  ShowToolTipsCheckBox (panel w) = b /\
  Properties (panel w) !! "no-tooltip" = Some noTooltipProperty /\
  Settings (panel w) = Some s.

(** The properties [init] registers, in the order of registration. *)
Definition registerAll (m : gmap string PropertyType) : gmap string PropertyType :=
  <["Styles/Style" :=
      mkProperty obj_q "currentStyle" SIGNAL_currentStyleChanged "Current style"
        OptionNone (Some RevisionUserSettings)]>
  (<["Styles/AdditionalPaths" :=
      mkProperty obj_AdditionalStylePathsView "directoryList"
        SIGNAL_directoryListChanged "Additional style paths" OptionRequireRestart
        (Some RevisionUserSettings)]>
  (<["MainWindow/RestoreGeometry" :=
      mkProperty obj_RestoreUICheckBox "checked" SIGNAL_toggled "" OptionNone None]>
  (<["MainWindow/ShowToolButtonText" :=
      mkProperty obj_ShowToolButtonTextCheckBox "checked" SIGNAL_toggled ""
        OptionNone None]>
  (<["font" :=
      mkProperty obj_FontButton "currentFont" SIGNAL_currentFontChanged ""
        OptionNone None]>
  (<["no-tooltip" := noTooltipProperty]> m))))).

(** The connections [init] makes, in the order of connection. *)
Definition initConnections : list Connection :=
  [ Conn_onFontChanged; Conn_onShowToolTipsToggled; Conn_onShowToolButtonTextToggled;
    Conn_updateSetting "no-tooltip"; Conn_updateSetting "font";
    Conn_updateSetting "MainWindow/ShowToolButtonText";
    Conn_updateSetting "MainWindow/RestoreGeometry";
    Conn_onAdditionalStylePathsChanged; Conn_updateSetting "Styles/AdditionalPaths";
    Conn_onStyleChanged; Conn_updateSetting "Styles/Style";
    Conn_onAddStyleAdditionalPathClicked; Conn_onRemoveStyleAdditionalPathClicked ].

(** The six keys [init] registers. *)
Definition registeredKeys : gset string :=
  {[ "no-tooltip"; "font"; "MainWindow/ShowToolButtonText";
     "MainWindow/RestoreGeometry"; "Styles/AdditionalPaths"; "Styles/Style" ]}.

(** The public operations of the panel that change something: the slots and
    [setCurrentStyle]. *)
Inductive Operation :=
| Op_setCurrentStyle (newStyleName : string)
| Op_onStyleChanged (newStyleName : string)
| Op_onAdditionalStylePathsChanged
| Op_onAddStyleAdditionalPathClicked
| Op_onRemoveStyleAdditionalPathClicked
| Op_onFontChanged (font : QFont)
| Op_onShowToolTipsToggled (disable : bool)
| Op_onShowToolButtonTextToggled (enable : bool).

(** A call of a public operation. *)
Definition run (em : Emission -> World -> option World) (op : Operation)
    (w : World) : option World :=
  match op with
  | Op_setCurrentStyle name => setCurrentStyle em name w
  | Op_onStyleChanged name => onStyleChanged_ em name w
  | Op_onAdditionalStylePathsChanged => onAdditionalStylePathsChanged_ em w
  | Op_onAddStyleAdditionalPathClicked => onAddStyleAdditionalPathClicked_ em w
  | Op_onRemoveStyleAdditionalPathClicked => onRemoveStyleAdditionalPathClicked em w
  | Op_onFontChanged f => Some (onFontChanged f w)
  | Op_onShowToolTipsToggled b => Some (onShowToolTipsToggled b w)
  | Op_onShowToolButtonTextToggled b => Some (onShowToolButtonTextToggled b w)
  end.

(** The wiring [init] leaves behind: its connections, in the order they
    were made, and the six registered properties. *)
Definition wired (w : World) : Prop :=
  connections (panel w) = initConnections /\ Properties (panel w) = registerAll ∅.

(** The wiring, as a test that can be evaluated. *)
Definition SettingsStore_eq_dec (s s' : SettingsStore) : {s = s'} + {s <> s'}.
Proof. decide equality. Defined.

Definition PropertyType_eq_dec (p q : PropertyType) : {p = q} + {p <> q}.
Proof.
  decide equality.
  - decide equality. apply SettingsStore_eq_dec.
  - decide equality.
  - apply string_dec.
  - apply Signal_eq_dec.
  - apply string_dec.
  - apply Object_eq_dec.
Defined.

Definition wired_b (w : World) : bool :=
  (if @list_eq_dec Connection Connection_eq_dec (connections (panel w)) initConnections
   then true else false)
  && (if @gmap_eq_dec string _ _ PropertyType PropertyType_eq_dec
           (Properties (panel w)) (registerAll ∅)
      then true else false).

(** What [onStyleChanged] does to the application with a style the factory
    created: the filter of the old style is removed, the style is set and
    installed as event filter, and its standard palette is set. *)
Definition applied (st : QStyle) (w : World) : World :=
  setPalette (standardPalette st)
    (installEventFilter st
       (setStyle st (removeEventFilter (style (application w)) w))).

(** The three straight-line stages of [init]: the general appearance
    settings (before the more-button is unchecked), the additional-path
    setting (before [populateStyles]) and the style setting together with
    the buttons (after [setCurrentStyle]). *)
Definition init_general (w : World) : World :=
  registerProperty "MainWindow/RestoreGeometry" obj_RestoreUICheckBox
    "checked" SIGNAL_toggled "" OptionNone None
    (registerProperty "MainWindow/ShowToolButtonText"
       obj_ShowToolButtonTextCheckBox "checked" SIGNAL_toggled "" OptionNone None
       (registerProperty "font" obj_FontButton "currentFont"
          SIGNAL_currentFontChanged "" OptionNone None
          (registerProperty "no-tooltip" obj_ShowToolTipsCheckBox "checked"
             SIGNAL_toggled "" OptionNone None
             (connect Conn_onShowToolButtonTextToggled
                (connect Conn_onShowToolTipsToggled
                   (connect Conn_onFontChanged w)))))).

Definition init_paths (w : World) : World :=
  registerProperty "Styles/AdditionalPaths" obj_AdditionalStylePathsView
    "directoryList" SIGNAL_directoryListChanged "Additional style paths"
    OptionRequireRestart (Some RevisionUserSettings)
    (connect Conn_onAdditionalStylePathsChanged w).

Definition init_style (w : World) : World :=
  connect Conn_onRemoveStyleAdditionalPathClicked
    (connect Conn_onAddStyleAdditionalPathClicked
       (registerProperty "Styles/Style" obj_q "currentStyle"
          SIGNAL_currentStyleChanged "Current style" OptionNone
          (Some RevisionUserSettings)
          (connect Conn_onStyleChanged w))).

(** No connection of [w] listens to [currentIndexChanged] of the combo box. *)
Definition deaf_combo (w : World) : Prop :=
  forall a, Forall (fun c => listens c (sig_currentIndexChanged a) w = false)
              (connections (panel w)).

(** The style list [populateStyles] builds for [w]. *)
Definition offeredStyles (w : World) : list string :=
  List.filter (notQtStyle (QtStyles (panel w)))
    (QStyleFactory_keys (libraryPaths (application w))).

(** [listens], read from the registered properties and from the sender and
    the signal of the emission. *)
Definition listens_in (m : gmap string PropertyType) (c : Connection)
    (o : Object) (s : Signal) : bool :=
  match c with
  | Conn_onFontChanged =>
      @bool_decide _ (Object_eq_dec o obj_FontButton)
      && @bool_decide _ (Signal_eq_dec s SIGNAL_currentFontChanged)
  | Conn_onShowToolTipsToggled =>
      @bool_decide _ (Object_eq_dec o obj_ShowToolTipsCheckBox)
      && @bool_decide _ (Signal_eq_dec s SIGNAL_toggled)
  | Conn_onShowToolButtonTextToggled =>
      @bool_decide _ (Object_eq_dec o obj_ShowToolButtonTextCheckBox)
      && @bool_decide _ (Signal_eq_dec s SIGNAL_toggled)
  | Conn_onAdditionalStylePathsChanged =>
      @bool_decide _ (Object_eq_dec o obj_AdditionalStylePathsView)
      && @bool_decide _ (Signal_eq_dec s SIGNAL_directoryListChanged)
  | Conn_onStyleChanged =>
      @bool_decide _ (Object_eq_dec o obj_StyleComboBox)
      && @bool_decide _ (Signal_eq_dec s SIGNAL_currentIndexChanged)
  | Conn_onAddStyleAdditionalPathClicked =>
      @bool_decide _ (Object_eq_dec o obj_AddAdditionalStylePathButton)
      && @bool_decide _ (Signal_eq_dec s SIGNAL_clicked)
  | Conn_onRemoveStyleAdditionalPathClicked =>
      @bool_decide _ (Object_eq_dec o obj_RemoveAdditionalStylePathButton)
      && @bool_decide _ (Signal_eq_dec s SIGNAL_clicked)
  | Conn_updateSetting key =>
      match m !! key with
      | Some p =>
          @bool_decide _ (Object_eq_dec o (prop_object p))
          && @bool_decide _ (Signal_eq_dec s (prop_signal p))
      | None => false
      end
  end.

(** The connections made by [init] that listen to a signal, in the order of
    delivery. *)
Definition listeners (o : Object) (s : Signal) : list Connection :=
  List.filter (fun c => listens_in (registerAll ∅) c o s) initConnections.

(** The paths the first loop of [onAdditionalStylePathsChanged] keeps for
    the old list [old]: the empty path, which [removeLibraryPath] ignores,
    and the paths that are not in [old]. *)
Definition keptPath (old : list string) (q : string) : bool :=
  QString.isEmpty q || negb (QStringList.contains old q).

(** The directories [removeSelectedDirectories] keeps. *)
Definition keptDirectories (v : ctkDirectoryListView) : list string :=
  List.filter (fun d => negb (QStringList.contains (selectedDirectories v) d))
    (directories v).

(** *** The combo box *)

Lemma findText_from_spec (l : list string) :
  forall (i : Z) (text : string),
    (~ In text l /\ ComboBox.findText_from i l text = -1) \/
    (exists n : nat,
        ComboBox.findText_from i l text = i + Z.of_nat n /\ (n < length l)%nat /\
        nth n l "" = text).
Proof.
  induction l as [|x xs IH]; intros i text; simpl.
  - left. split; [tauto | reflexivity].
  - destruct (String.eqb_spec x text) as [->|Hne].
    + right. exists 0%nat. simpl. split; [lia | split; [lia | reflexivity]].
    + destruct (IH (i + 1) text) as [[Hnot Heq] | (n & Heq & Hlt & Hnth)].
      * left. split; [intros [H|H]; [congruence | tauto] | exact Heq].
      * right. exists (S n). simpl. split; [lia | split; [lia | exact Hnth]].
Qed.

Lemma findText_range (cb : QComboBox) (text : string) :
  -1 <= ComboBox.findText cb text < ComboBox.count cb.
Proof.
  unfold ComboBox.findText, ComboBox.count.
  destruct (findText_from_spec (items cb) 0 text) as [[_ ->] | (n & -> & Hlt & _)]; lia.
Qed.

Lemma findText_In (cb : QComboBox) (text : string) :
  In text (items cb) ->
  0 <= ComboBox.findText cb text < ComboBox.count cb /\ ComboBox.itemText cb (ComboBox.findText cb text) = text.
Proof.
  intros Hin. unfold ComboBox.findText, ComboBox.count, ComboBox.itemText.
  destruct (findText_from_spec (items cb) 0 text) as [[Hnot _] | (n & -> & Hlt & Hnth)];
    [tauto|].
  split; [lia|].
  destruct (Z.ltb_spec (0 + Z.of_nat n) 0); [lia|].
  replace (Z.to_nat (0 + Z.of_nat n)) with n by lia. exact Hnth.
Qed.

Lemma findText_not_In (cb : QComboBox) (text : string) :
  ~ In text (items cb) -> ComboBox.findText cb text = -1.
Proof.
  intros Hnot. unfold ComboBox.findText.
  destruct (findText_from_spec (items cb) 0 text) as [[_ ->] | (n & _ & Hlt & Hnth)];
    [reflexivity|].
  exfalso. apply Hnot. rewrite <- Hnth. apply nth_In. exact Hlt.
Qed.

(** Only an index in range has a text that is not empty. *)
Lemma itemText_in_range (cb : QComboBox) (i : Z) :
  ComboBox.itemText cb i <> "" -> 0 <= i < ComboBox.count cb.
Proof.
  unfold ComboBox.itemText, ComboBox.count. intros Ht.
  destruct (Z.ltb_spec i 0) as [|Hi]; [congruence|].
  split; [exact Hi|].
  destruct (Z_lt_le_dec i (Z.of_nat (length (items cb)))) as [|Hge]; [assumption|].
  exfalso. apply Ht. apply nth_overflow. lia.
Qed.

(** In a combo box without duplicate entries, [findText] of the text of an
    entry is the index of that entry. *)
Lemma findText_NoDup (cb : QComboBox) (i : Z) :
  List.NoDup (items cb) -> 0 <= i < ComboBox.count cb ->
  ComboBox.findText cb (ComboBox.itemText cb i) = i.
Proof.
  intros Hnd Hi.
  assert (Hin : In (ComboBox.itemText cb i) (items cb)).
  { unfold ComboBox.itemText, ComboBox.count in *.
    destruct (Z.ltb_spec i 0); [lia|]. apply nth_In. lia. }
  destruct (findText_In cb _ Hin) as [Hj Htext].
  set (j := ComboBox.findText cb (ComboBox.itemText cb i)) in *.
  unfold ComboBox.itemText, ComboBox.count in *.
  destruct (Z.ltb_spec j 0); [lia|]. destruct (Z.ltb_spec i 0); [lia|].
  assert (Z.to_nat j = Z.to_nat i); [|lia].
  apply (proj1 (List.NoDup_nth (items cb) "") Hnd); [lia | lia | exact Htext].
Qed.

Lemma setCurrentIndex_items (i : Z) (cb : QComboBox) :
  items (fst (ComboBox.setCurrentIndex i cb)) = items cb.
Proof. unfold ComboBox.setCurrentIndex. destruct (_ =? _); reflexivity. Qed.

Lemma setCurrentIndex_blocked (i : Z) (cb : QComboBox) :
  signalsBlocked (fst (ComboBox.setCurrentIndex i cb)) = signalsBlocked cb.
Proof. unfold ComboBox.setCurrentIndex. destruct (_ =? _); reflexivity. Qed.

Lemma modelIndex_in_range (i : Z) (cb : QComboBox) :
  -1 <= i < ComboBox.count cb ->
  (if (0 <=? i) && (i <? ComboBox.count cb) then i else -1) = i.
Proof.
  intros Hi.
  destruct (Z.leb_spec 0 i); destruct (Z.ltb_spec i (ComboBox.count cb)); simpl; lia.
Qed.

Lemma setCurrentIndex_index (i : Z) (cb : QComboBox) :
  -1 <= i < ComboBox.count cb ->
  currentIndex (fst (ComboBox.setCurrentIndex i cb)) = i.
Proof.
  intros Hi. unfold ComboBox.setCurrentIndex. cbv zeta.
  rewrite (modelIndex_in_range i cb Hi).
  destruct (Z.eqb_spec i (currentIndex cb)); simpl; congruence.
Qed.

Lemma setCurrentIndex_same (i : Z) (cb : QComboBox) :
  -1 <= i < ComboBox.count cb -> currentIndex cb = i ->
  ComboBox.setCurrentIndex i cb = (cb, None).
Proof.
  intros Hi Hc. unfold ComboBox.setCurrentIndex. cbv zeta.
  rewrite (modelIndex_in_range i cb Hi), Hc, Z.eqb_refl. reflexivity.
Qed.

Lemma setCurrentIndex_text (i : Z) (cb : QComboBox) (text : string) :
  -1 <= i < ComboBox.count cb ->
  snd (ComboBox.setCurrentIndex i cb) = Some text -> text = ComboBox.itemText cb i.
Proof.
  intros Hi. unfold ComboBox.setCurrentIndex. cbv zeta.
  rewrite (modelIndex_in_range i cb Hi).
  destruct (i =? currentIndex cb); cbn [snd]; [discriminate|].
  intros [= <-]. reflexivity.
Qed.

Lemma setCurrentIndex_cases (i : Z) (cb : QComboBox) :
  -1 <= i < ComboBox.count cb ->
  (currentIndex cb = i /\ ComboBox.setCurrentIndex i cb = (cb, None)) \/
  (currentIndex cb <> i /\
   ComboBox.setCurrentIndex i cb =
     (mkComboBox (items cb) i (signalsBlocked cb), Some (ComboBox.itemText cb i))).
Proof.
  intros Hi. destruct (Z.eq_dec (currentIndex cb) i) as [Heq|Hne].
  - left. split; [exact Heq | apply setCurrentIndex_same; assumption].
  - right. split; [exact Hne|].
    unfold ComboBox.setCurrentIndex. cbv zeta.
    rewrite (modelIndex_in_range i cb Hi).
    destruct (Z.eqb_spec i (currentIndex cb)); [congruence | reflexivity].
Qed.

Lemma stores_frame_refl (w : World) : stores_frame w w.
Proof. intros s k _. reflexivity. Qed.

Lemma stores_frame_trans (w1 w2 w3 : World) :
  Properties (panel w2) = Properties (panel w1) ->
  stores_frame w1 w2 -> stores_frame w2 w3 -> stores_frame w1 w3.
Proof.
  intros Hp H1 H2 s k Hk. rewrite H2, H1; [reflexivity | exact Hk |].
  rewrite Hp. exact Hk.
Qed.

Lemma stores_frame_same (w w' : World) :
  userSettings w' = userSettings w ->
  revisionUserSettings w' = revisionUserSettings w ->
  stores_frame w w'.
Proof. intros Hu Hr [] k _; cbn; congruence. Qed.

Lemma settings_only_refl (w : World) : settings_only w w.
Proof. repeat split. Qed.

Lemma settings_only_trans (w1 w2 w3 : World) :
  settings_only w1 w2 -> settings_only w2 w3 -> settings_only w1 w3.
Proof.
  intros (Hp1 & Ha1 & Hw1 & Hl1 & Hs1) (Hp2 & Ha2 & Hw2 & Hl2 & Hs2).
  repeat split; try congruence.
  eapply stores_frame_trans; [|eassumption|eassumption]. congruence.
Qed.

Lemma settings_only_style_rest (w w' : World) :
  settings_only w w' -> style_rest w' = style_rest w.
Proof. intros (Hp & Ha & _). unfold style_rest. rewrite Hp, Ha. reflexivity. Qed.

Lemma style_rest_libraryPaths (w w' : World) :
  style_rest w' = style_rest w ->
  libraryPaths (application w') = libraryPaths (application w).
Proof. unfold style_rest. intros Heq. congruence. Qed.

Lemma style_rest_Properties (w w' : World) :
  style_rest w' = style_rest w ->
  Properties (panel w') = Properties (panel w).
Proof. unfold style_rest. intros Heq. congruence. Qed.

Lemma style_step_refl (w : World) : style_step w w.
Proof.
  split; [reflexivity|].
  split; [|split]; [exists [] | exists [] | apply stores_frame_refl];
    rewrite app_nil_r; split; auto.
Qed.

Lemma style_step_trans (w1 w2 w3 : World) :
  style_step w1 w2 -> style_step w2 w3 -> style_step w1 w3.
Proof.
  intros (Hr1 & (l1 & Hw1 & Hf1) & (m1 & Hl1 & Hg1) & Hs1)
         (Hr2 & (l2 & Hw2 & Hf2) & (m2 & Hl2 & Hg2) & Hs2).
  pose proof (style_rest_libraryPaths _ _ Hr1) as Hlibs.
  split; [congruence|].
  split; [|split];
    [| |eapply stores_frame_trans;
         [apply style_rest_Properties; exact Hr1 | eassumption | eassumption]].
  - exists (l1 ++ l2). split.
    + rewrite Hw2, Hw1, <- app_assoc. reflexivity.
    + apply Forall_app. split; [exact Hf1|].
      eapply Forall_impl; [exact Hf2|]. unfold notFound. intros n. rewrite Hlibs. auto.
  - exists (m1 ++ m2). split.
    + rewrite Hl2, Hl1, <- app_assoc. reflexivity.
    + apply Forall_app. split; [exact Hg1|].
      eapply Forall_impl; [exact Hg2|]. unfold found. intros n. rewrite Hlibs. auto.
Qed.

Lemma settings_only_style_step (w w' : World) :
  settings_only w w' -> style_step w w'.
Proof.
  intros Hs. split; [apply settings_only_style_rest; exact Hs|].
  destruct Hs as (_ & _ & Hw & Hl & Hst).
  split; [|split]; [exists [] | exists [] | exact Hst];
    rewrite app_nil_r; split; auto.
Qed.

Lemma updateSetting_settings_only (key : string) (w : World) :
  settings_only w (updateSetting key w).
Proof.
  unfold updateSetting.
  destruct (Properties (panel w) !! key) as [p|] eqn:Hp; [|apply settings_only_refl].
  destruct (match prop_settings p with Some s => Some s | None => Settings (panel w) end)
    as [s|]; [|apply settings_only_refl].
  split; [reflexivity|]. split; [reflexivity|]. split; [reflexivity|].
  split; [reflexivity|].
  intros s' k Hk.
  assert (key <> k) by congruence.
  destruct s, s'; cbn; try reflexivity; apply lookup_insert_ne; assumption.
Qed.

(** A generic fold over the connections. *)
Lemma deliverAll_step (em : Emission -> World -> option World) (e : Emission)
    (I : World -> Prop) (R : World -> World -> Prop) :
  (forall w, R w w) ->
  (forall w1 w2 w3, R w1 w2 -> R w2 w3 -> R w1 w3) ->
  (forall c w, I w -> exists w', deliver_ em c e w = Some w' /\ I w' /\ R w w') ->
  forall cs w, I w -> exists w', deliverAll_ em cs e w = Some w' /\ I w' /\ R w w'.
Proof.
  intros Hrefl Htrans Hstep cs.
  induction cs as [|c cs IH]; intros w Hw; simpl.
  - exists w. auto.
  - destruct (Hstep c w Hw) as (w1 & -> & Hw1 & HR1). simpl.
    destruct (IH w1 Hw1) as (w2 & -> & Hw2 & HR2).
    exists w2. eauto.
Qed.

Lemma deliver_leaf (em : Emission -> World -> option World) (c : Connection)
    (a : Arg) (w : World) :
  exists w', deliver_ em c (sig_currentStyleChanged a) w = Some w' /\ settings_only w w'.
Proof.
  unfold deliver.
  destruct (listens c (sig_currentStyleChanged a) w) eqn:Hl;
    [|eexists; split; [reflexivity | apply settings_only_refl]].
  destruct c; cbn in Hl; try discriminate.
  exists (updateSetting key w). split; [|apply updateSetting_settings_only].
  destruct a; reflexivity.
Qed.

Lemma emit_leaf (d : nat) : LeafOK (emit_ (S d)).
Proof.
  intros a w. simpl.
  destruct (deliverAll_step (emit_ d) (sig_currentStyleChanged a)
              (fun _ => True) settings_only settings_only_refl settings_only_trans)
    with (cs := connections (panel w)) (w := w) as (w' & Hw' & _ & HR); auto.
  - intros c w0 _. destruct (deliver_leaf (emit_ d) c a w0) as (w1 & H1 & H2). eauto.
  - eauto.
Qed.

Lemma styleIndex_Slicer (w : World) :
  styleIndex "Slicer" w = ComboBox.findText (StyleComboBox (panel w)) "Slicer".
Proof. unfold styleIndex. destruct (_ =? -1); reflexivity. Qed.

Lemma styleIndex_range (name : string) (w : World) :
  -1 <= styleIndex name w < ComboBox.count (StyleComboBox (panel w)).
Proof.
  unfold styleIndex. destruct (_ =? -1); apply findText_range.
Qed.

(** [onStyleChanged] for a style the factory creates. *)
Lemma onStyleChanged_found (em : Emission -> World -> option World)
    (name : string) (st : QStyle) (w : World) :
  LeafOK em ->
  QStyleFactory_create (libraryPaths (application w)) name = Some st ->
  exists w',
    onStyleChanged_ em name w = Some w' /\
    panel w' = panel w /\
    application w' =
      application
        (setPalette (standardPalette st)
           (installEventFilter st
              (setStyle st (removeEventFilter (style (application w)) w)))) /\
    warnings w' = warnings w /\
    currentStyleChanged_log w' = currentStyleChanged_log w ++ [name] /\
    stores_frame w w'.
Proof.
  intros Hleaf Hc. unfold onStyleChanged. cbn.
  rewrite Hc.
  match goal with
  | |- context [em ?e ?w0] =>
      destruct (Hleaf (StringArg name) w0) as (w' & Hw' & Hp & Ha & Hwn & Hlog & Hst)
  end.
  exists w'. split; [exact Hw'|].
  rewrite Hp, Ha, Hwn, Hlog. repeat split. exact Hst.
Qed.

Lemma found_style_step (w w' : World) (name : string) :
  found w name ->
  panel w' = panel w ->
  font (application w') = font (application w) ->
  toolTipsEnabled (application w') = toolTipsEnabled (application w) ->
  mainWindow (application w') = mainWindow (application w) ->
  libraryPaths (application w') = libraryPaths (application w) ->
  warnings w' = warnings w ->
  currentStyleChanged_log w' = currentStyleChanged_log w ++ [name] ->
  stores_frame w w' ->
  style_step w w'.
Proof.
  intros Hf Hp H1 H2 H3 H4 Hw Hl Hst. split.
  - unfold style_rest. rewrite Hp, H1, H2, H3, H4. reflexivity.
  - split; [|split].
    + exists []. rewrite app_nil_r. auto.
    + exists [name]. split; [exact Hl|]. constructor; [exact Hf | constructor].
    + exact Hst.
Qed.

Lemma onStyleChanged_found_step (em : Emission -> World -> option World)
    (name : string) (w : World) :
  LeafOK em -> found w name ->
  exists w', onStyleChanged_ em name w = Some w' /\
             panel w' = panel w /\ style_step w w'.
Proof.
  intros Hleaf Hf. pose proof Hf as Hf'. unfold found in Hf'.
  destruct (QStyleFactory_create (libraryPaths (application w)) name) as [st|] eqn:Hc;
    [|congruence].
  destruct (onStyleChanged_found em name st w Hleaf Hc)
    as (w' & Hw' & Hp & Ha & Hwn & Hlog & Hst).
  exists w'. split; [exact Hw'|]. split; [exact Hp|].
  apply (found_style_step w w' name); auto; rewrite Ha; reflexivity.
Qed.

Lemma warned_style_step (name : string) (w : World) (cb : QComboBox) :
  notFound w name ->
  items cb = items (StyleComboBox (panel w)) ->
  signalsBlocked cb = signalsBlocked (StyleComboBox (panel w)) ->
  style_step w (set_StyleComboBox cb (warned name w)).
Proof.
  intros Hn Hi Hb. split.
  - unfold style_rest. cbn. rewrite Hi, Hb. reflexivity.
  - split; [|split].
    + exists [name]. split; [reflexivity|]. constructor; [exact Hn | constructor].
    + exists []. cbn. rewrite app_nil_r. auto.
    + apply stores_frame_same; reflexivity.
Qed.

Lemma set_StyleComboBox_same (w : World) :
  set_StyleComboBox (StyleComboBox (panel w)) w = w.
Proof. destruct w as [[] ? ? ? ? ?]. reflexivity. Qed.

(** [onStyleChanged] when the current index already is the fallback one:
    the style is not found, the warning is logged and nothing else
    happens. *)
Lemma onStyleChanged_notFound_settled (em : Emission -> World -> option World)
    (name : string) (w : World) :
  notFound w name -> settled w ->
  onStyleChanged_ em name w = Some (warned name w).
Proof.
  intros Hn Hs. unfold onStyleChanged. cbn.
  unfold notFound in Hn. rewrite Hn.
  unfold setCurrentStyle. rewrite styleIndex_Slicer. cbn.
  rewrite setCurrentIndex_same;
    [|apply findText_range | exact Hs].
  unfold comboNotify, warned. cbn.
  destruct w as [[] ? ? ? ? ?]. reflexivity.
Qed.

Lemma quiet_step_refl (w : World) : quiet_step w w.
Proof. split; [reflexivity | apply style_step_refl]. Qed.

Lemma quiet_step_trans (w1 w2 w3 : World) :
  quiet_step w1 w2 -> quiet_step w2 w3 -> quiet_step w1 w3.
Proof.
  intros [Hp1 Hs1] [Hp2 Hs2]. split; [congruence|].
  eapply style_step_trans; eassumption.
Qed.

Lemma quiet_step_quiet (a : Arg) (w w' : World) :
  quiet_step w w' -> quiet a w -> quiet a w'.
Proof.
  intros [Hp (Hr & _)] [Hs | Hf].
  - left. unfold settled in *. rewrite Hp. exact Hs.
  - right. intros s Hs. unfold found.
    rewrite (style_rest_libraryPaths _ _ Hr). apply Hf. exact Hs.
Qed.

Lemma warned_quiet_step (name : string) (w : World) :
  notFound w name -> quiet_step w (warned name w).
Proof.
  intros Hn. split; [reflexivity|].
  replace (warned name w)
    with (set_StyleComboBox (StyleComboBox (panel w)) (warned name w))
    by (destruct w as [[] ? ? ? ? ?]; reflexivity).
  apply warned_style_step; auto.
Qed.

Lemma onStyleChanged_quiet (em : Emission -> World -> option World)
    (name : string) (w : World) :
  LeafOK em -> quiet (StringArg name) w ->
  exists w', onStyleChanged_ em name w = Some w' /\ quiet_step w w'.
Proof.
  intros Hleaf Hq.
  destruct (QStyleFactory_create (libraryPaths (application w)) name) as [st|] eqn:Hc.
  - apply onStyleChanged_found_step; [exact Hleaf|]. unfold found. congruence.
  - destruct Hq as [Hs | Hf]; [|exfalso; apply (Hf name eq_refl); exact Hc].
    exists (warned name w). split.
    + apply onStyleChanged_notFound_settled; assumption.
    + apply warned_quiet_step. exact Hc.
Qed.

Lemma settings_only_quiet_step (w w' : World) :
  settings_only w w' -> quiet_step w w'.
Proof.
  intros Hs. split; [apply Hs | apply settings_only_style_step; exact Hs].
Qed.

Lemma deliver_quiet (em : Emission -> World -> option World) (c : Connection)
    (a : Arg) (w : World) :
  LeafOK em -> quiet a w ->
  exists w', deliver_ em c (sig_currentIndexChanged a) w = Some w' /\
             quiet a w' /\ quiet_step w w'.
Proof.
  intros Hleaf Hq.
  assert (Hkeep : forall w', quiet_step w w' -> quiet a w' /\ quiet_step w w').
  { intros w' Hs. split; [eapply quiet_step_quiet; eassumption | exact Hs]. }
  unfold deliver.
  destruct (listens c (sig_currentIndexChanged a) w) eqn:Hl;
    [|exists w; split; [reflexivity | apply Hkeep, quiet_step_refl]].
  destruct c; cbn in Hl; try discriminate.
  - destruct a as [| b | s | f];
      try (exists w; split; [reflexivity | apply Hkeep, quiet_step_refl]).
    destruct (onStyleChanged_quiet em s w Hleaf Hq) as (w' & Hw' & Hs).
    exists w'. split; [exact Hw' | apply Hkeep, Hs].
  - exists (updateSetting key w). split; [destruct a; reflexivity|].
    apply Hkeep, settings_only_quiet_step, updateSetting_settings_only.
Qed.

Lemma emit_settled (d : nat) : SettledOK (emit_ (S (S d))).
Proof.
  intros a w Hq. cbn [emit].
  destruct (deliverAll_step (emit_ (S d)) (sig_currentIndexChanged a)
              (quiet a) quiet_step quiet_step_refl quiet_step_trans)
    with (cs := connections (panel w)) (w := w) as (w' & Hw' & _ & HR); auto.
  - intros c w0 Hq0. apply deliver_quiet; [apply emit_leaf | exact Hq0].
  - eauto.
Qed.

Lemma named_step_refl (a : Arg) (w : World) : named_step a w w.
Proof. exists []. rewrite app_nil_r. auto. Qed.

Lemma named_step_trans (a : Arg) (w1 w2 w3 : World) :
  named_step a w1 w2 -> named_step a w2 w3 -> named_step a w1 w3.
Proof.
  intros (l1 & H1 & F1) (l2 & H2 & F2). exists (l1 ++ l2). split.
  - rewrite H2, H1, <- app_assoc. reflexivity.
  - apply Forall_app. auto.
Qed.

Lemma deliver_quiet_named (em : Emission -> World -> option World) (c : Connection)
    (a : Arg) (w w' : World) :
  LeafOK em -> quiet a w ->
  deliver_ em c (sig_currentIndexChanged a) w = Some w' -> named_step a w w'.
Proof.
  intros Hleaf Hq. unfold deliver.
  destruct (listens c (sig_currentIndexChanged a) w) eqn:Hl;
    [|intros [= <-]; apply named_step_refl].
  destruct c; cbn in Hl; try discriminate.
  - destruct a as [| b | s | f]; try (intros [= <-]; apply named_step_refl).
    cbn [arg sig_currentIndexChanged]. intros Hrun.
    destruct (QStyleFactory_create (libraryPaths (application w)) s) as [st|] eqn:Hc.
    + destruct (onStyleChanged_found em s st w Hleaf Hc)
        as (w'' & Hw'' & _ & _ & _ & Hlog & _).
      assert (w' = w'') by congruence. subst w''.
      exists [s]. split; [exact Hlog|]. constructor; [reflexivity | constructor].
    + destruct Hq as [Hs | Hf]; [|exfalso; apply (Hf s eq_refl); exact Hc].
      rewrite (onStyleChanged_notFound_settled em s w Hc Hs) in Hrun.
      injection Hrun as <-. exists []. cbn. rewrite app_nil_r. auto.
  - intros Hrun.
    assert (w' = updateSetting key w) by (destruct a; cbn in Hrun; congruence).
    subst w'. exists []. rewrite app_nil_r. split; [|constructor].
    apply (updateSetting_settings_only key w).
Qed.

Lemma deliverAll_quiet_named (em : Emission -> World -> option World) (a : Arg)
    (cs : list Connection) :
  LeafOK em ->
  forall w w', quiet a w ->
    deliverAll_ em cs (sig_currentIndexChanged a) w = Some w' -> named_step a w w'.
Proof.
  intros Hleaf. induction cs as [|c cs IH]; intros w w' Hq; simpl.
  - intros [= <-]. apply named_step_refl.
  - destruct (deliver_quiet em c a w Hleaf Hq) as (w1 & Hw1 & Hq1 & _).
    rewrite Hw1. simpl. intros Hrest.
    eapply named_step_trans; [|apply (IH w1 w' Hq1 Hrest)].
    apply (deliver_quiet_named em c a w w1 Hleaf Hq Hw1).
Qed.

Lemma emit_settled_named (d : nat) : SettledLog (emit_ (S (S d))).
Proof.
  intros a w w' Hq. cbn [emit].
  apply deliverAll_quiet_named; [apply emit_leaf | exact Hq].
Qed.

(** The [currentStyleChanged] signals of the fallback all name the fallback
    entry of the combo box. *)
Lemma onStyleChanged_notFound_named (em : Emission -> World -> option World)
    (name : string) (w w' : World) :
  SettledLog em -> notFound w name ->
  onStyleChanged_ em name w = Some w' ->
  exists l,
    currentStyleChanged_log w' = currentStyleChanged_log w ++ l /\
    Forall (fun n => n = ComboBox.itemText (StyleComboBox (panel w))
                          (ComboBox.findText (StyleComboBox (panel w)) "Slicer")) l.
Proof.
  intros Hnamed Hn.
  destruct (Z.eq_dec (currentIndex (StyleComboBox (panel w)))
              (ComboBox.findText (StyleComboBox (panel w)) "Slicer")) as [Hs|Hns].
  { rewrite (onStyleChanged_notFound_settled em name w Hn Hs). intros [= <-].
    exists []. cbn. rewrite app_nil_r. auto. }
  unfold onStyleChanged. cbn. pose proof Hn as Hn'. unfold notFound in Hn'. rewrite Hn'.
  unfold setCurrentStyle. rewrite styleIndex_Slicer. cbn.
  set (cb := StyleComboBox (panel w)) in *.
  set (j := ComboBox.findText cb "Slicer") in *.
  destruct (setCurrentIndex_cases j cb (findText_range cb "Slicer"))
    as [[Heq _] | [_ Hset]]; [contradiction|].
  rewrite Hset. unfold comboNotify. cbn.
  destruct (signalsBlocked cb) eqn:Hb.
  - intros [= <-]. exists []. cbn. rewrite app_nil_r. auto.
  - intros Hrun. apply Hnamed in Hrun; [|left; unfold settled; cbn; reflexivity].
    destruct Hrun as (l & Hl & Hall). exists l. split; [exact Hl|].
    eapply Forall_impl; [exact Hall|]. intros n [= ->]. reflexivity.
Qed.

(** [onStyleChanged] for a style the factory does not create: the warning
    is logged first and the current index ends on the fallback index. *)
Lemma onStyleChanged_notFound (em : Emission -> World -> option World)
    (name : string) (w : World) :
  SettledOK em -> notFound w name ->
  exists w',
    onStyleChanged_ em name w = Some w' /\
    style_step w w' /\
    currentIndex (StyleComboBox (panel w')) =
      ComboBox.findText (StyleComboBox (panel w)) "Slicer" /\
    (exists rest, warnings w' = warnings w ++ name :: rest) /\
    (settled w -> currentStyleChanged_log w' = currentStyleChanged_log w).
Proof.
  intros Hsettled Hn.
  destruct (Z.eq_dec (currentIndex (StyleComboBox (panel w)))
              (ComboBox.findText (StyleComboBox (panel w)) "Slicer")) as [Hs|Hns].
  { exists (warned name w). split; [apply onStyleChanged_notFound_settled; assumption|].
    split; [apply warned_quiet_step; exact Hn|].
    split; [exact Hs|]. split; [exists []; reflexivity | reflexivity]. }
  unfold onStyleChanged. cbn. pose proof Hn as Hn'. unfold notFound in Hn'. rewrite Hn'.
  unfold setCurrentStyle. rewrite styleIndex_Slicer. cbn.
  set (cb := StyleComboBox (panel w)) in *.
  set (j := ComboBox.findText cb "Slicer") in *.
  destruct (setCurrentIndex_cases j cb (findText_range cb "Slicer"))
    as [[Heq _] | [_ Hset]]; [contradiction|].
  rewrite Hset. unfold comboNotify. cbn.
  set (cb' := mkComboBox (items cb) j (signalsBlocked cb)).
  fold (warned name w).
  assert (Hstep : style_step w (set_StyleComboBox cb' (warned name w))).
  { apply warned_style_step; auto. }
  destruct (signalsBlocked cb) eqn:Hb.
  - eexists. split; [reflexivity|]. split; [exact Hstep|].
    split; [reflexivity|]. split; [exists []; reflexivity | intros; contradiction].
  - destruct (Hsettled (StringArg (ComboBox.itemText cb j))
                (set_StyleComboBox cb' (warned name w))) as (w' & Hw' & Hp & Hst).
    { left. unfold settled. cbn. reflexivity. }
    exists w'. split; [exact Hw'|].
    split; [eapply style_step_trans; eassumption|].
    split; [rewrite Hp; reflexivity|].
    split; [|intros; contradiction].
    destruct Hst as (_ & (l & Hl & _) & _ & _). exists l. rewrite Hl. cbn.
    rewrite <- app_assoc. reflexivity.
Qed.

Lemma onStyleChanged_step (em : Emission -> World -> option World)
    (name : string) (w : World) :
  LeafOK em -> SettledOK em ->
  exists w', onStyleChanged_ em name w = Some w' /\ style_step w w'.
Proof.
  intros Hleaf Hsettled.
  destruct (QStyleFactory_create (libraryPaths (application w)) name) as [st|] eqn:Hc.
  - destruct (onStyleChanged_found_step em name w Hleaf) as (w' & Hw' & _ & Hs).
    { unfold found. congruence. }
    eauto.
  - destruct (onStyleChanged_notFound em name w Hsettled Hc) as (w' & Hw' & Hs & _).
    eauto.
Qed.

Lemma deliver_combo (em : Emission -> World -> option World) (c : Connection)
    (a : Arg) (w : World) :
  LeafOK em -> SettledOK em ->
  exists w', deliver_ em c (sig_currentIndexChanged a) w = Some w' /\ style_step w w'.
Proof.
  intros Hleaf Hsettled. unfold deliver.
  destruct (listens c (sig_currentIndexChanged a) w) eqn:Hl;
    [|exists w; split; [reflexivity | apply style_step_refl]].
  destruct c; cbn in Hl; try discriminate.
  - destruct a as [| b | s | f];
      try (exists w; split; [reflexivity | apply style_step_refl]).
    apply onStyleChanged_step; assumption.
  - exists (updateSetting key w). split; [destruct a; reflexivity|].
    apply settings_only_style_step, updateSetting_settings_only.
Qed.

Lemma emit_combo (d : nat) : ComboOK (emit_ (S (S (S d)))).
Proof.
  intros a w. cbn [emit].
  destruct (deliverAll_step (emit_ (S (S d))) (sig_currentIndexChanged a)
              (fun _ => True) style_step style_step_refl style_step_trans)
    with (cs := connections (panel w)) (w := w) as (w' & Hw' & _ & HR); auto.
  - intros c w0 _.
    destruct (deliver_combo (emit_ (S (S d))) c a w0) as (w1 & H1 & H2);
      [apply emit_leaf | apply emit_settled | eauto].
  - eauto.
Qed.

(** *** setCurrentStyle *)

Lemma currentText_at (cb : QComboBox) (i : Z) :
  ComboBox.currentText (mkComboBox (items cb) i (signalsBlocked cb)) = ComboBox.itemText cb i.
Proof. reflexivity. Qed.

(** Setting the current index to [i] when the emission that may follow is
    quiet: the combo box ends on index [i]. *)
Lemma setCurrentIndex_quiet (em : Emission -> World -> option World)
    (i : Z) (w : World) :
  SettledOK em ->
  -1 <= i < ComboBox.count (StyleComboBox (panel w)) ->
  (forall w0,
      items (StyleComboBox (panel w0)) = items (StyleComboBox (panel w)) ->
      currentIndex (StyleComboBox (panel w0)) = i ->
      libraryPaths (application w0) = libraryPaths (application w) ->
      quiet (StringArg (ComboBox.itemText (StyleComboBox (panel w)) i)) w0) ->
  exists w',
    comboNotify em (ComboBox.setCurrentIndex i (StyleComboBox (panel w))) w = Some w' /\
    style_step w w' /\
    currentIndex (StyleComboBox (panel w')) = i.
Proof.
  intros Hsettled Hi Hq.
  set (cb := StyleComboBox (panel w)) in *.
  destruct (setCurrentIndex_cases i cb Hi) as [[Heq ->] | [Hne ->]];
    unfold comboNotify; cbn.
  - subst cb. rewrite set_StyleComboBox_same.
    exists w. split; [reflexivity|]. split; [apply style_step_refl | exact Heq].
  - set (cb' := mkComboBox (items cb) i (signalsBlocked cb)).
    assert (Hstep : style_step w (set_StyleComboBox cb' w)).
    { split; [reflexivity|].
      split; [|split].
      - exists []. cbn. rewrite app_nil_r. auto.
      - exists []. cbn. rewrite app_nil_r. auto.
      - apply stores_frame_same; reflexivity. }
    destruct (signalsBlocked cb) eqn:Hb.
    + eexists. split; [reflexivity|]. split; [exact Hstep | reflexivity].
    + destruct (Hsettled (StringArg (ComboBox.itemText cb i)) (set_StyleComboBox cb' w))
        as (w' & Hw' & Hp & Hst).
      { apply Hq; reflexivity. }
      exists w'. split; [exact Hw'|].
      split; [eapply style_step_trans; eassumption|].
      rewrite Hp. reflexivity.
Qed.

Lemma currentStyle_at (w : World) (i : Z) :
  currentIndex (StyleComboBox (panel w)) = i ->
  currentStyle w = ComboBox.itemText (StyleComboBox (panel w)) i.
Proof. intros <-. reflexivity. Qed.

Lemma style_step_items (w w' : World) :
  style_step w w' ->
  items (StyleComboBox (panel w')) = items (StyleComboBox (panel w)).
Proof. intros (Hr & _). unfold style_rest in Hr. congruence. Qed.

Lemma itemText_items (cb cb' : QComboBox) (i : Z) :
  items cb' = items cb -> ComboBox.itemText cb' i = ComboBox.itemText cb i.
Proof. unfold ComboBox.itemText. intros ->. reflexivity. Qed.

(** [setCurrentStyle] with a listed style the factory creates. *)
Lemma setCurrentStyle_listed (em : Emission -> World -> option World)
    (name : string) (w : World) :
  SettledOK em ->
  In name (items (StyleComboBox (panel w))) ->
  found w name ->
  exists w', setCurrentStyle em name w = Some w' /\ style_step w w' /\
             currentStyle w' = name.
Proof.
  intros Hsettled Hin Hf.
  destruct (findText_In _ _ Hin) as [Hrange Htext].
  assert (Hidx : styleIndex name w = ComboBox.findText (StyleComboBox (panel w)) name).
  { unfold styleIndex.
    destruct (Z.eqb_spec (ComboBox.findText (StyleComboBox (panel w)) name) (-1));
      [lia | reflexivity]. }
  unfold setCurrentStyle. rewrite Hidx.
  destruct (setCurrentIndex_quiet em
              (ComboBox.findText (StyleComboBox (panel w)) name) w Hsettled)
    as (w' & Hw' & Hst & Hci).
  - lia.
  - intros w0 _ _ Hlibs. right. intros s [= <-]. rewrite Htext.
    unfold found. rewrite Hlibs. exact Hf.
  - exists w'. split; [exact Hw'|]. split; [exact Hst|].
    rewrite (currentStyle_at w' _ Hci),
      (itemText_items _ _ _ (style_step_items _ _ Hst)).
    exact Htext.
Qed.

(** [setCurrentStyle] with a style that is not listed: the fallback index. *)
Lemma setCurrentStyle_unlisted (em : Emission -> World -> option World)
    (name : string) (w : World) :
  SettledOK em ->
  ~ In name (items (StyleComboBox (panel w))) ->
  exists w', setCurrentStyle em name w = Some w' /\ style_step w w' /\
             currentIndex (StyleComboBox (panel w')) =
               ComboBox.findText (StyleComboBox (panel w)) "Slicer".
Proof.
  intros Hsettled Hnot.
  assert (Hidx : styleIndex name w = ComboBox.findText (StyleComboBox (panel w)) "Slicer").
  { unfold styleIndex. rewrite (findText_not_In _ _ Hnot). reflexivity. }
  unfold setCurrentStyle. rewrite Hidx.
  apply setCurrentIndex_quiet; [exact Hsettled | apply findText_range |].
  intros w0 Hitems Hci _. left. unfold settled, ComboBox.findText.
  rewrite Hci, Hitems. reflexivity.
Qed.

(** While [onStyleChanged] is not connected, a change of the current index
    writes settings at most. *)
Lemma deliver_unconnected (em : Emission -> World -> option World) (c : Connection)
    (a : Arg) (w : World) :
  c <> Conn_onStyleChanged ->
  exists w', deliver_ em c (sig_currentIndexChanged a) w = Some w' /\ settings_only w w'.
Proof.
  intros Hc. unfold deliver.
  destruct (listens c (sig_currentIndexChanged a) w) eqn:Hl;
    [|exists w; split; [reflexivity | apply settings_only_refl]].
  destruct c; cbn in Hl; try discriminate; [contradiction|].
  exists (updateSetting key w). split; [destruct a; reflexivity|].
  apply updateSetting_settings_only.
Qed.

Lemma deliverAll_unconnected (em : Emission -> World -> option World) (a : Arg)
    (cs : list Connection) :
  ~ In Conn_onStyleChanged cs ->
  forall w, exists w',
    deliverAll_ em cs (sig_currentIndexChanged a) w = Some w' /\ settings_only w w'.
Proof.
  induction cs as [|c cs IH]; intros Hnot w; simpl.
  - exists w. split; [reflexivity | apply settings_only_refl].
  - destruct (deliver_unconnected em c a w) as (w1 & -> & H1).
    { intros ->. apply Hnot. left. reflexivity. }
    simpl. destruct (IH (fun H => Hnot (or_intror H)) w1) as (w2 & -> & H2).
    exists w2. split; [reflexivity | eapply settings_only_trans; eassumption].
Qed.

Lemma emit_unconnected (d : nat) (a : Arg) (w : World) :
  ~ In Conn_onStyleChanged (connections (panel w)) ->
  exists w', emit_ (S d) (sig_currentIndexChanged a) w = Some w' /\ settings_only w w'.
Proof. intros Hnot. cbn [emit]. apply deliverAll_unconnected. exact Hnot. Qed.

(** [setCurrentStyle] with a listed style while the signals of the combo box
    are blocked or [onStyleChanged] is not connected yet. *)
Lemma setCurrentStyle_listed_silent (d : nat) (name : string) (w : World) :
  In name (items (StyleComboBox (panel w))) ->
  signalsBlocked (StyleComboBox (panel w)) = true \/
  ~ In Conn_onStyleChanged (connections (panel w)) ->
  exists w', setCurrentStyle (emit_ (S d)) name w = Some w' /\ currentStyle w' = name.
Proof.
  intros Hin Hsilent.
  destruct (findText_In _ _ Hin) as [Hrange Htext].
  assert (Hidx : styleIndex name w = ComboBox.findText (StyleComboBox (panel w)) name).
  { unfold styleIndex.
    destruct (Z.eqb_spec (ComboBox.findText (StyleComboBox (panel w)) name) (-1));
      [lia | reflexivity]. }
  unfold setCurrentStyle. rewrite Hidx.
  set (cb := StyleComboBox (panel w)) in *.
  set (i := ComboBox.findText cb name) in *.
  assert (Hi : -1 <= i < ComboBox.count cb) by lia.
  destruct (setCurrentIndex_cases i cb Hi) as [[Heq ->] | [Hne ->]];
    unfold comboNotify; cbn.
  - subst cb. rewrite set_StyleComboBox_same. exists w. split; [reflexivity|].
    rewrite (currentStyle_at w i Heq). exact Htext.
  - destruct (signalsBlocked cb) eqn:Hb.
    + eexists. split; [reflexivity|]. exact Htext.
    + destruct Hsilent as [Hblocked | Hnot]; [discriminate|].
      match goal with
      | |- context [deliverAll_ _ _ _ ?w0] =>
          destruct (deliverAll_unconnected (emit_ d) (StringArg (ComboBox.itemText cb i))
                      (connections (panel w)) Hnot w0) as (w' & Hw' & Hp & _)
      end.
      exists w'. split; [exact Hw'|].
      unfold currentStyle. rewrite Hp. exact Htext.
Qed.

(** *** populateStyles *)

Lemma addItem_items (text : string) (cb : QComboBox) :
  items (fst (ComboBox.addItem text cb)) = items cb ++ [text].
Proof.
  unfold ComboBox.addItem. destruct (items cb) eqn:Hi; [|cbn; rewrite ?Hi; reflexivity].
  destruct (currentIndex cb =? -1); [|cbn; rewrite ?Hi; reflexivity].
  rewrite setCurrentIndex_items. cbn. rewrite ?Hi. reflexivity.
Qed.

Lemma addItem_blocked (text : string) (cb : QComboBox) :
  signalsBlocked (fst (ComboBox.addItem text cb)) = signalsBlocked cb.
Proof.
  unfold ComboBox.addItem. destruct (items cb); [|reflexivity].
  destruct (currentIndex cb =? -1); [|reflexivity].
  rewrite setCurrentIndex_blocked. reflexivity.
Qed.

Lemma comboNotify_blocked (em : Emission -> World -> option World)
    (r : QComboBox * option string) (w : World) :
  signalsBlocked (fst r) = true ->
  comboNotify em r w = Some (set_StyleComboBox (fst r) w).
Proof. intros Hb. unfold comboNotify. rewrite Hb. destruct (snd r); reflexivity. Qed.

Lemma populateStyles_loop_blocked (em : Emission -> World -> option World)
    (keys : list string) :
  forall w : World,
    signalsBlocked (StyleComboBox (panel w)) = true ->
    exists cb',
      populateStyles_loop em keys w = Some (set_StyleComboBox cb' w) /\
      items cb' =
        items (StyleComboBox (panel w)) ++
        List.filter (notQtStyle (QtStyles (panel w))) keys /\
      signalsBlocked cb' = true.
Proof.
  induction keys as [|k keys IH]; intros w Hb; simpl.
  - exists (StyleComboBox (panel w)). rewrite set_StyleComboBox_same, app_nil_r. auto.
  - unfold populateStyles_step, isQtStyle. fold (notQtStyle (QtStyles (panel w)) k).
    destruct (notQtStyle (QtStyles (panel w)) k) eqn:Hk; cbn [mbind option_bind].
    + rewrite comboNotify_blocked by (rewrite addItem_blocked; exact Hb).
      cbn [mbind option_bind].
      destruct (IH (set_StyleComboBox (fst (ComboBox.addItem k (StyleComboBox (panel w)))) w))
        as (cb' & Hloop & Hitems & Hb').
      { cbn. rewrite addItem_blocked. exact Hb. }
      exists cb'. split; [rewrite Hloop; reflexivity|].
      split; [|exact Hb'].
      rewrite Hitems. cbn. rewrite addItem_items, <- app_assoc. reflexivity.
    + apply IH. exact Hb.
Qed.

Lemma style_step_populate_step (w w' : World) :
  style_step w w' -> populate_step w w'.
Proof.
  intros (Hr & Hw & Hl & Hs). split; [|auto].
  unfold style_rest in Hr. unfold populate_rest. congruence.
Qed.

(** A change of the current index, whatever the index asked for. *)
Lemma comboNotify_setCurrentIndex (em : Emission -> World -> option World)
    (i : Z) (w : World) :
  ComboOK em ->
  exists w',
    comboNotify em (ComboBox.setCurrentIndex i (StyleComboBox (panel w))) w = Some w' /\
    style_step w w'.
Proof.
  intros Hcombo. unfold comboNotify.
  set (r := ComboBox.setCurrentIndex i (StyleComboBox (panel w))).
  assert (Hstep : style_step w (set_StyleComboBox (fst r) w)).
  { split.
    - unfold style_rest. cbn. subst r.
      rewrite setCurrentIndex_items, setCurrentIndex_blocked.
      reflexivity.
    - split; [|split].
      + exists []. cbn. rewrite app_nil_r. auto.
      + exists []. cbn. rewrite app_nil_r. auto.
      + apply stores_frame_same; reflexivity. }
  destruct (snd r) as [text|]; [|eauto].
  destruct (signalsBlocked (fst r)); [eauto|].
  destruct (Hcombo (StringArg text) (set_StyleComboBox (fst r) w)) as (w' & Hw' & Hst).
  exists w'. split; [exact Hw'|]. eapply style_step_trans; eassumption.
Qed.

Lemma populateStyles_spec (em : Emission -> World -> option World) (w : World) :
  ComboOK em ->
  exists w',
    populateStyles_ em w = Some w' /\
    items (StyleComboBox (panel w')) =
      List.filter (notQtStyle (QtStyles (panel w)))
        (QStyleFactory_keys (libraryPaths (application w))) /\
    populate_step w w'.
Proof.
  intros Hcombo. unfold populateStyles. cbn.
  rewrite comboNotify_blocked by reflexivity. cbn.
  match goal with
  | |- context [populateStyles_loop em ?ks ?w0] =>
      destruct (populateStyles_loop_blocked em ks w0 eq_refl)
        as (cb' & Hloop & Hitems & Hb)
  end.
  rewrite Hloop. cbn.
  match goal with
  | |- context [comboNotify em (ComboBox.setCurrentIndex ?i ?cb) ?w0] =>
      destruct (comboNotify_setCurrentIndex em i w0 Hcombo) as (w' & Hw' & Hst)
  end.
  cbn in Hw'. exists w'. split; [exact Hw'|].
  split.
  - rewrite (style_step_items _ _ Hst). cbn. rewrite Hitems. reflexivity.
  - apply style_step_populate_step in Hst.
    destruct Hst as (Hr & Hw & Hl & Hs).
    split; [rewrite Hr; reflexivity|].
    split; [exact Hw|]. split; [exact Hl|].
    intros s k Hk. rewrite (Hs s k Hk). destruct s; reflexivity.
Qed.

(** [populateStyles] refills the combo box without a signal and ends as
    [setCurrentStyle] with the style that was current. *)
Lemma populateStyles_refill (em : Emission -> World -> option World) (w : World) :
  exists cb0,
    populateStyles_ em w =
      setCurrentStyle em (currentStyle w) (set_StyleComboBox cb0 w) /\
    items cb0 = offeredStyles w /\
    signalsBlocked cb0 = signalsBlocked (StyleComboBox (panel w)).
Proof.
  unfold populateStyles. cbn.
  rewrite comboNotify_blocked by reflexivity. cbn.
  match goal with
  | |- context [populateStyles_loop em ?ks ?w0] =>
      destruct (populateStyles_loop_blocked em ks w0 eq_refl)
        as (cb' & Hloop & Hitems & Hb)
  end.
  rewrite Hloop. cbn.
  exists (mkComboBox (items cb') (currentIndex cb')
            (signalsBlocked (StyleComboBox (panel w)))).
  split; [reflexivity|]. split; [exact Hitems | reflexivity].
Qed.

Lemma isEmpty_spec (p : string) : QString.isEmpty p = true <-> p = "".
Proof. unfold QString.isEmpty. apply String.eqb_eq. Qed.

Lemma contains_spec (l : list string) (p : string) :
  QStringList.contains l p = true <-> In p l.
Proof.
  unfold QStringList.contains. rewrite existsb_exists. split.
  - intros (x & Hx & Heq). apply String.eqb_eq in Heq. subst. exact Hx.
  - intros Hin. exists p. split; [exact Hin | apply String.eqb_refl].
Qed.

Lemma removeAll_In (l : list string) (p q : string) :
  In q (QStringList.removeAll l p) <-> In q l /\ q <> p.
Proof.
  unfold QStringList.removeAll. rewrite filter_In.
  destruct (String.eqb_spec q p); simpl; intuition congruence.
Qed.

Lemma removePaths_In (old : list string) :
  forall (libs : list string) (q : string),
    In q (removePaths old libs) <-> In q libs /\ (q = "" \/ ~ In q old).
Proof.
  unfold removePaths.
  induction old as [|p old IH]; intros libs q; simpl.
  - tauto.
  - rewrite IH. destruct (QString.isEmpty p) eqn:Hp.
    + apply isEmpty_spec in Hp. subst p.
      destruct (string_dec q ""); intuition congruence.
    + assert (p <> "") by (intros ->; discriminate).
      rewrite removeAll_In.
      destruct (string_dec q p); destruct (string_dec q ""); intuition congruence.
Qed.

Lemma addPaths_In (new : list string) :
  forall (libs : list string) (q : string),
    In q (addPaths new libs) <-> In q libs \/ (In q new /\ q <> "").
Proof.
  unfold addPaths.
  induction new as [|p new IH]; intros libs q; simpl.
  - tauto.
  - rewrite IH. destruct (QString.isEmpty p) eqn:Hp.
    + apply isEmpty_spec in Hp. subst p. intuition congruence.
    + assert (p <> "") by (intros ->; discriminate).
      destruct (QStringList.contains libs p) eqn:Hc.
      * apply contains_spec in Hc. intuition (subst; auto).
      * simpl. destruct (string_dec q p); intuition (subst; auto; congruence).
Qed.

Lemma set_libraryPaths_same (w : World) :
  set_libraryPaths (libraryPaths (application w)) w = w.
Proof. destruct w as [? [] ? ? ? ?]. reflexivity. Qed.

Lemma removeLibraryPath_fold (old : list string) :
  forall w : World,
    fold_left (fun w path => removeLibraryPath path w) old w =
    set_libraryPaths (removePaths old (libraryPaths (application w))) w.
Proof.
  unfold removePaths.
  induction old as [|p old IH]; intros w; simpl.
  - symmetry. apply set_libraryPaths_same.
  - rewrite IH. unfold removeLibraryPath.
    destruct (QString.isEmpty p); reflexivity.
Qed.

Lemma addLibraryPath_fold (new : list string) :
  forall w : World,
    fold_left (fun w path => addLibraryPath path w) new w =
    set_libraryPaths (addPaths new (libraryPaths (application w))) w.
Proof.
  unfold addPaths.
  induction new as [|p new IH]; intros w; simpl.
  - symmetry. apply set_libraryPaths_same.
  - rewrite IH. unfold addLibraryPath.
    destruct (QString.isEmpty p); [reflexivity|].
    destruct (QStringList.contains (libraryPaths (application w)) p); reflexivity.
Qed.

Lemma onAdditionalStylePathsChanged_spec (em : Emission -> World -> option World)
    (w : World) :
  ComboOK em ->
  exists w',
    onAdditionalStylePathsChanged_ em w = Some w' /\
    libraryPaths (application w') =
      addPaths (directoryList true (AdditionalStylePathsView (panel w)))
        (removePaths (AdditionalPaths (panel w)) (libraryPaths (application w))) /\
    AdditionalPaths (panel w') =
      directoryList true (AdditionalStylePathsView (panel w)) /\
    items (StyleComboBox (panel w')) =
      List.filter (notQtStyle (QtStyles (panel w)))
        (QStyleFactory_keys (libraryPaths (application w'))) /\
    paths_rest w' = paths_rest w /\
    (exists l, warnings w' = warnings w ++ l /\ Forall (notFound w') l) /\
    (exists l, currentStyleChanged_log w' = currentStyleChanged_log w ++ l /\
               Forall (found w') l) /\
    stores_frame w w'.
Proof.
  intros Hcombo. unfold onAdditionalStylePathsChanged.
  rewrite removeLibraryPath_fold. cbn.
  rewrite addLibraryPath_fold. cbn.
  match goal with
  | |- context [populateStyles_ em ?w0] =>
      destruct (populateStyles_spec em w0 Hcombo) as (w' & Hw' & Hitems & Hstep)
  end.
  exists w'. split; [exact Hw'|].
  destruct Hstep as (Hr & Hw & Hl & Hs).
  unfold populate_rest in Hr. cbn in Hr.
  assert (Hlibs : libraryPaths (application w') =
                  addPaths (directoryList true (AdditionalStylePathsView (panel w)))
                    (removePaths (AdditionalPaths (panel w))
                       (libraryPaths (application w)))) by congruence.
  split; [exact Hlibs|].
  split; [congruence|].
  split; [rewrite Hitems, Hlibs; reflexivity|].
  split; [unfold paths_rest; congruence|].
  split; [|split].
  - destruct Hw as (l & Hl1 & Hl2). exists l. split; [exact Hl1|].
    eapply Forall_impl; [exact Hl2|]. unfold notFound. intros n. cbn. rewrite Hlibs. auto.
  - destruct Hl as (l & Hl1 & Hl2). exists l. split; [exact Hl1|].
    eapply Forall_impl; [exact Hl2|]. unfold found. intros n. cbn. rewrite Hlibs. auto.
  - intros s k Hk. rewrite (Hs s k Hk). destruct s; reflexivity.
Qed.


Lemma panel_step_refl (w : World) : panel_step w w.
Proof.
  repeat split; try apply stores_frame_refl.
  exists []. rewrite app_nil_r. auto.
Qed.

Lemma panel_step_trans (w1 w2 w3 : World) :
  panel_step w1 w2 -> panel_step w2 w3 -> panel_step w1 w3.
Proof.
  intros (Hq1 & Hp1 & Hs1 & Hc1 & Hf1 & (l1 & Hw1 & Hl1))
         (Hq2 & Hp2 & Hs2 & Hc2 & Hf2 & (l2 & Hw2 & Hl2)).
  repeat split; try congruence.
  - eapply stores_frame_trans; eassumption.
  - exists (l1 ++ l2). split; [rewrite Hw2, Hw1, <- app_assoc; reflexivity|].
    apply Forall_app. auto.
Qed.

Lemma notFound_somewhere (w : World) (l : list string) :
  Forall (notFound w) l ->
  Forall (fun n => exists libs, QStyleFactory_create libs n = None) l.
Proof.
  intros Hl. eapply Forall_impl; [exact Hl|]. intros n Hn. eexists. exact Hn.
Qed.

Lemma style_step_panel_step (w w' : World) :
  style_step w w' -> panel_step w w'.
Proof.
  intros (Hr & (l & Hw & Hl) & _ & Hs). unfold style_rest in Hr.
  repeat split; try congruence; [exact Hs|].
  exists l. split; [exact Hw | eapply notFound_somewhere; exact Hl].
Qed.

Lemma settings_only_panel_step (w w' : World) :
  settings_only w w' -> panel_step w w'.
Proof. intros Hs. apply style_step_panel_step, settings_only_style_step, Hs. Qed.

(** A step that touches neither the wiring, nor the settings, nor the
    warnings. *)
Lemma silent_panel_step (w w' : World) :
  QtStyles (panel w') = QtStyles (panel w) ->
  Properties (panel w') = Properties (panel w) ->
  Settings (panel w') = Settings (panel w) ->
  connections (panel w') = connections (panel w) ->
  userSettings w' = userSettings w ->
  revisionUserSettings w' = revisionUserSettings w ->
  warnings w' = warnings w ->
  panel_step w w'.
Proof.
  intros H1 H2 H3 H4 H5 H6 H7. repeat split; auto.
  - apply stores_frame_same; assumption.
  - exists []. rewrite app_nil_r. auto.
Qed.

Lemma onAdditionalStylePathsChanged_step (em : Emission -> World -> option World)
    (w : World) :
  ComboOK em ->
  exists w', onAdditionalStylePathsChanged_ em w = Some w' /\ panel_step w w'.
Proof.
  intros Hcombo.
  destruct (onAdditionalStylePathsChanged_spec em w Hcombo)
    as (w' & Hw' & _ & _ & _ & Hr & (l & Hw & Hl) & _ & Hs).
  exists w'. split; [exact Hw'|]. unfold paths_rest in Hr.
  repeat split; try congruence; [exact Hs|].
  exists l. split; [exact Hw | eapply notFound_somewhere; exact Hl].
Qed.

Lemma addDirectory_step (em : Emission -> World -> option World)
    (path : string) (w : World) :
  DirOK em ->
  exists w', addDirectory em path w = Some w' /\ panel_step w w'.
Proof.
  intros Hdir. unfold addDirectory.
  destruct (QStringList.contains _ path); [exists w; split; [reflexivity | apply panel_step_refl]|].
  match goal with
  | |- context [em _ ?w0] => destruct (Hdir NoArg w0) as (w' & Hw' & Hst)
  end.
  exists w'. split; [exact Hw'|].
  eapply panel_step_trans; [|exact Hst]. apply silent_panel_step; reflexivity.
Qed.

Lemma removeSelectedDirectories_step (em : Emission -> World -> option World)
    (w : World) :
  DirOK em ->
  exists w', removeSelectedDirectories em w = Some w' /\ panel_step w w'.
Proof.
  intros Hdir. unfold removeSelectedDirectories.
  destruct (_ =? _)%nat; [exists w; split; [reflexivity | apply panel_step_refl]|].
  match goal with
  | |- context [em _ ?w0] => destruct (Hdir NoArg w0) as (w' & Hw' & Hst)
  end.
  exists w'. split; [exact Hw'|].
  eapply panel_step_trans; [|exact Hst]. apply silent_panel_step; reflexivity.
Qed.

Lemma onAddStyleAdditionalPathClicked_step (em : Emission -> World -> option World)
    (w : World) :
  DirOK em ->
  exists w', onAddStyleAdditionalPathClicked_ em w = Some w' /\ panel_step w w'.
Proof.
  intros Hdir. unfold onAddStyleAdditionalPathClicked.
  destruct (QString.isEmpty _); [exists w; split; [reflexivity | apply panel_step_refl]|].
  apply addDirectory_step. exact Hdir.
Qed.

Lemma listens_signal (c : Connection) (e : Emission) (w : World) :
  listens c e w = true ->
  match c with
  | Conn_onAddStyleAdditionalPathClicked
  | Conn_onRemoveStyleAdditionalPathClicked => signal e = SIGNAL_clicked
  | Conn_onAdditionalStylePathsChanged => signal e = SIGNAL_directoryListChanged
  | Conn_onStyleChanged => signal e = SIGNAL_currentIndexChanged
  | _ => True
  end.
Proof.
  destruct c; cbn; try tauto;
    intros Hl; apply andb_prop in Hl as [_ Hl]; apply bool_decide_eq_true in Hl; exact Hl.
Qed.

Lemma deliver_any (em : Emission -> World -> option World) (c : Connection)
    (e : Emission) (w : World) :
  LeafOK em -> SettledOK em -> ComboOK em ->
  (signal e = SIGNAL_clicked -> DirOK em) ->
  exists w', deliver_ em c e w = Some w' /\ panel_step w w'.
Proof.
  intros Hleaf Hsettled Hcombo Hdir. unfold deliver.
  destruct (listens c e w) eqn:Hl;
    [|exists w; split; [reflexivity | apply panel_step_refl]].
  apply listens_signal in Hl.
  destruct c.
  - destruct (arg e); try (exists w; split; [reflexivity | apply panel_step_refl]).
    eexists. split; [reflexivity|]. apply silent_panel_step; reflexivity.
  - destruct (arg e); try (exists w; split; [reflexivity | apply panel_step_refl]).
    eexists. split; [reflexivity|]. apply silent_panel_step; reflexivity.
  - destruct (arg e); try (exists w; split; [reflexivity | apply panel_step_refl]).
    eexists. split; [reflexivity|]. unfold onShowToolButtonTextToggled.
    destruct (mainWindow (application w)); apply silent_panel_step; reflexivity.
  - destruct (arg e); apply onAdditionalStylePathsChanged_step; exact Hcombo.
  - destruct (arg e); try (exists w; split; [reflexivity | apply panel_step_refl]).
    destruct (onStyleChanged_step em s w Hleaf Hsettled) as (w' & Hw' & Hst).
    exists w'. split; [exact Hw' | apply style_step_panel_step, Hst].
  - destruct (arg e); apply onAddStyleAdditionalPathClicked_step; auto.
  - destruct (arg e); apply removeSelectedDirectories_step; auto.
  - exists (updateSetting key w). split; [destruct (arg e); reflexivity|].
    apply settings_only_panel_step, updateSetting_settings_only.
Qed.

Lemma emit_dir (d : nat) : DirOK (emit_ (S (S (S (S d))))).
Proof.
  intros a w. cbn [emit].
  destruct (deliverAll_step (emit_ (S (S (S d)))) (sig_directoryListChanged a)
              (fun _ => True) panel_step panel_step_refl panel_step_trans)
    with (cs := connections (panel w)) (w := w) as (w' & Hw' & _ & HR); auto.
  - intros c w0 _.
    destruct (deliver_any (emit_ (S (S (S d)))) c (sig_directoryListChanged a) w0)
      as (w1 & H1 & H2);
      [apply emit_leaf | apply emit_settled | apply emit_combo | discriminate | eauto].
  - eauto.
Qed.

(** Every emission terminates within five nested deliveries. *)
Lemma emit_all (d : nat) : AllOK (emit_ (S (S (S (S (S d)))))).
Proof.
  intros e w. cbn [emit].
  destruct (deliverAll_step (emit_ (S (S (S (S d))))) e
              (fun _ => True) panel_step panel_step_refl panel_step_trans)
    with (cs := connections (panel w)) (w := w) as (w' & Hw' & _ & HR); auto.
  - intros c w0 _.
    destruct (deliver_any (emit_ (S (S (S (S d))))) c e w0) as (w1 & H1 & H2);
      [apply emit_leaf | apply emit_settled | apply emit_combo
      | intros _; apply emit_dir | eauto].
  - eauto.
Qed.

Section Monotone.

Variables em em' : Emission -> World -> option World.
Hypothesis Hle : em_le em em'.

Lemma comboNotify_mono (r : QComboBox * option string) (w w' : World) :
  comboNotify em r w = Some w' -> comboNotify em' r w = Some w'.
Proof.
  unfold comboNotify. destruct (snd r); [|auto].
  destruct (signalsBlocked (fst r)); [auto | apply Hle].
Qed.

Lemma populateStyles_loop_mono (keys : list string) :
  forall w w', populateStyles_loop em keys w = Some w' ->
               populateStyles_loop em' keys w = Some w'.
Proof.
  induction keys as [|k keys IH]; intros w w'; simpl; [auto|].
  unfold populateStyles_step.
  destruct (negb (isQtStyle k w)); cbn [mbind option_bind].
  - destruct (comboNotify em _ w) as [w1|] eqn:H1; [|discriminate].
    rewrite (comboNotify_mono _ _ _ H1). cbn [mbind option_bind]. apply IH.
  - apply IH.
Qed.

Lemma populateStyles_mono (w w' : World) :
  populateStyles_ em w = Some w' -> populateStyles_ em' w = Some w'.
Proof.
  unfold populateStyles. cbv zeta.
  destruct (comboNotify em _ _) as [w1|] eqn:H1; [|discriminate].
  rewrite (comboNotify_mono _ _ _ H1). cbn [mbind option_bind].
  destruct (populateStyles_loop em _ w1) as [w2|] eqn:H2; [|discriminate].
  rewrite (populateStyles_loop_mono _ _ _ H2). cbn [mbind option_bind].
  apply comboNotify_mono.
Qed.

Lemma setCurrentStyle_mono (name : string) (w w' : World) :
  setCurrentStyle em name w = Some w' -> setCurrentStyle em' name w = Some w'.
Proof. apply comboNotify_mono. Qed.

Lemma onStyleChanged_mono (name : string) (w w' : World) :
  onStyleChanged_ em name w = Some w' -> onStyleChanged_ em' name w = Some w'.
Proof.
  unfold onStyleChanged. cbv zeta.
  destruct (QStyleFactory_create _ name); [apply Hle | apply setCurrentStyle_mono].
Qed.

Lemma onAdditionalStylePathsChanged_mono (w w' : World) :
  onAdditionalStylePathsChanged_ em w = Some w' ->
  onAdditionalStylePathsChanged_ em' w = Some w'.
Proof. apply populateStyles_mono. Qed.

Lemma addDirectory_mono (path : string) (w w' : World) :
  addDirectory em path w = Some w' -> addDirectory em' path w = Some w'.
Proof. unfold addDirectory. destruct (QStringList.contains _ _); [auto | apply Hle]. Qed.

Lemma removeSelectedDirectories_mono (w w' : World) :
  removeSelectedDirectories em w = Some w' -> removeSelectedDirectories em' w = Some w'.
Proof. unfold removeSelectedDirectories. destruct (_ =? _)%nat; [auto | apply Hle]. Qed.

Lemma onAddStyleAdditionalPathClicked_mono (w w' : World) :
  onAddStyleAdditionalPathClicked_ em w = Some w' ->
  onAddStyleAdditionalPathClicked_ em' w = Some w'.
Proof.
  unfold onAddStyleAdditionalPathClicked.
  destruct (QString.isEmpty _); [auto | apply addDirectory_mono].
Qed.

Lemma deliver_mono (c : Connection) (e : Emission) (w w' : World) :
  deliver_ em c e w = Some w' -> deliver_ em' c e w = Some w'.
Proof.
  unfold deliver. destruct (listens c e w); [|auto].
  destruct c; destruct (arg e); auto using onStyleChanged_mono,
    onAdditionalStylePathsChanged_mono, onAddStyleAdditionalPathClicked_mono,
    removeSelectedDirectories_mono.
Qed.

Lemma deliverAll_mono (cs : list Connection) (e : Emission) :
  forall w w', deliverAll_ em cs e w = Some w' -> deliverAll_ em' cs e w = Some w'.
Proof.
  induction cs as [|c cs IH]; intros w w'; simpl; [auto|].
  destruct (deliver_ em c e w) as [w1|] eqn:H1; [|discriminate].
  rewrite (deliver_mono _ _ _ _ H1). cbn [mbind option_bind]. apply IH.
Qed.

Lemma run_mono (op : Operation) (w w' : World) :
  run em op w = Some w' -> run em' op w = Some w'.
Proof.
  destruct op; cbn [run]; auto using setCurrentStyle_mono, onStyleChanged_mono,
    onAdditionalStylePathsChanged_mono, onAddStyleAdditionalPathClicked_mono,
    removeSelectedDirectories_mono.
Qed.

End Monotone.

Lemma emit_S (d : nat) : em_le (emit_ d) (emit_ (S d)).
Proof.
  induction d as [|d IH]; intros e w w'; [discriminate|].
  cbn [emit]. apply deliverAll_mono. exact IH.
Qed.

Lemma emit_le (d d' : nat) : (d <= d')%nat -> em_le (emit_ d) (emit_ d').
Proof.
  induction 1 as [|d' _ IH]; [intros e w w' Hw; exact Hw|].
  intros e w w' Hw. apply emit_S, IH, Hw.
Qed.

(** *** Deliveries that establish a fact *)

Lemma deliverAll_establish (em : Emission -> World -> option World) (e : Emission)
    (I Q : World -> Prop) (c0 : Connection) :
  (forall c w, I w ->
     exists w', deliver_ em c e w = Some w' /\ I w' /\
                (Q w -> Q w') /\ (c = c0 -> Q w')) ->
  forall cs w, In c0 cs -> I w ->
    exists w', deliverAll_ em cs e w = Some w' /\ I w' /\ Q w'.
Proof.
  intros Hstep.
  assert (Hkeep : forall cs w, I w -> Q w ->
            exists w', deliverAll_ em cs e w = Some w' /\ I w' /\ Q w').
  { induction cs as [|c cs IH]; intros w HI HQ; simpl; [eauto|].
    destruct (Hstep c w HI) as (w1 & -> & HI1 & HQ1 & _). simpl. auto. }
  induction cs as [|c cs IH]; intros w Hin HI; [destruct Hin|]. simpl.
  destruct (Hstep c w HI) as (w1 & -> & HI1 & HQ1 & Hest). simpl.
  destruct (Connection_eq_dec c c0) as [Heq|Hne]; [auto|].
  destruct Hin as [Hin|Hin]; [contradiction | auto].
Qed.

Lemma updateSetting_other (key k : string) (s : SettingsStore) (w : World) :
  key <> k -> store s (updateSetting key w) !! k = store s w !! k.
Proof.
  intros Hne. unfold updateSetting.
  destruct (Properties (panel w) !! key) as [p|]; [|reflexivity].
  destruct (match prop_settings p with Some s => Some s | None => Settings (panel w) end)
    as [s'|]; [|reflexivity].
  destruct s, s'; cbn; try reflexivity; apply lookup_insert_ne; assumption.
Qed.

Lemma updateSetting_at (key : string) (p : PropertyType) (s : SettingsStore) (w : World) :
  Properties (panel w) !! key = Some p ->
  match prop_settings p with Some s => Some s | None => Settings (panel w) end = Some s ->
  store s (updateSetting key w) !! key =
    Some (propertyValue (prop_object p) (prop_property p) w).
Proof.
  intros Hp Hs. unfold updateSetting. rewrite Hp, Hs.
  destruct s; cbn; apply lookup_insert_eq.
Qed.

Lemma deliver_tooltips (em : Emission -> World -> option World) (c : Connection)
    (b : bool) (s : SettingsStore) (w : World) :
  tooltips_inv b s w ->
  exists w',
    deliver_ em c (sig_showToolTipsToggled b) w = Some w' /\
    tooltips_inv b s w' /\
    (toolTipsEnabled (application w) = negb b ->
     toolTipsEnabled (application w') = negb b) /\
    (c = Conn_onShowToolTipsToggled -> toolTipsEnabled (application w') = negb b) /\
    (store s w !! "no-tooltip" = Some (VBool b) ->
     store s w' !! "no-tooltip" = Some (VBool b)) /\
    (c = Conn_updateSetting "no-tooltip" ->
     store s w' !! "no-tooltip" = Some (VBool b)).
Proof.
  intros (Hc & Hp & Hs). unfold deliver.
  destruct (listens c (sig_showToolTipsToggled b) w) eqn:Hl.
  - destruct c; cbn in Hl; try discriminate.
    + exists (onShowToolTipsToggled b w). split; [reflexivity|].
      split; [repeat split; assumption|].
      repeat split; auto; discriminate.
    + exists (updateSetting key w). split; [reflexivity|].
      destruct (updateSetting_settings_only key w) as (Hpan & Happ & _).
      split; [unfold tooltips_inv; rewrite Hpan; auto|].
      split; [rewrite Happ; auto|]. split; [discriminate|].
      destruct (string_dec key "no-tooltip") as [->|Hne].
      * assert (Hat : store s (updateSetting "no-tooltip" w) !! "no-tooltip" =
                      Some (VBool b)).
        { rewrite (updateSetting_at "no-tooltip" noTooltipProperty s w Hp Hs).
          cbn. rewrite Hc. reflexivity. }
        auto.
      * split; [rewrite updateSetting_other by exact Hne; auto|].
        intros [= Heq]. contradiction.
  - exists w. split; [reflexivity|]. split; [repeat split; assumption|].
    split; [auto|]. split; [|split; [auto|]].
    + intros ->. cbn in Hl. discriminate.
    + intros ->. cbn in Hl. rewrite Hp in Hl. cbn in Hl. discriminate.
Qed.

(** ** The claims *)

Lemma notQtStyle_spec (qtStyles : list string) (key : string) :
  notQtStyle qtStyles key = true <->
  forall qt, In qt qtStyles -> QString.eq_ci key qt = false.
Proof.
  unfold notQtStyle, QStringList.contains_ci. rewrite negb_true_iff. split.
  - intros Hex qt Hin. destruct (QString.eq_ci key qt) eqn:Heq; [|reflexivity].
    assert (existsb (QString.eq_ci key) qtStyles = true) as Htrue
        by (apply existsb_exists; eauto).
    congruence.
  - intros Hall. destruct (existsb (QString.eq_ci key) qtStyles) eqn:Hex; [|reflexivity].
    apply existsb_exists in Hex as (qt & Hin & Heq). rewrite (Hall qt Hin) in Heq.
    discriminate.
Qed.

(** C10: after every run of [populateStyles] the style combo box holds
    exactly the keys of the style factory that do not match, case
    insensitively, one of the eleven style names built into Qt, in the order
    of the factory; no item of the combo box matches a built-in name. *)
Theorem populateStyles_lists_non_Qt_keys (d : nat) (w : World) :
  QtStyles (panel w) = builtinQtStyles ->
  exists w',
    populateStyles_ (emit_ (3 + d)) w = Some w' /\
    length builtinQtStyles = 11%nat /\
    items (StyleComboBox (panel w')) =
      List.filter (fun key => negb (QStringList.contains_ci builtinQtStyles key))
        (QStyleFactory_keys (libraryPaths (application w))) /\
    (forall key,
        In key (items (StyleComboBox (panel w'))) <->
        In key (QStyleFactory_keys (libraryPaths (application w))) /\
        forall qt, In qt builtinQtStyles -> QString.eq_ci key qt = false) /\
    QtStyles (panel w') = builtinQtStyles.
Proof.
  intros Hqt.
  destruct (populateStyles_spec (emit_ (3 + d)) w (emit_combo d))
    as (w' & Hw' & Hitems & Hrest & _).
  exists w'. split; [exact Hw'|]. split; [reflexivity|].
  rewrite Hqt in Hitems. split; [exact Hitems|]. split.
  - intros key. rewrite Hitems, filter_In.
    fold (notQtStyle builtinQtStyles key). rewrite notQtStyle_spec. reflexivity.
  - unfold populate_rest in Hrest. congruence.
Qed.

(** C8, amended: for every style name listed in the combo box,
    [setCurrentStyle] followed by [currentStyle] returns that name, unless the
    change of the current index reaches the connected [onStyleChanged] and
    the style factory cannot create the style: that is, the name is returned
    when the factory can create the style, or the signals of the combo box
    are blocked, or [onStyleChanged] is not connected.  For every name that is
    not listed, [currentStyle] returns ["Slicer"] afterwards, provided
    ["Slicer"] is listed. *)
Theorem setCurrentStyle_then_currentStyle (d : nat) (w : World) (name : string) :
  (In name (items (StyleComboBox (panel w))) ->
   found w name \/ signalsBlocked (StyleComboBox (panel w)) = true \/
   ~ In Conn_onStyleChanged (connections (panel w)) ->
   exists w', setCurrentStyle (emit_ (2 + d)) name w = Some w' /\
              currentStyle w' = name) /\
  (~ In name (items (StyleComboBox (panel w))) ->
   In "Slicer" (items (StyleComboBox (panel w))) ->
   exists w', setCurrentStyle (emit_ (2 + d)) name w = Some w' /\
              currentStyle w' = "Slicer").
Proof.
  split.
  - intros Hin [Hf | Hsilent].
    + destruct (setCurrentStyle_listed (emit_ (2 + d)) name w (emit_settled d) Hin Hf)
        as (w' & Hw' & _ & Hc).
      eauto.
    + apply (setCurrentStyle_listed_silent (S d) name w Hin Hsilent).
  - intros Hnot Hslicer.
    destruct (setCurrentStyle_unlisted (emit_ (2 + d)) name w (emit_settled d) Hnot)
      as (w' & Hw' & Hst & Hci).
    exists w'. split; [exact Hw'|].
    rewrite (currentStyle_at w' _ Hci),
      (itemText_items _ _ _ (style_step_items _ _ Hst)).
    apply findText_In. exact Hslicer.
Qed.

(** C1, amended: when [onStyleChanged] is invoked with a name for which the
    factory creates no style, the warning is logged and the combo box is set
    to the index of the first ["Slicer"] entry, so that the current style is
    ["Slicer"] when that style is listed; when it is not, no entry is current
    and the current style is empty.  [currentStyleChanged] is not emitted for
    the unknown name; whatever is emitted during the fallback carries the
    text of the fallback entry: ["Slicer"] when it is listed, the empty text
    when it is not.  Nothing is emitted when the current index already was
    the fallback index, in particular when ["Slicer"] was current in a combo
    box without duplicate entries.  For every name the factory creates a
    style for, the new style is applied, its palette set, and
    [currentStyleChanged] is emitted once, with that name, without any
    warning. *)
Theorem onStyleChanged_fallback_or_apply (d : nat) (w : World) (name : string) :
  (notFound w name ->
   exists w',
     onStyleChanged_ (emit_ (2 + d)) name w = Some w' /\
     (exists rest, warnings w' = warnings w ++ name :: rest) /\
     currentIndex (StyleComboBox (panel w')) =
       ComboBox.findText (StyleComboBox (panel w)) "Slicer" /\
     (In "Slicer" (items (StyleComboBox (panel w))) -> currentStyle w' = "Slicer") /\
     (~ In "Slicer" (items (StyleComboBox (panel w))) ->
      currentIndex (StyleComboBox (panel w')) = -1 /\ currentStyle w' = "") /\
     (exists l, currentStyleChanged_log w' = currentStyleChanged_log w ++ l /\
                ~ In name l /\
                Forall (fun n => n = ComboBox.itemText (StyleComboBox (panel w))
                                      (ComboBox.findText (StyleComboBox (panel w))
                                         "Slicer")) l /\
                (In "Slicer" (items (StyleComboBox (panel w))) ->
                 Forall (fun n => n = "Slicer") l) /\
                (~ In "Slicer" (items (StyleComboBox (panel w))) ->
                 Forall (fun n => n = "") l)) /\
     (currentIndex (StyleComboBox (panel w)) =
        ComboBox.findText (StyleComboBox (panel w)) "Slicer" ->
      currentStyleChanged_log w' = currentStyleChanged_log w) /\
     (List.NoDup (items (StyleComboBox (panel w))) -> currentStyle w = "Slicer" ->
      currentStyleChanged_log w' = currentStyleChanged_log w)) /\
  (forall st,
      QStyleFactory_create (libraryPaths (application w)) name = Some st ->
      exists w',
        onStyleChanged_ (emit_ (2 + d)) name w = Some w' /\
        style (application w') = st /\
        palette (application w') = standardPalette st /\
        In st (eventFilters (application w')) /\
        currentStyleChanged_log w' = currentStyleChanged_log w ++ [name] /\
        warnings w' = warnings w /\
        panel w' = panel w).
Proof.
  split.
  - intros Hn.
    destruct (onStyleChanged_notFound (emit_ (2 + d)) name w (emit_settled d) Hn)
      as (w' & Hw' & Hst & Hci & Hwarn & Hlog).
    pose proof (style_step_items _ _ Hst) as Hitems.
    exists w'. split; [exact Hw'|]. split; [exact Hwarn|]. split; [exact Hci|].
    split; [|split; [|split; [|split; [exact Hlog|]]]].
    + intros Hslicer.
      rewrite (currentStyle_at w' _ Hci), (itemText_items _ _ _ Hitems).
      apply findText_In. exact Hslicer.
    + intros Hnone. rewrite (findText_not_In _ _ Hnone) in Hci.
      split; [exact Hci|]. rewrite (currentStyle_at w' _ Hci). reflexivity.
    + destruct Hst as (_ & _ & (l & Hl & Hfound) & _).
      destruct (onStyleChanged_notFound_named (emit_ (2 + d)) name w w'
                  (emit_settled_named d) Hn Hw') as (l' & Hl' & Hall).
      assert (l' = l) by (rewrite Hl in Hl'; apply app_inv_head in Hl'; congruence).
      subst l'.
      exists l. split; [exact Hl|]. split; [|split; [exact Hall|split]].
      * intros Hin. rewrite Forall_forall in Hfound. apply (Hfound name).
        -- apply list_elem_of_In. exact Hin.
        -- exact Hn.
      * intros Hslicer. eapply Forall_impl; [exact Hall|]. intros n ->.
        apply findText_In. exact Hslicer.
      * intros Hnone. eapply Forall_impl; [exact Hall|]. intros n ->.
        rewrite (findText_not_In _ _ Hnone). reflexivity.
    + intros Hnd Hcur. apply Hlog. unfold settled.
      unfold currentStyle, ComboBox.currentText in Hcur.
      rewrite <- Hcur. symmetry. apply findText_NoDup; [exact Hnd|].
      apply itemText_in_range. rewrite Hcur. discriminate.
  - intros st Hc.
    destruct (onStyleChanged_found (emit_ (2 + d)) name st w (emit_leaf (S d)) Hc)
      as (w' & Hw' & Hp & Ha & Hwn & Hlog & _).
    exists w'. split; [exact Hw'|]. rewrite Ha. cbn.
    repeat split; auto.
Qed.


(** C9: when the user cancels the add-path dialog, that is when the path
    returned is empty, [onAddStyleAdditionalPathClicked] returns with the
    world unchanged: no directory is added, and neither the panel, nor the
    application, nor the settings change. *)
Theorem onAddStyleAdditionalPathClicked_cancelled
    (em : Emission -> World -> option World) (w : World) :
  QFileDialog_getExistingDirectory
    (QVariant_toString
       (QSettings_value (revisionUserSettings w) "Extensions/InstallPath")) = "" ->
  onAddStyleAdditionalPathClicked_ em w = Some w.
Proof.
  intros Hcancel. unfold onAddStyleAdditionalPathClicked. rewrite Hcancel. reflexivity.
Qed.

(** C3, amended: the panel keeps the tooltip preference under the key
    ["no-tooltip"], bound to the checked state of the tooltips check box;
    toggling the check box to [b] stores [b] under that key and sets the
    application's tooltips-enabled state to the negation of [b], so the
    stored value is the negation of whether tooltips are enabled. *)
Theorem toggling_tooltips_check_box (d : nat) (w : World) (b : bool)
    (s : SettingsStore) :
  In Conn_onShowToolTipsToggled (connections (panel w)) ->
  In (Conn_updateSetting "no-tooltip") (connections (panel w)) ->
  Properties (panel w) !! "no-tooltip" = Some noTooltipProperty ->
  Settings (panel w) = Some s ->
  ShowToolTipsCheckBox (panel w) = negb b ->
  exists w',
    setChecked (emit_ (1 + d)) obj_ShowToolTipsCheckBox b w = Some w' /\
    ShowToolTipsCheckBox (panel w') = b /\
    store s w' !! "no-tooltip" = Some (VBool b) /\
    toolTipsEnabled (application w') = negb b /\
    toolTipsEnabled (application (onShowToolTipsToggled b w)) = negb b.
Proof.
  intros Hslot Hupd Hprop Hset Hchk.
  unfold setChecked. cbn [checked]. rewrite Hchk.
  replace (Bool.eqb (negb b) b) with false by (destruct b; reflexivity).
  fold (sig_showToolTipsToggled b).
  set (w0 := set_checked obj_ShowToolTipsCheckBox b w).
  assert (Hinv : tooltips_inv b s w0) by (repeat split; assumption).
  cbn [emit Nat.add].
  destruct (deliverAll_establish (emit_ d) (sig_showToolTipsToggled b)
              (tooltips_inv b s)
              (fun w' => toolTipsEnabled (application w') = negb b)
              Conn_onShowToolTipsToggled)
    with (cs := connections (panel w0)) (w := w0) as (w1 & Hw1 & _ & Hq1);
    [|exact Hslot|exact Hinv|].
  { intros c w' Hw'. destruct (deliver_tooltips (emit_ d) c b s w' Hw')
      as (w2 & H1 & H2 & H3 & H4 & _). eauto. }
  destruct (deliverAll_establish (emit_ d) (sig_showToolTipsToggled b)
              (tooltips_inv b s)
              (fun w' => store s w' !! "no-tooltip" = Some (VBool b))
              (Conn_updateSetting "no-tooltip"))
    with (cs := connections (panel w0)) (w := w0) as (w2 & Hw2 & (Hc2 & _) & Hq2);
    [|exact Hupd|exact Hinv|].
  { intros c w' Hw'. destruct (deliver_tooltips (emit_ d) c b s w' Hw')
      as (w2 & H1 & H2 & _ & _ & H5 & H6). eauto. }
  assert (w2 = w1) by congruence. subst w2.
  exists w1. split; [exact Hw1|]. auto.
Qed.

Lemma setChecked_step (em : Emission -> World -> option World) (o : Object)
    (b : bool) (w : World) :
  AllOK em ->
  exists w', setChecked em o b w = Some w' /\ panel_step w w'.
Proof.
  intros Hall. unfold setChecked.
  destruct (Bool.eqb _ b); [exists w; split; [reflexivity | apply panel_step_refl]|].
  match goal with
  | |- context [em ?e ?w0] => destruct (Hall e w0) as (w' & Hw' & Hst)
  end.
  exists w'. split; [exact Hw'|].
  eapply panel_step_trans; [|exact Hst]. apply silent_panel_step; reflexivity.
Qed.

Lemma init_spec (em : Emission -> World -> option World) (w : World) :
  AllOK em -> ComboOK em ->
  exists w',
    init_ em w = Some w' /\
    Properties (panel w') = registerAll (Properties (panel w)) /\
    connections (panel w') = connections (panel w) ++ initConnections /\
    QtStyles (panel w') = QtStyles (panel w) /\
    Settings (panel w') = Settings (panel w).
Proof.
  intros Hall Hcombo. unfold init. cbv zeta.
  match goal with
  | |- context [setChecked em ?o ?b ?w0] =>
      destruct (setChecked_step em o b w0 Hall)
        as (w1 & -> & Hq1 & Hp1 & Hs1 & Hc1 & _)
  end.
  cbn [mbind option_bind].
  match goal with
  | |- context [populateStyles_ em ?w0] =>
      destruct (populateStyles_spec em w0 Hcombo) as (w2 & -> & _ & Hr2 & _)
  end.
  cbn [mbind option_bind].
  unfold setCurrentStyle.
  match goal with
  | |- context [comboNotify em (ComboBox.setCurrentIndex ?i _) ?w0] =>
      destruct (comboNotify_setCurrentIndex em i w0 Hcombo) as (w3 & -> & Hr3 & _)
  end.
  cbn [mbind option_bind].
  eexists. split; [reflexivity|].
  unfold populate_rest in Hr2. unfold style_rest in Hr3.
  cbn in Hq1, Hp1, Hs1, Hc1, Hr2. cbn.
  assert (Properties (panel w3) =
          <["Styles/AdditionalPaths" :=
              mkProperty obj_AdditionalStylePathsView "directoryList"
                SIGNAL_directoryListChanged "Additional style paths"
                OptionRequireRestart (Some RevisionUserSettings)]>
            (Properties (panel w1))) as -> by congruence.
  assert (connections (panel w3) =
          (connections (panel w1) ++ [Conn_onAdditionalStylePathsChanged]) ++
          [Conn_updateSetting "Styles/AdditionalPaths"]) as -> by congruence.
  rewrite Hp1, Hc1.
  split; [reflexivity|].
  split; [rewrite <- !app_assoc; reflexivity|].
  split; congruence.
Qed.

Lemma registerAll_dom : dom (registerAll ∅) = registeredKeys.
Proof.
  unfold registerAll, registeredKeys.
  rewrite !dom_insert_L, dom_empty_L. set_solver.
Qed.

(** C4, amended: at initialization the panel registers exactly six
    settings keys, each bound to the corresponding widget property and
    change signal: ["no-tooltip"], ["font"], ["MainWindow/ShowToolButtonText"],
    ["MainWindow/RestoreGeometry"], ["Styles/AdditionalPaths"] and
    ["Styles/Style"], the last two in the revision user settings; whatever
    signal is emitted afterwards, the settings stores are written at
    registered keys only.  The key ["Extensions/InstallPath"] is not
    registered: the add-path handler reads it to open the dialog there. *)
Theorem init_registers_settings_keys (d : nat)
    (ui : @Ui_qSlicerSettingsStylesPanel QFont)
    (a : @Application QStyle QPalette QFont)
    (user revision : gmap string (@QVariant QFont)) :
  (exists w',
      init_ (emit_ (5 + d)) (constructed ui a user revision) = Some w' /\
      Properties (panel w') = registerAll ∅ /\
      connections (panel w') = initConnections) /\
  dom (registerAll ∅) = registeredKeys /\
  registerAll ∅ !! "no-tooltip" =
    Some (mkProperty obj_ShowToolTipsCheckBox "checked" SIGNAL_toggled ""
            OptionNone None) /\
  registerAll ∅ !! "font" =
    Some (mkProperty obj_FontButton "currentFont" SIGNAL_currentFontChanged ""
            OptionNone None) /\
  registerAll ∅ !! "MainWindow/ShowToolButtonText" =
    Some (mkProperty obj_ShowToolButtonTextCheckBox "checked" SIGNAL_toggled ""
            OptionNone None) /\
  registerAll ∅ !! "MainWindow/RestoreGeometry" =
    Some (mkProperty obj_RestoreUICheckBox "checked" SIGNAL_toggled ""
            OptionNone None) /\
  registerAll ∅ !! "Styles/AdditionalPaths" =
    Some (mkProperty obj_AdditionalStylePathsView "directoryList"
            SIGNAL_directoryListChanged "Additional style paths"
            OptionRequireRestart (Some RevisionUserSettings)) /\
  registerAll ∅ !! "Styles/Style" =
    Some (mkProperty obj_q "currentStyle" SIGNAL_currentStyleChanged
            "Current style" OptionNone (Some RevisionUserSettings)) /\
  (forall (e : Emission) (w : World), exists w',
      emit_ (5 + d) e w = Some w' /\
      Properties (panel w') = Properties (panel w) /\
      forall s k, Properties (panel w) !! k = None ->
                  store s w' !! k = store s w !! k) /\
  ("Extensions/InstallPath" ∉ registeredKeys) /\
  (forall (em : Emission -> World -> option World) (w : World),
      onAddStyleAdditionalPathClicked_ em w =
      let path :=
        QFileDialog_getExistingDirectory
          (QVariant_toString
             (QSettings_value (revisionUserSettings w) "Extensions/InstallPath")) in
      if QString.isEmpty path then Some w else addDirectory em path w).
Proof.
  split; [|split; [apply registerAll_dom|]].
  - destruct (init_spec (emit_ (5 + d)) (constructed ui a user revision)
                (emit_all d) (emit_combo (2 + d)))
      as (w' & Hw' & Hp & Hc & _).
    exists w'. auto.
  - repeat (split; [unfold registerAll, noTooltipProperty; simplify_map_eq; reflexivity|]).
    split; [|split].
    + intros e w. destruct (emit_all d e w) as (w' & Hw' & _ & Hp & _ & _ & Hs & _).
      exists w'. auto.
    + unfold registeredKeys. rewrite !elem_of_union, !elem_of_singleton.
      intuition discriminate.
    + reflexivity.
Qed.

Lemma run_step (d : nat) (op : Operation) (w : World) :
  exists w', run (emit_ (4 + d)) op w = Some w' /\ panel_step w w'.
Proof.
  destruct op; cbn [run].
  - unfold setCurrentStyle.
    destruct (comboNotify_setCurrentIndex (emit_ (4 + d)) (styleIndex newStyleName w) w
                (emit_combo (1 + d))) as (w' & Hw' & Hst).
    exists w'. split; [exact Hw' | apply style_step_panel_step, Hst].
  - destruct (onStyleChanged_step (emit_ (4 + d)) newStyleName w
                (emit_leaf (3 + d)) (emit_settled (2 + d))) as (w' & Hw' & Hst).
    exists w'. split; [exact Hw' | apply style_step_panel_step, Hst].
  - apply onAdditionalStylePathsChanged_step, (emit_combo (1 + d)).
  - apply onAddStyleAdditionalPathClicked_step, emit_dir.
  - apply removeSelectedDirectories_step, emit_dir.
  - eexists. split; [reflexivity|]. apply silent_panel_step; reflexivity.
  - eexists. split; [reflexivity|]. apply silent_panel_step; reflexivity.
  - eexists. split; [reflexivity|]. unfold onShowToolButtonTextToggled.
    destruct (mainWindow (application w)); apply silent_panel_step; reflexivity.
Qed.

(** C6: besides the fallback on an unknown style name, no operation of the
    panel has an error-handling branch of its own.  Every public operation
    completes, and every warning an operation logs is the one of the
    fallback: it names a style the factory could not create.  The font,
    tooltip and tool-button handlers log nothing.  The guards of the
    tool-button and add-path handlers are not error paths: without a main
    window [onShowToolButtonTextToggled] returns with nothing changed (with
    one, it sets the tool-button style), and a cancelled add-path dialog
    returns with nothing changed.  The result of an operation does not
    depend on the bound on nested deliveries once that bound is four or
    more. *)
Theorem operations_complete_without_error_path (d : nat) :
  (forall (op : Operation) (w : World),
      exists w', run (emit_ (4 + d)) op w = Some w' /\
        exists l, warnings w' = warnings w ++ l /\
          Forall (fun n => exists libs, QStyleFactory_create libs n = None) l) /\
  (forall (op : Operation) (w : World) (d' : nat),
      (4 + d <= d')%nat -> run (emit_ d') op w = run (emit_ (4 + d)) op w) /\
  (forall (f : QFont) (w : World), warnings (onFontChanged f w) = warnings w) /\
  (forall (b : bool) (w : World), warnings (onShowToolTipsToggled b w) = warnings w) /\
  (forall (b : bool) (w : World),
      warnings (onShowToolButtonTextToggled b w) = warnings w) /\
  (forall (b : bool) (w : World),
      mainWindow (application w) = None -> onShowToolButtonTextToggled b w = w) /\
  (forall (b : bool) (w : World) t,
      mainWindow (application w) = Some t ->
      mainWindow (application (onShowToolButtonTextToggled b w)) =
      Some (if b then ToolButtonTextUnderIcon else ToolButtonIconOnly)) /\
  (forall w : World,
      QFileDialog_getExistingDirectory
        (QVariant_toString
           (QSettings_value (revisionUserSettings w) "Extensions/InstallPath")) = "" ->
      run (emit_ (4 + d)) Op_onAddStyleAdditionalPathClicked w = Some w).
Proof.
  split; [|split; [|split; [|split; [|split; [|split; [|split]]]]]].
  - intros op w. destruct (run_step d op w) as (w' & Hw' & _ & _ & _ & _ & _ & Hl).
    eauto.
  - intros op w d' Hle. destruct (run_step d op w) as (w' & Hw' & _).
    rewrite Hw'. apply (run_mono (emit_ (4 + d)) (emit_ d') (emit_le _ _ Hle)), Hw'.
  - reflexivity.
  - reflexivity.
  - intros b w. unfold onShowToolButtonTextToggled.
    destruct (mainWindow (application w)); reflexivity.
  - intros b w Hm. unfold onShowToolButtonTextToggled. rewrite Hm. reflexivity.
  - intros b w t Hm. unfold onShowToolButtonTextToggled. rewrite Hm. reflexivity.
  - intros w Hc. cbn [run]. unfold onAddStyleAdditionalPathClicked.
    rewrite Hc. reflexivity.
Qed.

(** ** Further properties of the panel *)

(** *** styleIndex *)

Lemma findText_items (cb cb' : QComboBox) (text : string) :
  items cb' = items cb -> ComboBox.findText cb' text = ComboBox.findText cb text.
Proof. unfold ComboBox.findText. intros ->. reflexivity. Qed.

Lemma styleIndex_items (name : string) (w w' : World) :
  items (StyleComboBox (panel w')) = items (StyleComboBox (panel w)) ->
  styleIndex name w' = styleIndex name w.
Proof.
  intros Hi. unfold styleIndex. rewrite !(findText_items _ _ _ Hi). reflexivity.
Qed.

Lemma styleIndex_listed (name : string) (w : World) :
  In name (items (StyleComboBox (panel w))) ->
  styleIndex name w = ComboBox.findText (StyleComboBox (panel w)) name.
Proof.
  intros Hin. destruct (findText_In _ _ Hin) as [Hrange _]. unfold styleIndex.
  destruct (Z.eqb_spec (ComboBox.findText (StyleComboBox (panel w)) name) (-1));
    [lia | reflexivity].
Qed.

Lemma styleIndex_unlisted (name : string) (w : World) :
  ~ In name (items (StyleComboBox (panel w))) ->
  styleIndex name w = ComboBox.findText (StyleComboBox (panel w)) "Slicer".
Proof.
  intros Hnot. unfold styleIndex. rewrite (findText_not_In _ _ Hnot). reflexivity.
Qed.

(** The items before the index [findText] returns are other texts. *)
Lemma findText_from_first (l : list string) :
  forall (i : Z) (text : string) (m : nat),
    ComboBox.findText_from i l text <> -1 -> 0 <= i ->
    (i + Z.of_nat m < ComboBox.findText_from i l text) -> nth m l "" <> text.
Proof.
  induction l as [|x xs IH]; intros i text m Hfound Hi Hlt; simpl in *; [congruence|].
  destruct (String.eqb_spec x text) as [->|Hne]; [lia|].
  destruct m as [|m]; [exact Hne|].
  apply (IH (i + 1) text m); [exact Hfound | lia | lia].
Qed.

(** X1: [styleIndex] never returns an index out of range.  For a name listed
    in the combo box it is the index of the first item with that text; for
    any other name it is the index of ["Slicer"]; it is [-1] exactly when
    neither the name nor ["Slicer"] is listed. *)
Theorem styleIndex_fallback (name : string) (w : World) :
  -1 <= styleIndex name w < ComboBox.count (StyleComboBox (panel w)) /\
  (In name (items (StyleComboBox (panel w))) ->
   0 <= styleIndex name w /\
   ComboBox.itemText (StyleComboBox (panel w)) (styleIndex name w) = name /\
   forall j, 0 <= j < styleIndex name w ->
             ComboBox.itemText (StyleComboBox (panel w)) j <> name) /\
  (~ In name (items (StyleComboBox (panel w))) ->
   styleIndex name w = styleIndex "Slicer" w /\
   (In "Slicer" (items (StyleComboBox (panel w))) ->
    ComboBox.itemText (StyleComboBox (panel w)) (styleIndex name w) = "Slicer")) /\
  (styleIndex name w = -1 <->
   ~ In name (items (StyleComboBox (panel w))) /\
   ~ In "Slicer" (items (StyleComboBox (panel w)))).
Proof.
  split; [apply styleIndex_range|]. split; [|split].
  - intros Hin. rewrite (styleIndex_listed name w Hin).
    destruct (findText_In _ _ Hin) as [Hrange Htext].
    split; [lia|]. split; [exact Htext|].
    intros j Hj. unfold ComboBox.itemText.
    destruct (Z.ltb_spec j 0); [lia|].
    apply (findText_from_first (items (StyleComboBox (panel w))) 0 name (Z.to_nat j));
      unfold ComboBox.findText in *; lia.
  - intros Hnot. rewrite (styleIndex_unlisted name w Hnot), styleIndex_Slicer.
    split; [reflexivity|]. intros Hs. apply findText_In. exact Hs.
  - split.
    + intros Hidx.
      assert (Hnot : ~ In name (items (StyleComboBox (panel w)))).
      { intros Hin. rewrite (styleIndex_listed name w Hin) in Hidx.
        destruct (findText_In _ _ Hin) as [Hrange _]. lia. }
      split; [exact Hnot|]. intros Hs.
      rewrite (styleIndex_unlisted name w Hnot) in Hidx.
      destruct (findText_In _ _ Hs) as [Hrange _]. lia.
    + intros [Hnot Hs]. rewrite (styleIndex_unlisted name w Hnot).
      apply findText_not_In. exact Hs.
Qed.

(** *** setCurrentStyle *)

(** Nothing happens, and nothing is emitted, when the index asked for is
    the current one. *)
Lemma setCurrentStyle_current (em : Emission -> World -> option World)
    (name : string) (w : World) :
  currentIndex (StyleComboBox (panel w)) = styleIndex name w ->
  setCurrentStyle em name w = Some w.
Proof.
  intros Hc. unfold setCurrentStyle.
  rewrite setCurrentIndex_same; [|apply styleIndex_range | exact Hc].
  unfold comboNotify. cbn. rewrite set_StyleComboBox_same. reflexivity.
Qed.

(** X2: [setCurrentStyle] changes nothing and emits nothing, whatever is
    connected, when the current index already is the index [styleIndex]
    gives for the name: the first entry with that text, or the fallback
    entry for a name that is not listed.  In a combo box without duplicate
    entries that is so whenever the name is the text of the current entry.
    A second [setCurrentStyle] with the same name is such a call, for every
    name the factory can create or that is not listed: setting a style
    twice is setting it once. *)
Theorem setCurrentStyle_idempotent (d : nat) (w : World) (name : string) :
  (currentIndex (StyleComboBox (panel w)) = styleIndex name w ->
   forall em, setCurrentStyle em name w = Some w) /\
  (List.NoDup (items (StyleComboBox (panel w))) ->
   0 <= currentIndex (StyleComboBox (panel w)) < ComboBox.count (StyleComboBox (panel w)) ->
   currentStyle w = name ->
   forall em, setCurrentStyle em name w = Some w) /\
  (found w name \/ ~ In name (items (StyleComboBox (panel w))) ->
   exists w', setCurrentStyle (emit_ (2 + d)) name w = Some w' /\
              forall em, setCurrentStyle em name w' = Some w').
Proof.
  split; [intros Hc em; apply setCurrentStyle_current; exact Hc|].
  split.
  { intros Hnd Hrange Hcur em. apply setCurrentStyle_current.
    unfold currentStyle, ComboBox.currentText in Hcur.
    pose proof (findText_NoDup _ _ Hnd Hrange) as Hfind. rewrite Hcur in Hfind.
    assert (Hin : In name (items (StyleComboBox (panel w)))).
    { rewrite <- Hcur. unfold ComboBox.itemText, ComboBox.count in *.
      destruct (Z.ltb_spec (currentIndex (StyleComboBox (panel w))) 0); [lia|].
      apply nth_In. lia. }
    rewrite (styleIndex_listed name w Hin), Hfind. reflexivity. }
  intros Hcase.
  destruct (In_dec string_dec name (items (StyleComboBox (panel w)))) as [Hin|Hnot].
  - destruct Hcase as [Hf|Hnot]; [|contradiction].
    destruct (findText_In _ _ Hin) as [Hrange Htext].
    unfold setCurrentStyle at 1. rewrite (styleIndex_listed name w Hin).
    destruct (setCurrentIndex_quiet (emit_ (2 + d))
                (ComboBox.findText (StyleComboBox (panel w)) name) w (emit_settled d))
      as (w' & Hw' & Hst & Hci).
    + lia.
    + intros w0 _ _ Hlibs. right. intros s [= <-]. rewrite Htext.
      unfold found. rewrite Hlibs. exact Hf.
    + exists w'. split; [exact Hw'|]. intros em. apply setCurrentStyle_current.
      rewrite (styleIndex_items name w w' (style_step_items _ _ Hst)),
        (styleIndex_listed name w Hin).
      exact Hci.
  - destruct (setCurrentStyle_unlisted (emit_ (2 + d)) name w (emit_settled d) Hnot)
      as (w' & Hw' & Hst & Hci).
    exists w'. split; [exact Hw'|]. intros em. apply setCurrentStyle_current.
    rewrite (styleIndex_items name w w' (style_step_items _ _ Hst)),
      (styleIndex_unlisted name w Hnot).
    exact Hci.
Qed.

(** *** The event filter of the application style *)

Lemma removeEventFilter_In (st x : QStyle) (w : World) :
  In x (eventFilters (application (removeEventFilter st w))) <->
  In x (eventFilters (application w)) /\ x <> st.
Proof.
  cbn. rewrite filter_In, negb_true_iff, bool_decide_eq_false. reflexivity.
Qed.

(** X3: when [onStyleChanged] is invoked with a name the factory creates no
    style for while the fallback entry is current already, the application
    keeps its style and palette, but the style is no longer installed as an
    event filter of the application: the filter removed at the start of the
    slot is not installed again.  The warning is logged; nothing else
    changes and nothing is emitted, whatever is connected. *)
Theorem onStyleChanged_unknown_drops_event_filter
    (em : Emission -> World -> option World) (w : World) (name : string) :
  notFound w name -> settled w ->
  exists w',
    onStyleChanged_ em name w = Some w' /\
    style (application w') = style (application w) /\
    palette (application w') = palette (application w) /\
    ~ In (style (application w')) (eventFilters (application w')) /\
    (forall x, In x (eventFilters (application w')) <->
               In x (eventFilters (application w)) /\ x <> style (application w)) /\
    panel w' = panel w /\
    warnings w' = warnings w ++ [name] /\
    currentStyleChanged_log w' = currentStyleChanged_log w /\
    userSettings w' = userSettings w /\
    revisionUserSettings w' = revisionUserSettings w.
Proof.
  intros Hn Hs. exists (warned name w).
  split; [apply onStyleChanged_notFound_settled; assumption|].
  assert (Hfilter : forall x,
             In x (eventFilters (application (warned name w))) <->
             In x (eventFilters (application w)) /\ x <> style (application w)).
  { intros x. apply (removeEventFilter_In (style (application w)) x w). }
  split; [reflexivity|]. split; [reflexivity|].
  split; [intros Hin; apply Hfilter in Hin as [_ Hne]; apply Hne; reflexivity|].
  split; [exact Hfilter|]. repeat split.
Qed.

(** X4: when [onStyleChanged] is invoked with a name the factory creates a
    style for, that style becomes the first event filter of the application
    and is installed once; the old application style no longer is a filter
    (unless it is the new style) and the other filters are kept.  The font,
    the tooltip flag, the main window and the library paths of the
    application are not touched. *)
Theorem onStyleChanged_installs_event_filter (d : nat) (w : World) (name : string)
    (st : QStyle) :
  QStyleFactory_create (libraryPaths (application w)) name = Some st ->
  exists w',
    onStyleChanged_ (emit_ (1 + d)) name w = Some w' /\
    (exists rest, eventFilters (application w') = st :: rest /\ ~ In st rest) /\
    (forall x, In x (eventFilters (application w')) <->
               x = st \/ (In x (eventFilters (application w)) /\
                          x <> style (application w))) /\
    (style (application w) <> st ->
     ~ In (style (application w)) (eventFilters (application w'))) /\
    font (application w') = font (application w) /\
    toolTipsEnabled (application w') = toolTipsEnabled (application w) /\
    mainWindow (application w') = mainWindow (application w) /\
    libraryPaths (application w') = libraryPaths (application w).
Proof.
  intros Hc.
  destruct (onStyleChanged_found (emit_ (1 + d)) name st w (emit_leaf d) Hc)
    as (w' & Hw' & _ & Ha & _).
  exists w'. split; [exact Hw'|]. rewrite Ha. cbn.
  set (kept := List.filter (fun x => negb (bool_decide (x = style (application w))))
                 (eventFilters (application w))).
  assert (Hkept : forall x, In x kept <->
                            In x (eventFilters (application w)) /\
                            x <> style (application w)).
  { intros x. unfold kept.
    rewrite filter_In, negb_true_iff, bool_decide_eq_false. reflexivity. }
  assert (Hrest : forall x,
             In x (List.filter (fun x => negb (bool_decide (x = st))) kept) <->
             In x kept /\ x <> st).
  { intros x. rewrite filter_In, negb_true_iff, bool_decide_eq_false. reflexivity. }
  split; [|split; [|split]].
  - eexists. split; [reflexivity|]. intros Hin. apply Hrest in Hin as [_ Hne].
    apply Hne. reflexivity.
  - intros x. split.
    + intros [<-|Hin]; [left; reflexivity|].
      apply Hrest in Hin as [Hin _]. apply Hkept in Hin. right. exact Hin.
    + intros [->|Hin]; [left; reflexivity|].
      destruct (decide (x = st)) as [->|Hne]; [left; reflexivity|].
      right. apply Hrest. split; [apply Hkept; exact Hin | exact Hne].
  - intros Hne [Heq|Hin]; [congruence|].
    apply Hrest in Hin as [Hin _]. apply Hkept in Hin as [_ Hself].
    apply Hself. reflexivity.
  - repeat split.
Qed.

(** *** populateStyles *)

Lemma set_StyleComboBox_twice (cb cb' : QComboBox) (w : World) :
  set_StyleComboBox cb (set_StyleComboBox cb' w) = set_StyleComboBox cb w.
Proof. reflexivity. Qed.

(** X5: [populateStyles] keeps the current style when the refilled list
    still offers it (and the factory can create it, or no signal reaches
    [onStyleChanged]); when the list no longer offers it, the current style
    becomes ["Slicer"], provided that is offered; with nothing offered there
    is no current style.  The [blockSignals] flag of the combo box is what it
    was before. *)
Theorem populateStyles_keeps_current_style (d : nat) (w : World) :
  (In (currentStyle w) (offeredStyles w) ->
   found w (currentStyle w) \/
   signalsBlocked (StyleComboBox (panel w)) = true \/
   ~ In Conn_onStyleChanged (connections (panel w)) ->
   exists w', populateStyles_ (emit_ (3 + d)) w = Some w' /\
              currentStyle w' = currentStyle w /\
              signalsBlocked (StyleComboBox (panel w')) =
                signalsBlocked (StyleComboBox (panel w))) /\
  (~ In (currentStyle w) (offeredStyles w) ->
   exists w', populateStyles_ (emit_ (3 + d)) w = Some w' /\
              (In "Slicer" (offeredStyles w) -> currentStyle w' = "Slicer") /\
              (~ In "Slicer" (offeredStyles w) ->
               currentStyle w' = "" /\
               currentIndex (StyleComboBox (panel w')) = -1) /\
              signalsBlocked (StyleComboBox (panel w')) =
                signalsBlocked (StyleComboBox (panel w))).
Proof.
  destruct (populateStyles_refill (emit_ (3 + d)) w) as (cb0 & Hrun & Hitems & Hb).
  set (w0 := set_StyleComboBox cb0 w) in *.
  assert (Hi0 : items (StyleComboBox (panel w0)) = offeredStyles w) by exact Hitems.
  destruct (comboNotify_setCurrentIndex (emit_ (3 + d))
              (styleIndex (currentStyle w) w0) w0 (emit_combo d))
    as (w1 & Hw1 & (Hr1 & _)).
  fold (setCurrentStyle (emit_ (3 + d)) (currentStyle w) w0) in Hw1.
  assert (Hblocked : signalsBlocked (StyleComboBox (panel w1)) =
                     signalsBlocked (StyleComboBox (panel w))).
  { unfold style_rest in Hr1.
    assert (signalsBlocked (StyleComboBox (panel w1)) =
            signalsBlocked (StyleComboBox (panel w0))) as -> by congruence.
    exact Hb. }
  rewrite Hrun. split.
  - intros Hin Hcase. rewrite <- Hi0 in Hin.
    exists w1. split; [exact Hw1|]. split; [|exact Hblocked].
    destruct Hcase as [Hf|Hsilent].
    + destruct (setCurrentStyle_listed (emit_ (3 + d)) (currentStyle w) w0
                  (emit_settled (S d)) Hin Hf) as (w' & Hw' & _ & Hc).
      congruence.
    + destruct (setCurrentStyle_listed_silent (2 + d) (currentStyle w) w0 Hin)
        as (w' & Hw' & Hc).
      { destruct Hsilent as [Hblk|Hnot]; [left; cbn; rewrite Hb; exact Hblk|].
        right. exact Hnot. }
      assert (Heq : Some w' = Some w1) by (rewrite <- Hw'; exact Hw1).
      congruence.
  - intros Hnot. rewrite <- Hi0 in Hnot.
    destruct (setCurrentStyle_unlisted (emit_ (3 + d)) (currentStyle w) w0
                (emit_settled (S d)) Hnot) as (w' & Hw' & Hst & Hci).
    assert (w' = w1) by congruence. subst w'.
    exists w1. split; [exact Hw1|].
    pose proof (style_step_items _ _ Hst) as Hsi.
    split; [|split; [|exact Hblocked]].
    + intros Hs. rewrite <- Hi0 in Hs.
      rewrite (currentStyle_at w1 _ Hci), (itemText_items _ _ _ Hsi).
      apply findText_In. exact Hs.
    + intros Hs. rewrite <- Hi0 in Hs.
      rewrite (findText_not_In _ _ Hs) in Hci.
      split; [|exact Hci]. rewrite (currentStyle_at w1 _ Hci). reflexivity.
Qed.

(** X6: while the signals of the combo box are blocked by the caller,
    [populateStyles] changes the combo box and nothing else, emits nothing,
    whatever is connected, and leaves the signals blocked: the list is the
    one offered, and the current index is the one [styleIndex] gives for the
    style that was current. *)
Theorem populateStyles_blocked (em : Emission -> World -> option World) (w : World) :
  signalsBlocked (StyleComboBox (panel w)) = true ->
  exists cb,
    populateStyles_ em w = Some (set_StyleComboBox cb w) /\
    items cb = offeredStyles w /\
    signalsBlocked cb = true /\
    currentIndex cb = styleIndex (currentStyle w) (set_StyleComboBox cb w).
Proof.
  intros Hblocked.
  destruct (populateStyles_refill em w) as (cb0 & Hrun & Hitems & Hb).
  rewrite Hrun. unfold setCurrentStyle.
  set (w0 := set_StyleComboBox cb0 w).
  set (i := styleIndex (currentStyle w) w0).
  exists (fst (ComboBox.setCurrentIndex i (StyleComboBox (panel w0)))).
  assert (Hbl : signalsBlocked (fst (ComboBox.setCurrentIndex i (StyleComboBox (panel w0)))) = true).
  { rewrite setCurrentIndex_blocked. cbn. rewrite Hb. exact Hblocked. }
  rewrite comboNotify_blocked by exact Hbl.
  split; [reflexivity|].
  split; [rewrite setCurrentIndex_items; exact Hitems|].
  split; [exact Hbl|].
  rewrite setCurrentIndex_index by apply styleIndex_range.
  subst i. apply styleIndex_items. cbn. rewrite setCurrentIndex_items. reflexivity.
Qed.

(** *** Signals nothing listens to *)

Lemma deliverAll_deaf (em : Emission -> World -> option World) (e : Emission)
    (cs : list Connection) (w : World) :
  Forall (fun c => listens c e w = false) cs -> deliverAll_ em cs e w = Some w.
Proof.
  induction 1 as [|c cs Hc _ IH]; simpl; [reflexivity|].
  unfold deliver. rewrite Hc. simpl. exact IH.
Qed.

(** Deafness of the connections of [w], checked by evaluation. *)
Lemma deaf_by_evaluation (e : Emission) (w : World) :
  forallb (fun c => negb (listens c e w)) (connections (panel w)) = true ->
  Forall (fun c => listens c e w = false) (connections (panel w)).
Proof.
  rewrite forallb_forall. intros Hb. apply Forall_forall. intros c Hc.
  apply list_elem_of_In in Hc. apply Hb, negb_true_iff in Hc. exact Hc.
Qed.

Lemma listens_set_StyleComboBox (c : Connection) (e : Emission) (cb : QComboBox)
    (w : World) :
  listens c e (set_StyleComboBox cb w) = listens c e w.
Proof. destruct c; reflexivity. Qed.

Lemma comboNotify_deaf (d : nat) (r : QComboBox * option string) (w : World) :
  deaf_combo w ->
  comboNotify (emit_ (S d)) r w = Some (set_StyleComboBox (fst r) w).
Proof.
  intros Hdeaf. unfold comboNotify.
  destruct (snd r) as [text|]; [|reflexivity].
  destruct (signalsBlocked (fst r)); [reflexivity|].
  cbn [emit]. apply deliverAll_deaf. cbn [connections panel set_StyleComboBox with_panel].
  eapply Forall_impl; [apply (Hdeaf (StringArg text))|].
  intros c Hc. cbn beta in *. rewrite listens_set_StyleComboBox. exact Hc.
Qed.

Lemma setCurrentStyle_deaf (d : nat) (name : string) (w : World) :
  deaf_combo w ->
  setCurrentStyle (emit_ (S d)) name w =
  Some (set_StyleComboBox
          (fst (ComboBox.setCurrentIndex (styleIndex name w) (StyleComboBox (panel w)))) w).
Proof. intros Hdeaf. unfold setCurrentStyle. apply comboNotify_deaf. exact Hdeaf. Qed.

Lemma bind_Some {A B : Type} (x : A) (f : A -> option B) : Some x ≫= f = f x.
Proof. reflexivity. Qed.

Lemma init_stages (em : Emission -> World -> option World) (w : World) :
  init_ em w =
  w ← setChecked em obj_AdditionalStylePathMoreButton false (init_general w);
  w ← populateStyles_ em (init_paths w);
  w ← setCurrentStyle em "Slicer" w;
  Some (init_style w).
Proof. reflexivity. Qed.

Lemma set_checked_same (w : World) :
  AdditionalStylePathMoreButton (panel w) = false ->
  set_checked obj_AdditionalStylePathMoreButton false w = w.
Proof. destruct w as [[] ? ? ? ? ?]. cbn. intros ->. reflexivity. Qed.

(** X7: constructing the panel applies no style.  For revision user
    settings that store neither additional paths nor a style (CTK restores a
    stored value when its property is registered, which this model leaves
    out), [init] fills the combo box with the styles offered and makes
    ["Slicer"] current when it is offered, but it connects [onStyleChanged]
    only afterwards, so the application (style, palette, event filters,
    library paths), both settings stores and the logs are as before: no
    warning, no [currentStyleChanged].  The more-button is unchecked, no
    additional path is stored, and one level of signal delivery is enough. *)
Theorem init_applies_no_style (d : nat)
    (ui : @Ui_qSlicerSettingsStylesPanel QFont)
    (a : @Application QStyle QPalette QFont)
    (user revision : gmap string (@QVariant QFont)) :
  revision !! "Styles/AdditionalPaths" = None ->
  revision !! "Styles/Style" = None ->
  exists w',
    init_ (emit_ (1 + d)) (constructed ui a user revision) = Some w' /\
    application w' = a /\
    userSettings w' = user /\
    revisionUserSettings w' = revision /\
    warnings w' = [] /\
    currentStyleChanged_log w' = [] /\
    items (StyleComboBox (panel w')) =
      List.filter (notQtStyle builtinQtStyles) (QStyleFactory_keys (libraryPaths a)) /\
    currentIndex (StyleComboBox (panel w')) =
      ComboBox.findText (StyleComboBox (panel w')) "Slicer" /\
    (In "Slicer" (items (StyleComboBox (panel w'))) -> currentStyle w' = "Slicer") /\
    AdditionalStylePathMoreButton (panel w') = false /\
    AdditionalPaths (panel w') = [] /\
    Settings (panel w') = None.
Proof.
  intros _ _. change (1 + d)%nat with (S d).
  set (w0 := constructed ui a user revision).
  rewrite (init_stages (emit_ (S d)) w0).
  set (w1 := set_checked obj_AdditionalStylePathMoreButton false (init_general w0)).
  assert (Hchk : setChecked (emit_ (S d)) obj_AdditionalStylePathMoreButton false
                   (init_general w0) = Some w1).
  { unfold setChecked.
    destruct (Bool.eqb (checked obj_AdditionalStylePathMoreButton (init_general w0)) false)
      eqn:Heq.
    - apply Bool.eqb_prop in Heq. subst w1.
      rewrite set_checked_same by exact Heq. reflexivity.
    - cbn [emit]. apply deliverAll_deaf, deaf_by_evaluation.
      vm_compute. reflexivity. }
  rewrite Hchk, bind_Some.
  set (w2 := init_paths w1).
  assert (Hdeaf2 : forall cb, deaf_combo (set_StyleComboBox cb w2)).
  { intros cb a0. apply deaf_by_evaluation. vm_compute. reflexivity. }
  destruct (populateStyles_refill (emit_ (S d)) w2) as (cb0 & Hrun & Hitems & _).
  rewrite Hrun, (setCurrentStyle_deaf d _ _ (Hdeaf2 cb0)), bind_Some.
  rewrite set_StyleComboBox_twice.
  match goal with
  | |- context [setCurrentStyle _ _ (set_StyleComboBox ?cb w2)] => set (cb1 := cb)
  end.
  rewrite (setCurrentStyle_deaf d _ _ (Hdeaf2 cb1)), bind_Some.
  rewrite set_StyleComboBox_twice.
  match goal with
  | |- context [set_StyleComboBox ?cb w2] => set (cb2 := cb)
  end.
  assert (Hitems2 : items cb2 =
                    List.filter (notQtStyle builtinQtStyles)
                      (QStyleFactory_keys (libraryPaths a))).
  { subst cb2. rewrite setCurrentIndex_items.
    change (items cb1 = offeredStyles w2).
    subst cb1. rewrite setCurrentIndex_items. exact Hitems. }
  assert (Hc2 : currentIndex cb2 = ComboBox.findText cb2 "Slicer").
  { subst cb2. rewrite setCurrentIndex_index by apply styleIndex_range.
    rewrite styleIndex_Slicer. symmetry. apply findText_items.
    rewrite setCurrentIndex_items. reflexivity. }
  clearbody cb2. clear cb1 Hrun Hdeaf2.
  eexists. split; [reflexivity|].
  do 5 (split; [reflexivity|]).
  split; [exact Hitems2|].
  split; [exact Hc2|].
  split; [|split; [reflexivity|split; reflexivity]].
  intros Hs.
  change (ComboBox.itemText cb2 (currentIndex cb2) = "Slicer").
  rewrite Hc2. apply findText_In. exact Hs.
Qed.

(** *** The signals after [init] *)

Lemma listens_in_spec (c : Connection) (e : Emission) (w : World) :
  listens c e w = listens_in (Properties (panel w)) c (sender e) (signal e).
Proof. destruct c; reflexivity. Qed.

(** No slot changes the wiring, whatever the bound on nested deliveries. *)
Lemma deliver_wiring (d : nat) (c : Connection) (e : Emission) (w w' : World) :
  deliver_ (emit_ d) c e w = Some w' -> panel_step w w'.
Proof.
  intros Hrun.
  apply (deliver_mono (emit_ d) (emit_ (4 + d))) in Hrun; [|apply emit_le; lia].
  destruct (deliver_any (emit_ (4 + d)) c e w) as (w'' & Hw'' & Hst);
    [apply (emit_leaf (3 + d)) | apply (emit_settled (2 + d))
    | apply (emit_combo (1 + d)) | intros _; apply (emit_dir d) |].
  congruence.
Qed.

Lemma wired_by_evaluation (w : World) : wired_b w = true -> wired w.
Proof.
  unfold wired_b. intros H. apply andb_prop in H as [H1 H2].
  destruct (list_eq_dec _ _) as [Hc|]; [|discriminate].
  destruct (gmap_eq_dec _ _ _) as [Hp|]; [|discriminate].
  split; assumption.
Qed.

Lemma panel_step_wired (w w' : World) : panel_step w w' -> wired w -> wired w'.
Proof. intros (_ & Hp & _ & Hc & _) [Hc0 Hp0]. split; congruence. Qed.

Lemma deliverAll_listeners (d : nat) (e : Emission) (m : gmap string PropertyType)
    (cs : list Connection) :
  forall w : World,
    Properties (panel w) = m ->
    deliverAll_ (emit_ d) cs e w =
    deliverAll_ (emit_ d)
      (List.filter (fun c => listens_in m c (sender e) (signal e)) cs) e w.
Proof.
  induction cs as [|c cs IH]; intros w Hm; [reflexivity|].
  cbn [deliverAll List.filter].
  destruct (listens_in m c (sender e) (signal e)) eqn:Hl.
  - cbn [deliverAll].
    destruct (deliver_ (emit_ d) c e w) as [w1|] eqn:H1; [|reflexivity].
    cbn [mbind option_bind]. apply IH.
    destruct (deliver_wiring d c e w w1 H1) as (_ & Hp & _). congruence.
  - unfold deliver at 1. rewrite listens_in_spec, Hm, Hl.
    cbn [mbind option_bind]. apply IH. exact Hm.
Qed.

(** After [init] a signal is delivered to the listeners of the wiring. *)
Lemma emit_wired (d : nat) (e : Emission) (w : World) :
  wired w ->
  emit_ (S d) e w = deliverAll_ (emit_ d) (listeners (sender e) (signal e)) e w.
Proof.
  intros [Hc Hp]. cbn [emit]. rewrite Hc. apply deliverAll_listeners. exact Hp.
Qed.

Lemma listens_wired (c : Connection) (e : Emission) (w : World) :
  wired w -> listens c e w = listens_in (registerAll ∅) c (sender e) (signal e).
Proof. intros [_ Hp]. rewrite listens_in_spec, Hp. reflexivity. Qed.

Lemma deliver_updateSetting (em : Emission -> World -> option World) (key : string)
    (e : Emission) (w : World) :
  listens (Conn_updateSetting key) e w = true ->
  deliver_ em (Conn_updateSetting key) e w = Some (updateSetting key w).
Proof. intros Hl. unfold deliver. rewrite Hl. destruct (arg e); reflexivity. Qed.

Lemma updateSetting_wired (key : string) (w : World) : wired w -> wired (updateSetting key w).
Proof.
  intros Hw. apply (panel_step_wired w); [|exact Hw].
  apply settings_only_panel_step, updateSetting_settings_only.
Qed.

(** [updateSetting] for a property registered with a settings object of
    its own. *)
Lemma updateSetting_own (key : string) (p : PropertyType) (s : SettingsStore)
    (w : World) :
  Properties (panel w) !! key = Some p -> prop_settings p = Some s ->
  updateSetting key w =
  set_store s (<[key := propertyValue (prop_object p) (prop_property p) w]> (store s w)) w.
Proof. intros Hp Hs. unfold updateSetting. rewrite Hp, Hs. reflexivity. Qed.

(** [updateSetting] for a property that uses the settings of the panel. *)
Lemma updateSetting_panel (key : string) (p : PropertyType) (w : World) :
  Properties (panel w) !! key = Some p -> prop_settings p = None ->
  updateSetting key w =
  match Settings (panel w) with
  | Some s =>
      set_store s
        (<[key := propertyValue (prop_object p) (prop_property p) w]> (store s w)) w
  | None => w
  end.
Proof. intros Hp Hs. unfold updateSetting. rewrite Hp, Hs. reflexivity. Qed.

Lemma emit_wired_currentStyleChanged (d : nat) (a : Arg) (w : World) :
  wired w ->
  emit_ (S d) (sig_currentStyleChanged a) w =
  Some (set_store RevisionUserSettings
          (<["Styles/Style" := VString (currentStyle w)]> (revisionUserSettings w)) w).
Proof.
  intros Hw. rewrite (emit_wired d _ w Hw).
  assert (listeners obj_q SIGNAL_currentStyleChanged = [Conn_updateSetting "Styles/Style"])
    as Hl by (vm_compute; reflexivity).
  cbn [sender signal sig_currentStyleChanged]. rewrite Hl. cbn [deliverAll].
  rewrite deliver_updateSetting
    by (rewrite (listens_wired _ _ w Hw); vm_compute; reflexivity).
  cbn [mbind option_bind]. f_equal.
  destruct Hw as [_ Hp].
  apply (updateSetting_own "Styles/Style"
           (mkProperty obj_q "currentStyle" SIGNAL_currentStyleChanged "Current style"
              OptionNone (Some RevisionUserSettings)) RevisionUserSettings w);
    [rewrite Hp; vm_compute; reflexivity | reflexivity].
Qed.

Lemma deliver_onStyleChanged (em : Emission -> World -> option World) (s : string)
    (w : World) :
  deliver_ em Conn_onStyleChanged (sig_currentIndexChanged (StringArg s)) w =
  onStyleChanged_ em s w.
Proof. reflexivity. Qed.

Lemma emit_wired_currentIndexChanged (d : nat) (s : string) (w : World) :
  wired w ->
  emit_ (S d) (sig_currentIndexChanged (StringArg s)) w = onStyleChanged_ (emit_ d) s w.
Proof.
  intros Hw. rewrite (emit_wired d _ w Hw).
  assert (listeners obj_StyleComboBox SIGNAL_currentIndexChanged = [Conn_onStyleChanged])
    as Hl by (vm_compute; reflexivity).
  cbn [sender signal sig_currentIndexChanged]. rewrite Hl. cbn [deliverAll].
  fold (sig_currentIndexChanged (StringArg s)). rewrite deliver_onStyleChanged.
  destruct (onStyleChanged_ (emit_ d) s w); reflexivity.
Qed.

(** [onStyleChanged] after [init], for a style the factory creates. *)
Lemma onStyleChanged_wired_found (d : nat) (name : string) (st : QStyle) (w : World) :
  wired w ->
  QStyleFactory_create (libraryPaths (application w)) name = Some st ->
  onStyleChanged_ (emit_ (S d)) name w =
  Some (set_store RevisionUserSettings
          (<["Styles/Style" := VString (currentStyle w)]> (revisionUserSettings w))
          (log_currentStyleChanged name (applied st w))).
Proof.
  intros Hw Hc. unfold onStyleChanged. cbv zeta.
  change (libraryPaths (application (removeEventFilter (style (application w)) w)))
    with (libraryPaths (application w)).
  rewrite Hc.
  apply (emit_wired_currentStyleChanged d (StringArg name)
           (log_currentStyleChanged name (applied st w))).
  exact Hw.
Qed.

(** X8: after [init], [onStyleChanged] with a name the factory creates a
    style for applies that style and announces it once, and what the
    revision user settings then hold under ["Styles/Style"] is the current
    style of the combo box, which the slot does not change: it is the style
    applied when the call comes from the combo box, and another one when the
    slot is called with a name that is not current.  The user settings and the
    other keys are not written. *)
Theorem onStyleChanged_stores_current_style (d : nat) (w : World) (name : string)
    (st : QStyle) :
  wired w ->
  QStyleFactory_create (libraryPaths (application w)) name = Some st ->
  exists w',
    onStyleChanged_ (emit_ (1 + d)) name w = Some w' /\
    style (application w') = st /\
    currentStyleChanged_log w' = currentStyleChanged_log w ++ [name] /\
    currentStyle w' = currentStyle w /\
    revisionUserSettings w' =
      <["Styles/Style" := VString (currentStyle w)]> (revisionUserSettings w) /\
    userSettings w' = userSettings w.
Proof.
  intros Hw Hc. eexists. split; [apply (onStyleChanged_wired_found d name st w Hw Hc)|].
  repeat split.
Qed.

(** [setCurrentStyle] after [init], with a listed style other than the
    current one that the factory creates. *)
Lemma setCurrentStyle_wired_found (d : nat) (w : World) (name : string)
    (st : QStyle) :
  wired w ->
  In name (items (StyleComboBox (panel w))) ->
  currentStyle w <> name ->
  signalsBlocked (StyleComboBox (panel w)) = false ->
  QStyleFactory_create (libraryPaths (application w)) name = Some st ->
  exists w',
    setCurrentStyle (emit_ (2 + d)) name w = Some w' /\
    currentStyle w' = name /\
    style (application w') = st /\
    palette (application w') = standardPalette st /\
    In st (eventFilters (application w')) /\
    currentStyleChanged_log w' = currentStyleChanged_log w ++ [name] /\
    revisionUserSettings w' =
      <["Styles/Style" := VString name]> (revisionUserSettings w) /\
    userSettings w' = userSettings w /\
    warnings w' = warnings w.
Proof.
  intros Hw Hin Hcur Hb Hc. change (2 + d)%nat with (S (S d)).
  destruct (findText_In _ _ Hin) as [Hrange Htext].
  unfold setCurrentStyle. rewrite (styleIndex_listed name w Hin).
  set (cb := StyleComboBox (panel w)) in *.
  set (i := ComboBox.findText cb name) in *.
  assert (Hi : -1 <= i < ComboBox.count cb) by lia.
  destruct (setCurrentIndex_cases i cb Hi) as [[Heq _] | [_ ->]].
  { exfalso. apply Hcur. rewrite (currentStyle_at w i Heq). exact Htext. }
  unfold comboNotify. cbn [fst snd signalsBlocked]. rewrite Hb, Htext.
  set (w0 := set_StyleComboBox (mkComboBox (items cb) i false) w).
  assert (Hw0 : wired w0) by exact Hw.
  pose proof (emit_wired_currentIndexChanged (S d) name w0 Hw0) as He.
  unfold sig_currentIndexChanged in He. rewrite He.
  rewrite (onStyleChanged_wired_found d name st w0 Hw0 Hc).
  assert (Hcs : currentStyle w0 = name) by exact Htext.
  rewrite Hcs. eexists. split; [reflexivity|].
  split; [exact Hcs|]. split; [reflexivity|]. split; [reflexivity|].
  split; [left; reflexivity|]. repeat split.
Qed.

(** X9: after [init], choosing with [setCurrentStyle] a listed style other
    than the current one, which the factory creates, makes it the current
    style of the combo box, applies it to the application with its standard
    palette, announces it once and stores its name under ["Styles/Style"] in
    the revision user settings; no warning is logged and the user settings
    are not written. *)
Theorem setCurrentStyle_applies_and_stores (d : nat) (w : World) (name : string)
    (st : QStyle) :
  wired w ->
  In name (items (StyleComboBox (panel w))) ->
  currentStyle w <> name ->
  signalsBlocked (StyleComboBox (panel w)) = false ->
  QStyleFactory_create (libraryPaths (application w)) name = Some st ->
  exists w',
    setCurrentStyle (emit_ (2 + d)) name w = Some w' /\
    currentStyle w' = name /\
    style (application w') = st /\
    palette (application w') = standardPalette st /\
    currentStyleChanged_log w' = currentStyleChanged_log w ++ [name] /\
    revisionUserSettings w' =
      <["Styles/Style" := VString name]> (revisionUserSettings w) /\
    userSettings w' = userSettings w /\
    warnings w' = warnings w.
Proof.
  intros Hw Hin Hcur Hb Hc.
  destruct (setCurrentStyle_wired_found d w name st Hw Hin Hcur Hb Hc)
    as (w' & H1 & H2 & H3 & H4 & _ & H5 & H6 & H7 & H8).
  exists w'. auto 10.
Qed.

(** *** The additional style paths after [init] *)

Lemma deliver_onAdditionalStylePathsChanged (em : Emission -> World -> option World)
    (w : World) :
  deliver_ em Conn_onAdditionalStylePathsChanged (sig_directoryListChanged NoArg) w =
  onAdditionalStylePathsChanged_ em w.
Proof. reflexivity. Qed.

(** After [init], [directoryListChanged] runs the handler of the panel and
    then stores the directory list. *)
Lemma emit_wired_directoryListChanged (d : nat) (w : World) :
  wired w ->
  exists w1,
    onAdditionalStylePathsChanged_ (emit_ (3 + d)) w = Some w1 /\
    emit_ (4 + d) (sig_directoryListChanged NoArg) w =
      Some (set_store RevisionUserSettings
              (<["Styles/AdditionalPaths" :=
                   VStringList (directories (AdditionalStylePathsView (panel w)))]>
                 (revisionUserSettings w1)) w1).
Proof.
  intros Hw.
  destruct (onAdditionalStylePathsChanged_spec (emit_ (3 + d)) w (emit_combo d))
    as (w1 & Hw1 & _ & _ & _ & Hrest & _).
  destruct (onAdditionalStylePathsChanged_step (emit_ (3 + d)) w (emit_combo d))
    as (w1' & Hw1' & Hstep).
  assert (w1' = w1) by congruence. subst w1'.
  pose proof (panel_step_wired w w1 Hstep Hw) as Hwired1.
  exists w1. split; [exact Hw1|].
  change (4 + d)%nat with (S (3 + d)).
  rewrite (emit_wired (3 + d) _ w Hw).
  assert (listeners obj_AdditionalStylePathsView SIGNAL_directoryListChanged =
          [Conn_onAdditionalStylePathsChanged; Conn_updateSetting "Styles/AdditionalPaths"])
    as Hl by (vm_compute; reflexivity).
  cbn [sender signal sig_directoryListChanged]. rewrite Hl. cbn [deliverAll].
  fold (sig_directoryListChanged NoArg).
  rewrite deliver_onAdditionalStylePathsChanged, Hw1, bind_Some.
  rewrite deliver_updateSetting
    by (rewrite (listens_wired _ _ w1 Hwired1); vm_compute; reflexivity).
  rewrite bind_Some. f_equal.
  destruct Hwired1 as [_ Hp].
  rewrite (updateSetting_own "Styles/AdditionalPaths"
             (mkProperty obj_AdditionalStylePathsView "directoryList"
                SIGNAL_directoryListChanged "Additional style paths"
                OptionRequireRestart (Some RevisionUserSettings))
             RevisionUserSettings w1);
    [|rewrite Hp; vm_compute; reflexivity | reflexivity].
  unfold paths_rest in Hrest.
  assert (Hview : AdditionalStylePathsView (panel w1) = AdditionalStylePathsView (panel w))
    by congruence.
  cbn [prop_object prop_property propertyValue store]. rewrite Hview. reflexivity.
Qed.

Lemma directoryListChanged_wired (d : nat) (w : World) :
  wired w ->
  exists w',
    emit_ (4 + d) (sig_directoryListChanged NoArg) w = Some w' /\
    AdditionalPaths (panel w') = directories (AdditionalStylePathsView (panel w)) /\
    AdditionalStylePathsView (panel w') = AdditionalStylePathsView (panel w) /\
    (forall p, In p (directories (AdditionalStylePathsView (panel w))) -> p <> "" ->
               In p (libraryPaths (application w'))) /\
    revisionUserSettings w' !! "Styles/AdditionalPaths" =
      Some (VStringList (directories (AdditionalStylePathsView (panel w)))) /\
    items (StyleComboBox (panel w')) = offeredStyles w' /\
    wired w' /\
    (forall p, In p (AdditionalPaths (panel w)) ->
               ~ In p (directories (AdditionalStylePathsView (panel w))) -> p <> "" ->
               ~ In p (libraryPaths (application w'))).
Proof.
  intros Hw.
  destruct (emit_wired_directoryListChanged d w Hw) as (w1 & Hw1 & Hrun).
  destruct (onAdditionalStylePathsChanged_spec (emit_ (3 + d)) w (emit_combo d))
    as (w1' & Hw1' & Hlibs & Hpaths & Hitems & Hrest & _).
  assert (w1' = w1) by congruence. subst w1'.
  destruct (onAdditionalStylePathsChanged_step (emit_ (3 + d)) w (emit_combo d))
    as (w1' & Hw1'' & Hstep).
  assert (w1' = w1) by congruence. subst w1'.
  eexists. split; [exact Hrun|].
  unfold paths_rest in Hrest.
  split; [exact Hpaths|]. split; [cbn; congruence|].
  split; [|split; [|split]].
  - intros p Hin Hne.
    change (In p (libraryPaths (application w1))).
    rewrite Hlibs. apply addPaths_In. right. split; [exact Hin | exact Hne].
  - apply lookup_insert_eq.
  - unfold offeredStyles. cbn. rewrite Hitems.
    assert (QtStyles (panel w1) = QtStyles (panel w)) as -> by congruence.
    reflexivity.
  - split; [exact (panel_step_wired w w1 Hstep Hw)|].
    intros p Hold Hnew Hne.
    change (~ In p (libraryPaths (application w1))).
    rewrite Hlibs, addPaths_In, removePaths_In.
    change (directoryList true (AdditionalStylePathsView (panel w)))
      with (directories (AdditionalStylePathsView (panel w))).
    tauto.
Qed.

(** X10: after [init], whenever the directory list view announces a change
    of its list, the panel takes the list as its additional paths, makes
    every (non-empty) directory listed a library path, repopulates the style
    list from what the factory offers under the new library paths, and the
    list is stored under ["Styles/AdditionalPaths"] in the revision user
    settings; the view itself and the wiring are unchanged. *)
Theorem directoryListChanged_syncs_and_stores (d : nat) (w : World) :
  wired w ->
  exists w',
    emit_ (4 + d) (sig_directoryListChanged NoArg) w = Some w' /\
    AdditionalPaths (panel w') = directories (AdditionalStylePathsView (panel w)) /\
    AdditionalStylePathsView (panel w') = AdditionalStylePathsView (panel w) /\
    (forall p, In p (directories (AdditionalStylePathsView (panel w))) -> p <> "" ->
               In p (libraryPaths (application w'))) /\
    revisionUserSettings w' !! "Styles/AdditionalPaths" =
      Some (VStringList (directories (AdditionalStylePathsView (panel w)))) /\
    items (StyleComboBox (panel w')) = offeredStyles w' /\
    wired w'.
Proof.
  intros Hw.
  destruct (directoryListChanged_wired d w Hw)
    as (w' & H1 & H2 & H3 & H4 & H5 & H6 & H7 & _).
  exists w'. auto 10.
Qed.

(** X11: after [init], when the user accepts a directory in the add-path
    dialog, a directory that is listed already changes nothing at all; any
    other (non-empty) one is appended to the directory list view, becomes
    an additional path and a library path, and the new list is stored under
    ["Styles/AdditionalPaths"]. *)
Theorem onAddStyleAdditionalPathClicked_accepted (d : nat) (w : World) (path : string) :
  wired w ->
  QFileDialog_getExistingDirectory
    (QVariant_toString
       (QSettings_value (revisionUserSettings w) "Extensions/InstallPath")) = path ->
  path <> "" ->
  (In path (directories (AdditionalStylePathsView (panel w))) ->
   forall em, onAddStyleAdditionalPathClicked_ em w = Some w) /\
  (~ In path (directories (AdditionalStylePathsView (panel w))) ->
   exists w',
     onAddStyleAdditionalPathClicked_ (emit_ (4 + d)) w = Some w' /\
     directories (AdditionalStylePathsView (panel w')) =
       directories (AdditionalStylePathsView (panel w)) ++ [path] /\
     AdditionalPaths (panel w') =
       directories (AdditionalStylePathsView (panel w)) ++ [path] /\
     In path (libraryPaths (application w')) /\
     revisionUserSettings w' !! "Styles/AdditionalPaths" =
       Some (VStringList (directories (AdditionalStylePathsView (panel w)) ++ [path]))).
Proof.
  intros Hw Hdialog Hne.
  assert (Hempty : QString.isEmpty path = false).
  { destruct (QString.isEmpty path) eqn:He; [|reflexivity].
    apply isEmpty_spec in He. contradiction. }
  split.
  - intros Hin em. unfold onAddStyleAdditionalPathClicked. cbv zeta.
    rewrite Hdialog, Hempty. unfold addDirectory. cbv zeta.
    apply contains_spec in Hin. rewrite Hin. reflexivity.
  - intros Hnot. unfold onAddStyleAdditionalPathClicked. cbv zeta.
    rewrite Hdialog, Hempty. unfold addDirectory. cbv zeta.
    destruct (QStringList.contains (directories (AdditionalStylePathsView (panel w))) path)
      eqn:Hc; [apply contains_spec in Hc; contradiction|].
    set (v := AdditionalStylePathsView (panel w)).
    set (w0 := set_AdditionalStylePathsView
                 (mkDirectoryListView (directories v ++ [path]) (selectedDirectories v)) w).
    assert (Hw0 : wired w0) by exact Hw.
    destruct (directoryListChanged_wired d w0 Hw0)
      as (w' & Hrun & Hpaths & Hview & Hlibs & Hstored & _).
    exists w'. split; [exact Hrun|].
    split; [rewrite Hview; reflexivity|]. split; [exact Hpaths|].
    split; [|exact Hstored].
    apply Hlibs; [|exact Hne]. cbn. apply in_or_app. right. left. reflexivity.
Qed.

(** *** The check boxes after [init] *)

Lemma store_set_store (s : SettingsStore) (m : gmap string QVariant) (w : World) :
  store s (set_store s m w) = m.
Proof. destruct s; reflexivity. Qed.

Lemma store_set_store_other (s s' : SettingsStore) (m : gmap string QVariant)
    (w : World) :
  s' <> s -> store s' (set_store s m w) = store s' w.
Proof. destruct s, s'; intros Hne; try reflexivity; contradiction. Qed.

(** X12: after [init], toggling the tool-button-text check box to [b]
    stores [b] under ["MainWindow/ShowToolButtonText"] in the settings of
    the panel whether or not the application has a main window, while the
    tool-button style is set (text under icon for [true], icon only for
    [false]) only when there is one; without a settings object nothing is
    stored.  Nothing else of the application changes. *)
Theorem toggling_tool_button_text (d : nat) (w : World) (b : bool) :
  wired w ->
  ShowToolButtonTextCheckBox (panel w) = negb b ->
  exists w',
    setChecked (emit_ (1 + d)) obj_ShowToolButtonTextCheckBox b w = Some w' /\
    ShowToolButtonTextCheckBox (panel w') = b /\
    mainWindow (application w') =
      match mainWindow (application w) with
      | Some _ => Some (if b then ToolButtonTextUnderIcon else ToolButtonIconOnly)
      | None => None
      end /\
    (forall s, Settings (panel w) = Some s ->
       store s w' = <["MainWindow/ShowToolButtonText" := VBool b]> (store s w) /\
       forall s', s' <> s -> store s' w' = store s' w) /\
    (Settings (panel w) = None ->
     userSettings w' = userSettings w /\
     revisionUserSettings w' = revisionUserSettings w) /\
    style (application w') = style (application w) /\
    palette (application w') = palette (application w) /\
    eventFilters (application w') = eventFilters (application w) /\
    font (application w') = font (application w) /\
    toolTipsEnabled (application w') = toolTipsEnabled (application w) /\
    libraryPaths (application w') = libraryPaths (application w).
Proof.
  intros Hw Hchk. change (1 + d)%nat with (S d).
  unfold setChecked. cbn [checked]. rewrite Hchk.
  replace (Bool.eqb (negb b) b) with false by (destruct b; reflexivity).
  set (w0 := set_checked obj_ShowToolButtonTextCheckBox b w).
  assert (Hw0 : wired w0) by exact Hw.
  rewrite (emit_wired d _ w0 Hw0).
  assert (listeners obj_ShowToolButtonTextCheckBox SIGNAL_toggled =
          [Conn_onShowToolButtonTextToggled;
           Conn_updateSetting "MainWindow/ShowToolButtonText"])
    as Hl by (vm_compute; reflexivity).
  cbn [sender signal]. rewrite Hl. cbn [deliverAll].
  change (deliver_ (emit_ d) Conn_onShowToolButtonTextToggled
            (mkEmission obj_ShowToolButtonTextCheckBox SIGNAL_toggled (BoolArg b)) w0)
    with (Some (onShowToolButtonTextToggled b w0)).
  rewrite bind_Some.
  set (w1 := onShowToolButtonTextToggled b w0).
  assert (Hp1 : panel w1 = panel w0).
  { subst w1. unfold onShowToolButtonTextToggled.
    destruct (mainWindow (application w0)); reflexivity. }
  assert (Hw1 : wired w1) by (unfold wired; rewrite Hp1; exact Hw0).
  rewrite deliver_updateSetting
    by (rewrite (listens_wired _ _ w1 Hw1); vm_compute; reflexivity).
  rewrite bind_Some.
  destruct Hw1 as [_ Hprops].
  rewrite (updateSetting_panel "MainWindow/ShowToolButtonText"
             (mkProperty obj_ShowToolButtonTextCheckBox "checked" SIGNAL_toggled ""
                OptionNone None) w1);
    [|rewrite Hprops; vm_compute; reflexivity | reflexivity].
  assert (Hsettings : Settings (panel w1) = Settings (panel w))
    by (rewrite Hp1; reflexivity).
  assert (Hvalue : propertyValue obj_ShowToolButtonTextCheckBox "checked" w1 = VBool b).
  { unfold propertyValue. cbn [String.eqb Ascii.eqb Bool.eqb checked].
    rewrite Hp1. reflexivity. }
  cbn [prop_object prop_property]. rewrite Hvalue, Hsettings.
  assert (Hstores : userSettings w1 = userSettings w /\
                    revisionUserSettings w1 = revisionUserSettings w).
  { subst w1. unfold onShowToolButtonTextToggled.
    destruct (mainWindow (application w0)); split; reflexivity. }
  assert (Happ : mainWindow (application w1) =
                 match mainWindow (application w) with
                 | Some _ => Some (if b then ToolButtonTextUnderIcon else ToolButtonIconOnly)
                 | None => None
                 end /\
                 style (application w1) = style (application w) /\
                 palette (application w1) = palette (application w) /\
                 eventFilters (application w1) = eventFilters (application w) /\
                 font (application w1) = font (application w) /\
                 toolTipsEnabled (application w1) = toolTipsEnabled (application w) /\
                 libraryPaths (application w1) = libraryPaths (application w)).
  { subst w1. unfold onShowToolButtonTextToggled.
    destruct (mainWindow (application w)) as [t|] eqn:Hm.
    - assert (Hm0 : mainWindow (application w0) = Some t) by exact Hm.
      rewrite Hm0. repeat split.
    - assert (Hm0 : mainWindow (application w0) = None) by exact Hm.
      rewrite Hm0. split; [exact Hm0 | repeat split]. }
  assert (Hbox : ShowToolButtonTextCheckBox (panel w1) = b)
    by (rewrite Hp1; reflexivity).
  clearbody w1. clear w0 Hw0 Hp1 Hprops Hvalue Hsettings.
  destruct Hstores as [Hu Hr].
  destruct (Settings (panel w)) as [s|].
  - eexists. split; [reflexivity|].
    split; [exact Hbox|]. split; [exact (proj1 Happ)|].
    split; [|split; [discriminate | exact (proj2 Happ)]].
    intros s0 [= <-]. split.
    + rewrite store_set_store. destruct s; cbn [store]; congruence.
    + intros s' Hne. rewrite store_set_store_other by exact Hne.
      destruct s'; cbn [store]; congruence.
  - exists w1. split; [reflexivity|].
    split; [exact Hbox|]. split; [exact (proj1 Happ)|].
    split; [discriminate|]. split; [intros _; split; assumption | exact (proj2 Happ)].
Qed.

(** X13: the restore-geometry check box has no slot in the panel: after
    [init], toggling it to [b] stores [b] under ["MainWindow/RestoreGeometry"]
    in the settings of the panel and leaves the application, the warnings and
    the announced styles as they are; without a settings object nothing is
    stored. *)
Theorem toggling_restore_geometry (d : nat) (w : World) (b : bool) :
  wired w ->
  RestoreUICheckBox (panel w) = negb b ->
  exists w',
    setChecked (emit_ (1 + d)) obj_RestoreUICheckBox b w = Some w' /\
    RestoreUICheckBox (panel w') = b /\
    application w' = application w /\
    warnings w' = warnings w /\
    currentStyleChanged_log w' = currentStyleChanged_log w /\
    (forall s, Settings (panel w) = Some s ->
       store s w' = <["MainWindow/RestoreGeometry" := VBool b]> (store s w) /\
       forall s', s' <> s -> store s' w' = store s' w) /\
    (Settings (panel w) = None ->
     userSettings w' = userSettings w /\
     revisionUserSettings w' = revisionUserSettings w).
Proof.
  intros Hw Hchk. change (1 + d)%nat with (S d).
  unfold setChecked. cbn [checked]. rewrite Hchk.
  replace (Bool.eqb (negb b) b) with false by (destruct b; reflexivity).
  set (w0 := set_checked obj_RestoreUICheckBox b w).
  assert (Hw0 : wired w0) by exact Hw.
  rewrite (emit_wired d _ w0 Hw0).
  assert (listeners obj_RestoreUICheckBox SIGNAL_toggled =
          [Conn_updateSetting "MainWindow/RestoreGeometry"])
    as Hl by (vm_compute; reflexivity).
  cbn [sender signal]. rewrite Hl. cbn [deliverAll].
  rewrite deliver_updateSetting
    by (rewrite (listens_wired _ _ w0 Hw0); vm_compute; reflexivity).
  rewrite bind_Some.
  destruct Hw0 as [_ Hprops].
  rewrite (updateSetting_panel "MainWindow/RestoreGeometry"
             (mkProperty obj_RestoreUICheckBox "checked" SIGNAL_toggled ""
                OptionNone None) w0);
    [|rewrite Hprops; vm_compute; reflexivity | reflexivity].
  assert (Hvalue : propertyValue obj_RestoreUICheckBox "checked" w0 = VBool b)
    by reflexivity.
  cbn [prop_object prop_property]. rewrite Hvalue.
  change (Settings (panel w0)) with (Settings (panel w)).
  assert (Hbox : RestoreUICheckBox (panel w0) = b) by reflexivity.
  assert (Happ : application w0 = application w) by reflexivity.
  assert (Hwarn : warnings w0 = warnings w) by reflexivity.
  assert (Hlog : currentStyleChanged_log w0 = currentStyleChanged_log w) by reflexivity.
  assert (Hu : userSettings w0 = userSettings w) by reflexivity.
  assert (Hr : revisionUserSettings w0 = revisionUserSettings w) by reflexivity.
  clearbody w0. clear Hprops Hvalue.
  destruct (Settings (panel w)) as [s|].
  - eexists. split; [reflexivity|].
    split; [exact Hbox|]. split; [exact Happ|]. split; [exact Hwarn|].
    split; [exact Hlog|]. split; [|discriminate].
    intros s0 [= <-]. split.
    + rewrite store_set_store. destruct s; cbn [store]; congruence.
    + intros s' Hne. rewrite store_set_store_other by exact Hne.
      destruct s'; cbn [store]; congruence.
  - exists w0. split; [reflexivity|].
    split; [exact Hbox|]. split; [exact Happ|]. split; [exact Hwarn|].
    split; [exact Hlog|]. split; [discriminate|]. intros _. split; assumption.
Qed.

(** *** The library paths *)

Lemma filter_filter_andb {A : Type} (f g : A -> bool) (l : list A) :
  List.filter f (List.filter g l) = List.filter (fun x => g x && f x) l.
Proof.
  induction l as [|x l IH]; [reflexivity|]. simpl.
  destruct (g x); simpl; [destruct (f x); simpl; congruence | exact IH].
Qed.

Lemma filter_all {A : Type} (f : A -> bool) (l : list A) :
  (forall x, In x l -> f x = true) -> List.filter f l = l.
Proof.
  induction l as [|x l IH]; intros Hall; [reflexivity|]. simpl.
  rewrite (Hall x (or_introl eq_refl)). f_equal. apply IH.
  intros y Hy. apply Hall. right. exact Hy.
Qed.

Lemma filter_none {A : Type} (f : A -> bool) (l : list A) :
  (forall x, In x l -> f x = false) -> List.filter f l = [].
Proof.
  induction l as [|x l IH]; intros Hall; [reflexivity|]. simpl.
  rewrite (Hall x (or_introl eq_refl)). apply IH.
  intros y Hy. apply Hall. right. exact Hy.
Qed.

Lemma filter_length_lt {A : Type} (f : A -> bool) (l : list A) (x : A) :
  In x l -> f x = false -> (length (List.filter f l) < length l)%nat.
Proof.
  induction l as [|y l IH]; intros Hin Hf; [destruct Hin|]. simpl.
  pose proof (List.filter_length_le f l) as Hle.
  destruct Hin as [->|Hin].
  - rewrite Hf. lia.
  - specialize (IH Hin Hf). destruct (f y); simpl; lia.
Qed.

Lemma contains_false (l : list string) (p : string) :
  QStringList.contains l p = false <-> ~ In p l.
Proof.
  rewrite <- contains_spec. destruct (QStringList.contains l p); split; intros H;
    try reflexivity; try discriminate; try (intros ?; discriminate).
  exfalso. apply H. reflexivity.
Qed.

(** The first loop of [onAdditionalStylePathsChanged] is a filter. *)
Lemma removePaths_filter (old : list string) :
  forall libs : list string, removePaths old libs = List.filter (keptPath old) libs.
Proof.
  unfold removePaths.
  induction old as [|p old IH]; intros libs; simpl.
  - symmetry. apply filter_all. intros q _. unfold keptPath. cbn.
    apply orb_true_r.
  - rewrite IH. destruct (QString.isEmpty p) eqn:Hp.
    + apply isEmpty_spec in Hp. subst p. apply List.filter_ext. intros q.
      unfold keptPath, QStringList.contains. cbn [existsb].
      unfold QString.isEmpty. destruct (String.eqb q ""); reflexivity.
    + unfold QStringList.removeAll. rewrite filter_filter_andb.
      apply List.filter_ext. intros q.
      unfold keptPath, QStringList.contains. cbn [existsb].
      destruct (String.eqb_spec q p) as [->|Hne]; cbn.
      * rewrite Hp. reflexivity.
      * reflexivity.
Qed.

(** The second loop puts new paths in front of the list. *)
Lemma addPaths_prefix (new : list string) :
  forall libs : list string,
    exists pre, addPaths new libs = pre ++ libs /\
                Forall (fun q => In q new /\ q <> "") pre.
Proof.
  unfold addPaths.
  induction new as [|p new IH]; intros libs; simpl.
  - exists []. split; [reflexivity | constructor].
  - assert (Hweak : forall pre, Forall (fun q => In q new /\ q <> "") pre ->
                                Forall (fun q => (p = q \/ In q new) /\ q <> "") pre).
    { intros pre Hpre. eapply Forall_impl; [exact Hpre|]. cbn. tauto. }
    destruct (QString.isEmpty p) eqn:Hp.
    + destruct (IH libs) as (pre & Heq & Hpre). exists pre. auto.
    + destruct (QStringList.contains libs p).
      * destruct (IH libs) as (pre & Heq & Hpre). exists pre. auto.
      * destruct (IH (p :: libs)) as (pre & Heq & Hpre).
        exists (pre ++ [p]). split; [rewrite Heq, <- app_assoc; reflexivity|].
        apply Forall_app. split; [auto|].
        constructor; [|constructor]. split; [left; reflexivity|].
        intros ->. discriminate.
Qed.

Lemma addPaths_NoDup (new : list string) :
  forall libs : list string, List.NoDup libs -> List.NoDup (addPaths new libs).
Proof.
  unfold addPaths.
  induction new as [|p new IH]; intros libs Hnd; simpl; [exact Hnd|].
  destruct (QString.isEmpty p); [apply IH; exact Hnd|].
  destruct (QStringList.contains libs p) eqn:Hc; [apply IH; exact Hnd|].
  apply IH. apply List.NoDup_cons; [|exact Hnd].
  apply contains_false in Hc. exact Hc.
Qed.

(** X14: adding directories and removing them again restores the library
    paths.  After [onAdditionalStylePathsChanged] has run for a directory
    list and then again for the emptied list, the library paths are the ones
    of the start, in their order, without the (non-empty) paths that were
    additional paths or in the list; so when no additional path was stored
    and no directory of the list was a library path before, they are exactly
    the library paths of the start. *)
Theorem additional_paths_round_trip (d : nat) (w : World) :
  exists w1,
    onAdditionalStylePathsChanged_ (emit_ (3 + d)) w = Some w1 /\
    exists w2,
      onAdditionalStylePathsChanged_ (emit_ (3 + d))
        (set_AdditionalStylePathsView (mkDirectoryListView [] []) w1) = Some w2 /\
      AdditionalPaths (panel w2) = [] /\
      libraryPaths (application w2) =
        List.filter
          (fun q => keptPath (AdditionalPaths (panel w)) q &&
                    keptPath (directories (AdditionalStylePathsView (panel w))) q)
          (libraryPaths (application w)) /\
      (AdditionalPaths (panel w) = [] ->
       (forall p, In p (directories (AdditionalStylePathsView (panel w))) ->
                  ~ In p (libraryPaths (application w))) ->
       libraryPaths (application w2) = libraryPaths (application w)).
Proof.
  destruct (onAdditionalStylePathsChanged_spec (emit_ (3 + d)) w (emit_combo d))
    as (w1 & Hw1 & Hlibs1 & Hpaths1 & _).
  exists w1. split; [exact Hw1|].
  set (w1' := set_AdditionalStylePathsView (mkDirectoryListView [] []) w1).
  destruct (onAdditionalStylePathsChanged_spec (emit_ (3 + d)) w1' (emit_combo d))
    as (w2 & Hw2 & Hlibs2 & Hpaths2 & _).
  exists w2. split; [exact Hw2|]. split; [exact Hpaths2|].
  set (old := AdditionalPaths (panel w)) in *.
  set (new := directories (AdditionalStylePathsView (panel w))) in *.
  assert (Hfilter : libraryPaths (application w2) =
                    List.filter (fun q => keptPath old q && keptPath new q)
                      (libraryPaths (application w))).
  { rewrite Hlibs2.
    change (directoryList true (AdditionalStylePathsView (panel w1'))) with (@nil string).
    change (AdditionalPaths (panel w1')) with (AdditionalPaths (panel w1)).
    change (libraryPaths (application w1')) with (libraryPaths (application w1)).
    rewrite Hpaths1, Hlibs1.
    change (directoryList true (AdditionalStylePathsView (panel w))) with new.
    change (addPaths [] ?l) with l.
    destruct (addPaths_prefix new (removePaths old (libraryPaths (application w))))
      as (pre & -> & Hpre).
    rewrite !removePaths_filter, List.filter_app, filter_filter_andb.
    rewrite (filter_none (keptPath new) pre); [reflexivity|].
    intros q Hq. rewrite Forall_forall in Hpre.
    destruct (Hpre q (proj2 (list_elem_of_In _ _) Hq)) as [Hin Hne].
    unfold keptPath. apply orb_false_iff. split.
    - destruct (QString.isEmpty q) eqn:He; [|reflexivity].
      apply isEmpty_spec in He. contradiction.
    - apply negb_false_iff, contains_spec. exact Hin. }
  split; [exact Hfilter|].
  intros Hold Hfresh. rewrite Hfilter. apply filter_all.
  intros q Hq. apply andb_true_iff. split.
  - unfold keptPath. rewrite Hold. cbn. apply orb_true_r.
  - unfold keptPath. apply orb_true_iff. right.
    apply negb_true_iff, contains_false. intros Hin. apply (Hfresh q Hin Hq).
Qed.

(** X15: [onAdditionalStylePathsChanged] introduces neither a duplicate nor
    the empty path into the library paths: a list without duplicates stays
    one, and the empty path is a library path afterwards only when it was
    one before. *)
Theorem onAdditionalStylePathsChanged_keeps_paths_clean (d : nat) (w : World) :
  exists w',
    onAdditionalStylePathsChanged_ (emit_ (3 + d)) w = Some w' /\
    (List.NoDup (libraryPaths (application w)) ->
     List.NoDup (libraryPaths (application w'))) /\
    (In "" (libraryPaths (application w')) -> In "" (libraryPaths (application w))).
Proof.
  destruct (onAdditionalStylePathsChanged_spec (emit_ (3 + d)) w (emit_combo d))
    as (w' & Hw' & Hlibs & _).
  exists w'. split; [exact Hw'|]. rewrite Hlibs. split.
  - intros Hnd. apply addPaths_NoDup. rewrite removePaths_filter.
    apply List.NoDup_filter. exact Hnd.
  - rewrite addPaths_In, removePaths_In. intros [[Hin _] | [_ Hne]]; [exact Hin|].
    contradiction.
Qed.

(** X16: after [init], the remove button changes nothing when no listed
    directory is selected; otherwise the selected directories leave the
    directory list view, the selection is cleared, the remaining list
    becomes the additional paths and is stored under
    ["Styles/AdditionalPaths"], and every removed (non-empty) directory that
    was an additional path is no library path any more. *)
Theorem onRemoveStyleAdditionalPathClicked_removes (d : nat) (w : World) :
  wired w ->
  ((forall p, In p (directories (AdditionalStylePathsView (panel w))) ->
              ~ In p (selectedDirectories (AdditionalStylePathsView (panel w)))) ->
   forall em, onRemoveStyleAdditionalPathClicked em w = Some w) /\
  ((exists p, In p (directories (AdditionalStylePathsView (panel w))) /\
              In p (selectedDirectories (AdditionalStylePathsView (panel w)))) ->
   exists w',
     onRemoveStyleAdditionalPathClicked (emit_ (4 + d)) w = Some w' /\
     directories (AdditionalStylePathsView (panel w')) =
       keptDirectories (AdditionalStylePathsView (panel w)) /\
     selectedDirectories (AdditionalStylePathsView (panel w')) = [] /\
     AdditionalPaths (panel w') =
       keptDirectories (AdditionalStylePathsView (panel w)) /\
     (forall p, In p (selectedDirectories (AdditionalStylePathsView (panel w))) ->
                In p (AdditionalPaths (panel w)) -> p <> "" ->
                ~ In p (libraryPaths (application w'))) /\
     revisionUserSettings w' !! "Styles/AdditionalPaths" =
       Some (VStringList (keptDirectories (AdditionalStylePathsView (panel w))))).
Proof.
  intros Hw.
  set (v := AdditionalStylePathsView (panel w)).
  unfold onRemoveStyleAdditionalPathClicked, removeSelectedDirectories. cbv zeta.
  fold v. fold (keptDirectories v).
  split.
  - intros Hnone em.
    assert (Hkept : keptDirectories v = directories v).
    { apply filter_all. intros p Hp. apply negb_true_iff, contains_false.
      apply Hnone. exact Hp. }
    rewrite Hkept, Nat.eqb_refl. reflexivity.
  - intros (p & Hp & Hsel).
    assert (Hlt : (length (keptDirectories v) < length (directories v))%nat).
    { apply (filter_length_lt _ _ p Hp).
      apply negb_false_iff, contains_spec. exact Hsel. }
    destruct (Nat.eqb_spec (length (keptDirectories v)) (length (directories v)));
      [lia|].
    set (w0 := set_AdditionalStylePathsView (mkDirectoryListView (keptDirectories v) []) w).
    assert (Hw0 : wired w0) by exact Hw.
    destruct (directoryListChanged_wired d w0 Hw0)
      as (w' & Hrun & Hpaths & Hview & _ & Hstored & _ & _ & Hremoved).
    exists w'. split; [exact Hrun|].
    split; [rewrite Hview; reflexivity|]. split; [rewrite Hview; reflexivity|].
    split; [exact Hpaths|]. split; [|exact Hstored].
    intros q Hq Hold Hne. apply (Hremoved q Hold); [|exact Hne].
    cbn. unfold keptDirectories. rewrite filter_In. intros [_ Hk].
    apply negb_true_iff, contains_false in Hk. contradiction.
Qed.

(** X17: the wiring made by [init] is permanent: no operation of the panel,
    no signal and no toggling of a check box connects, disconnects,
    registers or unregisters anything. *)
Theorem wiring_is_permanent (d : nat) (w : World) :
  wired w ->
  (forall op, exists w', run (emit_ (4 + d)) op w = Some w' /\ wired w') /\
  (forall e, exists w', emit_ (5 + d) e w = Some w' /\ wired w') /\
  (forall o b, exists w', setChecked (emit_ (5 + d)) o b w = Some w' /\ wired w').
Proof.
  intros Hw. split; [|split].
  - intros op. destruct (run_step d op w) as (w' & Hw' & Hst).
    exists w'. split; [exact Hw' | exact (panel_step_wired w w' Hst Hw)].
  - intros e. destruct (emit_all d e w) as (w' & Hw' & Hst).
    exists w'. split; [exact Hw' | exact (panel_step_wired w w' Hst Hw)].
  - intros o b. destruct (setChecked_step (emit_ (5 + d)) o b w (emit_all d))
      as (w' & Hw' & Hst).
    exists w'. split; [exact Hw' | exact (panel_step_wired w w' Hst Hw)].
Qed.

(** *** The fallback, the font and the buttons after [init] *)

(** X19: after [init], the fallback of [onStyleChanged] really applies the
    Slicer style: invoked with a name the factory creates no style for,
    while ["Slicer"] is listed but not current and the factory creates it,
    the slot logs one warning, for the unknown name, makes ["Slicer"] the
    current style, applies the Slicer style with its palette and event
    filter, announces ["Slicer"] once and stores it under ["Styles/Style"]. *)
Theorem onStyleChanged_fallback_applies_Slicer (d : nat) (w : World) (name : string)
    (st : QStyle) :
  wired w ->
  notFound w name ->
  In "Slicer" (items (StyleComboBox (panel w))) ->
  currentStyle w <> "Slicer" ->
  signalsBlocked (StyleComboBox (panel w)) = false ->
  QStyleFactory_create (libraryPaths (application w)) "Slicer" = Some st ->
  exists w',
    onStyleChanged_ (emit_ (2 + d)) name w = Some w' /\
    currentStyle w' = "Slicer" /\
    style (application w') = st /\
    palette (application w') = standardPalette st /\
    In st (eventFilters (application w')) /\
    warnings w' = warnings w ++ [name] /\
    currentStyleChanged_log w' = currentStyleChanged_log w ++ ["Slicer"] /\
    revisionUserSettings w' =
      <["Styles/Style" := VString "Slicer"]> (revisionUserSettings w) /\
    userSettings w' = userSettings w.
Proof.
  intros Hw Hn Hin Hcur Hb Hc.
  unfold onStyleChanged. cbv zeta.
  change (libraryPaths (application (removeEventFilter (style (application w)) w)))
    with (libraryPaths (application w)).
  unfold notFound in Hn. rewrite Hn.
  fold (warned name w).
  destruct (setCurrentStyle_wired_found d (warned name w) "Slicer" st)
    as (w' & Hrun & Hcs & Hstyle & Hpal & Hfilter & Hlog & Hrev & Huser & Hwarn);
    try assumption.
  exists w'. split; [exact Hrun|]. auto 10.
Qed.

(** X20: after [init], when the font button announces a font, the
    application font becomes that font, and what is stored under ["font"] in
    the settings of the panel is the current font of the button; nothing
    else of the application changes, and without a settings object nothing
    is stored. *)
Theorem currentFontChanged_sets_and_stores (d : nat) (w : World) (f : QFont) :
  wired w ->
  exists w',
    emit_ (1 + d) (mkEmission obj_FontButton SIGNAL_currentFontChanged (FontArg f)) w =
      Some w' /\
    font (application w') = f /\
    panel w' = panel w /\
    style (application w') = style (application w) /\
    palette (application w') = palette (application w) /\
    eventFilters (application w') = eventFilters (application w) /\
    toolTipsEnabled (application w') = toolTipsEnabled (application w) /\
    mainWindow (application w') = mainWindow (application w) /\
    libraryPaths (application w') = libraryPaths (application w) /\
    (forall s, Settings (panel w) = Some s ->
       store s w' = <["font" := VFont (FontButton (panel w))]> (store s w) /\
       forall s', s' <> s -> store s' w' = store s' w) /\
    (Settings (panel w) = None ->
     userSettings w' = userSettings w /\
     revisionUserSettings w' = revisionUserSettings w).
Proof.
  intros Hw. change (1 + d)%nat with (S d).
  rewrite (emit_wired d _ w Hw).
  assert (listeners obj_FontButton SIGNAL_currentFontChanged =
          [Conn_onFontChanged; Conn_updateSetting "font"])
    as Hl by (vm_compute; reflexivity).
  cbn [sender signal]. rewrite Hl. cbn [deliverAll].
  change (deliver_ (emit_ d) Conn_onFontChanged
            (mkEmission obj_FontButton SIGNAL_currentFontChanged (FontArg f)) w)
    with (Some (onFontChanged f w)).
  rewrite bind_Some.
  set (w1 := onFontChanged f w).
  assert (Hw1 : wired w1) by exact Hw.
  rewrite deliver_updateSetting
    by (rewrite (listens_wired _ _ w1 Hw1); vm_compute; reflexivity).
  rewrite bind_Some.
  destruct Hw1 as [_ Hprops].
  rewrite (updateSetting_panel "font"
             (mkProperty obj_FontButton "currentFont" SIGNAL_currentFontChanged ""
                OptionNone None) w1);
    [|rewrite Hprops; vm_compute; reflexivity | reflexivity].
  assert (Hvalue : propertyValue obj_FontButton "currentFont" w1 =
                   VFont (FontButton (panel w))) by reflexivity.
  cbn [prop_object prop_property]. rewrite Hvalue.
  change (Settings (panel w1)) with (Settings (panel w)).
  assert (Hfont : font (application w1) = f) by reflexivity.
  assert (Hpanel : panel w1 = panel w) by reflexivity.
  assert (Happ : style (application w1) = style (application w) /\
                 palette (application w1) = palette (application w) /\
                 eventFilters (application w1) = eventFilters (application w) /\
                 toolTipsEnabled (application w1) = toolTipsEnabled (application w) /\
                 mainWindow (application w1) = mainWindow (application w) /\
                 libraryPaths (application w1) = libraryPaths (application w))
    by (repeat split).
  assert (Hu : userSettings w1 = userSettings w) by reflexivity.
  assert (Hr : revisionUserSettings w1 = revisionUserSettings w) by reflexivity.
  clearbody w1. clear Hprops Hvalue.
  destruct Happ as (Ha1 & Ha2 & Ha3 & Ha4 & Ha5 & Ha6).
  destruct (Settings (panel w)) as [s|].
  - eexists. split; [reflexivity|].
    split; [exact Hfont|]. split; [exact Hpanel|].
    split; [exact Ha1|]. split; [exact Ha2|]. split; [exact Ha3|].
    split; [exact Ha4|]. split; [exact Ha5|]. split; [exact Ha6|].
    split; [|discriminate].
    intros s0 [= <-]. split.
    + rewrite store_set_store. destruct s; cbn [store]; congruence.
    + intros s' Hne. rewrite store_set_store_other by exact Hne.
      destruct s'; cbn [store]; congruence.
  - exists w1. split; [reflexivity|].
    split; [exact Hfont|]. split; [exact Hpanel|].
    split; [exact Ha1|]. split; [exact Ha2|]. split; [exact Ha3|].
    split; [exact Ha4|]. split; [exact Ha5|]. split; [exact Ha6|].
    split; [discriminate|]. intros _. split; assumption.
Qed.

(** X21: after [init], a click on the add button runs
    [onAddStyleAdditionalPathClicked] and nothing else, a click on the
    remove button runs [onRemoveStyleAdditionalPathClicked] and nothing
    else, a change of the current index of the combo box runs
    [onStyleChanged] with the new text and nothing else, and the toggling of
    the more-button reaches no slot at all. *)
Theorem signals_reach_their_slots (d : nat) (w : World) :
  wired w ->
  emit_ (1 + d) (mkEmission obj_AddAdditionalStylePathButton SIGNAL_clicked NoArg) w =
    onAddStyleAdditionalPathClicked_ (emit_ d) w /\
  emit_ (1 + d) (mkEmission obj_RemoveAdditionalStylePathButton SIGNAL_clicked NoArg) w =
    onRemoveStyleAdditionalPathClicked (emit_ d) w /\
  (forall s, emit_ (1 + d)
               (mkEmission obj_StyleComboBox SIGNAL_currentIndexChanged (StringArg s)) w =
             onStyleChanged_ (emit_ d) s w) /\
  (forall b, emit_ (1 + d)
               (mkEmission obj_AdditionalStylePathMoreButton SIGNAL_toggled (BoolArg b)) w =
             Some w).
Proof.
  intros Hw. change (1 + d)%nat with (S d). split; [|split; [|split]].
  - rewrite (emit_wired d _ w Hw).
    assert (listeners obj_AddAdditionalStylePathButton SIGNAL_clicked =
            [Conn_onAddStyleAdditionalPathClicked]) as Hl by (vm_compute; reflexivity).
    cbn [sender signal]. rewrite Hl. cbn [deliverAll].
    change (deliver_ (emit_ d) Conn_onAddStyleAdditionalPathClicked
              (mkEmission obj_AddAdditionalStylePathButton SIGNAL_clicked NoArg) w)
      with (onAddStyleAdditionalPathClicked_ (emit_ d) w).
    destruct (onAddStyleAdditionalPathClicked_ (emit_ d) w); reflexivity.
  - rewrite (emit_wired d _ w Hw).
    assert (listeners obj_RemoveAdditionalStylePathButton SIGNAL_clicked =
            [Conn_onRemoveStyleAdditionalPathClicked]) as Hl by (vm_compute; reflexivity).
    cbn [sender signal]. rewrite Hl. cbn [deliverAll].
    change (deliver_ (emit_ d) Conn_onRemoveStyleAdditionalPathClicked
              (mkEmission obj_RemoveAdditionalStylePathButton SIGNAL_clicked NoArg) w)
      with (onRemoveStyleAdditionalPathClicked (emit_ d) w).
    destruct (onRemoveStyleAdditionalPathClicked (emit_ d) w); reflexivity.
  - intros s. apply (emit_wired_currentIndexChanged d s w Hw).
  - intros b. rewrite (emit_wired d _ w Hw).
    assert (listeners obj_AdditionalStylePathMoreButton SIGNAL_toggled = [])
      as Hl by (vm_compute; reflexivity).
    cbn [sender signal]. rewrite Hl. reflexivity.
Qed.

End Frames.


(** ** Runs of the panel on the example *)

Ltac run_example :=
  repeat match goal with |- _ /\ _ => split end; vm_compute; reflexivity.

(** C1, as stated, fails: with Fusion current, [onStyleChanged("Bogus")] finds
    no style, falls back to Slicer, and this very run emits
    [currentStyleChanged("Slicer")]; and where no Slicer style exists, the
    run ends with no current style at all. *)
Lemma onStyleChanged_fallback_counterexample :
  Example.libs <$> Example.fusion_selected = Some ["/usr/lib/qt"] /\
  Example.create ["/usr/lib/qt"] "Bogus" = None /\
  currentStyleChanged_log <$> Example.fusion_selected = Some ["Fusion"] /\
  currentStyleChanged_log <$> Example.bogus_after_fusion = Some ["Fusion"; "Slicer"] /\
  warnings <$> Example.bogus_after_fusion = Some ["Bogus"] /\
  Example.create_noSlicer ["/usr/lib/qt"] "Bogus" = None /\
  warnings <$> Example.bogus_noSlicer = Some ["Bogus"] /\
  currentStyle <$> Example.bogus_noSlicer = Some "".
Proof. run_example. Qed.

(** C3, as stated, fails: checking the box stores [true] under
    ["no-tooltip"] and disables the tooltips. *)
Lemma tooltip_setting_counterexample :
  (fun w => toolTipsEnabled (application w)) <$> Example.in_dialog = Some true /\
  Example.stored UserSettings "no-tooltip" <$> Example.tooltips_checked =
    Some (Some (VBool true)) /\
  (fun w => toolTipsEnabled (application w)) <$> Example.tooltips_checked = Some false.
Proof. run_example. Qed.

(** C4, as stated, fails: the add-path handler reads the key
    ["Extensions/InstallPath"], which the panel does not register; the
    directory the dialog opens at, and so what the user accepts, depends on
    it. *)
Lemma unregistered_key_counterexample :
  registerAll ∅ !! "Extensions/InstallPath" = None /\
  Example.listed <$> Example.add_clicked Example.started_with_extensions = Some ["/ext"] /\
  Example.listed <$> Example.add_clicked Example.started_without_extensions = Some [].
Proof. run_example. Qed.


(** The two guards of the panel on the example: without a main window the
    tool-button handler changes nothing, where with one it sets the style of
    the tool buttons; a cancelled dialog ends the add-path handler with
    nothing changed, where an accepted one lists the directory.  Neither
    logs a warning. *)
Lemma guarded_branches_example :
  (fun w => mainWindow (application w)) <$> Example.started_noMainWindow = Some None /\
  onShowToolButtonTextToggled true <$> Example.started_noMainWindow =
    Example.started_noMainWindow /\
  (fun w => mainWindow (application (onShowToolButtonTextToggled true w)))
    <$> Example.started = Some (Some ToolButtonTextUnderIcon) /\
  Example.add_cancelled Example.started_with_extensions =
    Example.started_with_extensions /\
  Example.listed <$> Example.add_clicked Example.started_with_extensions = Some ["/ext"] /\
  warnings <$> Example.add_clicked Example.started_with_extensions = Some [].
Proof. run_example. Qed.

(** C8, as stated, fails: a style listed in the combo box whose plugin does
    not load cannot be made current; the panel falls back to Slicer. *)
Lemma setCurrentStyle_counterexample :
  Example.styles <$> Example.started_broken = Some ["Slicer"; "Broken"] /\
  Example.create_broken ["/usr/lib/qt"] "Broken" = None /\
  currentStyle <$> Example.broken_requested = Some "Slicer" /\
  warnings <$> Example.broken_requested = Some ["Broken"].
Proof. run_example. Qed.

(** The hypothesis of C10 holds for the panel as constructed: the combo box
    of the example lists Fusion and Slicer, and not the built-in Windows. *)
Lemma populateStyles_witness :
  QtStyles (panel Example.world0) = builtinQtStyles /\
  exists w',
    populateStyles Example.keys (Example.emit_with Example.dialog_cancel 3) Example.world0
      = Some w' /\
    Example.styles w' = ["Fusion"; "Slicer"].
Proof.
  split; [reflexivity|].
  destruct (populateStyles_lists_non_Qt_keys Example.palette_of Example.keys
              Example.create Example.dialog_cancel 0 Example.world0 eq_refl)
    as (w' & Hrun & _ & Hitems & _).
  exists w'. split; [exact Hrun|].
  unfold Example.styles. rewrite Hitems. vm_compute. reflexivity.
Defined.

(** C9 on the example: the dialog is cancelled. *)
Lemma onAddStyleAdditionalPathClicked_witness :
  Example.dialog_cancel
    (QVariant_toString
       (QSettings_value (revisionUserSettings Example.dialog_world)
          "Extensions/InstallPath")) = "" /\
  onAddStyleAdditionalPathClicked Example.dialog_cancel
    (Example.emit_with Example.dialog_cancel 0) Example.dialog_world =
  Some Example.dialog_world.
Proof.
  split; [reflexivity|].
  apply (onAddStyleAdditionalPathClicked_cancelled Example.dialog_cancel
           (Example.emit_with Example.dialog_cancel 0) Example.dialog_world).
  reflexivity.
Defined.

(** C3, amended, on the example: checking the tooltips box in the settings
    dialog. *)
Lemma toggling_tooltips_witness :
  exists w',
    setChecked (Example.emit_with Example.dialog_cancel 1) obj_ShowToolTipsCheckBox true
      Example.dialog_world = Some w' /\
    Example.stored UserSettings "no-tooltip" w' = Some (VBool true) /\
    toolTipsEnabled (application w') = false.
Proof.
  destruct (toggling_tooltips_check_box Example.palette_of Example.keys
              Example.create Example.dialog_cancel 0 Example.dialog_world true
              UserSettings)
    as (w' & Hrun & _ & Hstored & Henabled & _).
  - vm_compute. auto 20.
  - vm_compute. auto 20.
  - vm_compute. reflexivity.
  - vm_compute. reflexivity.
  - vm_compute. reflexivity.
  - exists w'. split; [exact Hrun|]. split; [exact Hstored | exact Henabled].
Defined.

(** C1, amended, on the example: an unknown name while the first style of
    the list is current. *)
Lemma onStyleChanged_witness :
  notFound Example.create Example.fusion_world "Bogus" /\
  In "Slicer" (items (StyleComboBox (panel Example.fusion_world))) /\
  exists w',
    onStyleChanged Example.palette_of Example.create
      (Example.emit_with Example.dialog_cancel 2) "Bogus" Example.fusion_world = Some w' /\
    currentStyle w' = "Slicer".
Proof.
  assert (Hnot : notFound Example.create Example.fusion_world "Bogus")
    by (vm_compute; reflexivity).
  assert (Hin : In "Slicer" (items (StyleComboBox (panel Example.fusion_world))))
    by (vm_compute; auto).
  split; [exact Hnot|]. split; [exact Hin|].
  destruct (onStyleChanged_fallback_or_apply Example.palette_of Example.keys
              Example.create Example.dialog_cancel 0 Example.fusion_world "Bogus")
    as [Hfallback _].
  destruct (Hfallback Hnot) as (w' & Hrun & _ & _ & Hcurrent & _).
  exists w'. split; [exact Hrun | exact (Hcurrent Hin)].
Defined.


(** C8, amended, on the example: a listed style the factory creates. *)
Lemma setCurrentStyle_witness :
  In "Fusion" (items (StyleComboBox (panel Example.dialog_world))) /\
  found Example.create Example.dialog_world "Fusion" /\
  exists w',
    setCurrentStyle (Example.emit_with Example.dialog_cancel 2) "Fusion"
      Example.dialog_world = Some w' /\
    currentStyle w' = "Fusion".
Proof.
  assert (Hin : In "Fusion" (items (StyleComboBox (panel Example.dialog_world))))
    by (vm_compute; auto).
  assert (Hf : found Example.create Example.dialog_world "Fusion")
    by (vm_compute; discriminate).
  split; [exact Hin|]. split; [exact Hf|].
  destruct (setCurrentStyle_then_currentStyle Example.palette_of Example.keys
              Example.create Example.dialog_cancel 0 Example.dialog_world "Fusion")
    as [Hlisted _].
  exact (Hlisted Hin (or_introl Hf)).
Defined.

(** ** The further properties on the example *)

(** X1 on the example: a name that is not listed gets the index of Slicer. *)
Lemma styleIndex_fallback_witness :
  ~ In "Bogus" (items (StyleComboBox (panel Example.dialog_world))) /\
  In "Slicer" (items (StyleComboBox (panel Example.dialog_world))) /\
  ComboBox.itemText (StyleComboBox (panel Example.dialog_world))
    (styleIndex "Bogus" Example.dialog_world) = "Slicer".
Proof.
  assert (Hnot : ~ In "Bogus" (items (StyleComboBox (panel Example.dialog_world))))
    by (vm_compute; intuition discriminate).
  assert (Hin : In "Slicer" (items (StyleComboBox (panel Example.dialog_world))))
    by (vm_compute; auto).
  split; [exact Hnot|]. split; [exact Hin|].
  destruct (styleIndex_fallback Example.keys Example.create Example.dialog_cancel
              "Bogus" Example.dialog_world) as (_ & _ & Hunlisted & _).
  destruct (Hunlisted Hnot) as [_ Hslicer]. exact (Hslicer Hin).
Defined.

(** X2 on the example: Fusion is set twice. *)
Lemma setCurrentStyle_idempotent_witness :
  found Example.create Example.dialog_world "Fusion" /\
  exists w',
    setCurrentStyle (Example.emit_with Example.dialog_cancel 2) "Fusion"
      Example.dialog_world = Some w' /\
    setCurrentStyle (Example.emit_with Example.dialog_cancel 2) "Fusion" w' = Some w'.
Proof.
  assert (Hf : found Example.create Example.dialog_world "Fusion")
    by (vm_compute; discriminate).
  split; [exact Hf|].
  destruct (setCurrentStyle_idempotent Example.palette_of Example.keys Example.create
              Example.dialog_cancel 0 Example.dialog_world "Fusion") as (_ & _ & Htwice).
  destruct (Htwice (or_introl Hf)) as (w' & Hrun & Hagain).
  exists w'. split; [exact Hrun | apply Hagain].
Defined.

(** X3 on the example: Slicer is current and installed as event filter when
    [onStyleChanged] is invoked with an unknown name. *)
Lemma onStyleChanged_unknown_witness :
  notFound Example.create Example.slicer_world "Bogus" /\
  settled Example.slicer_world /\
  In (style (application Example.slicer_world))
    (eventFilters (application Example.slicer_world)) /\
  exists w',
    onStyleChanged Example.palette_of Example.create
      (Example.emit_with Example.dialog_cancel 0) "Bogus" Example.slicer_world = Some w' /\
    style (application w') = style (application Example.slicer_world) /\
    ~ In (style (application w')) (eventFilters (application w')).
Proof.
  assert (Hn : notFound Example.create Example.slicer_world "Bogus")
    by (vm_compute; reflexivity).
  assert (Hs : settled Example.slicer_world) by (vm_compute; reflexivity).
  split; [exact Hn|]. split; [exact Hs|]. split; [vm_compute; auto|].
  destruct (onStyleChanged_unknown_drops_event_filter Example.palette_of Example.keys
              Example.create Example.dialog_cancel
              (Example.emit_with Example.dialog_cancel 0) Example.slicer_world "Bogus"
              Hn Hs)
    as (w' & Hrun & Hstyle & _ & Hnot & _).
  exists w'. split; [exact Hrun|]. split; [exact Hstyle | exact Hnot].
Defined.

(** X4 on the example: Fusion is chosen while Slicer is applied. *)
Lemma onStyleChanged_installs_witness :
  Example.create (libraryPaths (application Example.slicer_world)) "Fusion" =
    Some "fusion" /\
  style (application Example.slicer_world) <> "fusion" /\
  exists w',
    onStyleChanged Example.palette_of Example.create
      (Example.emit_with Example.dialog_cancel 1) "Fusion" Example.slicer_world = Some w' /\
    (exists rest, eventFilters (application w') = "fusion" :: rest /\ ~ In "fusion" rest) /\
    ~ In (style (application Example.slicer_world)) (eventFilters (application w')).
Proof.
  assert (Hc : Example.create (libraryPaths (application Example.slicer_world)) "Fusion" =
               Some "fusion") by (vm_compute; reflexivity).
  assert (Hne : style (application Example.slicer_world) <> "fusion")
    by (vm_compute; discriminate).
  split; [exact Hc|]. split; [exact Hne|].
  destruct (onStyleChanged_installs_event_filter Example.palette_of Example.keys
              Example.create Example.dialog_cancel 0 Example.slicer_world "Fusion"
              "fusion" Hc)
    as (w' & Hrun & Hhead & _ & Hold & _).
  exists w'. split; [exact Hrun|]. split; [exact Hhead | exact (Hold Hne)].
Defined.

(** X5 on the example: the style list is refilled while Fusion is current. *)
Lemma populateStyles_keeps_witness :
  In (currentStyle Example.fusion_world) (offeredStyles Example.keys Example.fusion_world) /\
  found Example.create Example.fusion_world (currentStyle Example.fusion_world) /\
  exists w',
    populateStyles Example.keys (Example.emit_with Example.dialog_cancel 3)
      Example.fusion_world = Some w' /\
    currentStyle w' = currentStyle Example.fusion_world.
Proof.
  assert (Hin : In (currentStyle Example.fusion_world)
                  (offeredStyles Example.keys Example.fusion_world))
    by (vm_compute; auto).
  assert (Hf : found Example.create Example.fusion_world (currentStyle Example.fusion_world))
    by (vm_compute; discriminate).
  split; [exact Hin|]. split; [exact Hf|].
  destruct (populateStyles_keeps_current_style Example.palette_of Example.keys
              Example.create Example.dialog_cancel 0 Example.fusion_world) as [Hkeep _].
  destruct (Hkeep Hin (or_introl Hf)) as (w' & Hrun & Hcur & _).
  exists w'. split; [exact Hrun | exact Hcur].
Defined.

(** X6 on the example: the signals of the combo box are blocked. *)
Lemma populateStyles_blocked_witness :
  signalsBlocked (StyleComboBox (panel Example.blocked_world)) = true /\
  exists cb,
    populateStyles Example.keys (Example.emit_with Example.dialog_cancel 0)
      Example.blocked_world = Some (set_StyleComboBox cb Example.blocked_world) /\
    signalsBlocked cb = true.
Proof.
  assert (Hb : signalsBlocked (StyleComboBox (panel Example.blocked_world)) = true)
    by (vm_compute; reflexivity).
  split; [exact Hb|].
  destruct (populateStyles_blocked Example.keys Example.create Example.dialog_cancel
              (Example.emit_with Example.dialog_cancel 0) Example.blocked_world Hb)
    as (cb & Hrun & _ & Hblocked & _).
  exists cb. split; [exact Hrun | exact Hblocked].
Defined.

(** X7 on the example: the panel is constructed with empty settings. *)
Lemma init_applies_no_style_witness :
  (∅ : gmap string (@QVariant string)) !! "Styles/AdditionalPaths" = None /\
  (∅ : gmap string (@QVariant string)) !! "Styles/Style" = None /\
  exists w',
    init Example.keys (Example.emit_with Example.dialog_cancel 1) Example.world0 =
      Some w' /\
    application w' = Example.app0 /\
    warnings w' = [] /\
    currentStyleChanged_log w' = [].
Proof.
  assert (H1 : (∅ : gmap string (@QVariant string)) !! "Styles/AdditionalPaths" = None)
    by apply lookup_empty.
  assert (H2 : (∅ : gmap string (@QVariant string)) !! "Styles/Style" = None)
    by apply lookup_empty.
  split; [exact H1|]. split; [exact H2|].
  destruct (init_applies_no_style Example.palette_of Example.keys Example.create
              Example.dialog_cancel 0 Example.ui Example.app0 ∅ ∅ H1 H2)
    as (w' & Hrun & Happ & _ & _ & Hwarn & Hlog & _).
  exists w'. split; [exact Hrun|]. split; [exact Happ|].
  split; [exact Hwarn | exact Hlog].
Defined.

(** X8 on the example: [onStyleChanged("Fusion")] is called while the combo
    box shows Slicer; Fusion is applied and Slicer is stored. *)
Lemma onStyleChanged_stores_witness :
  wired Example.dialog_world /\
  Example.create (libraryPaths (application Example.dialog_world)) "Fusion" =
    Some "fusion" /\
  currentStyle Example.dialog_world = "Slicer" /\
  exists w',
    onStyleChanged Example.palette_of Example.create
      (Example.emit_with Example.dialog_cancel 1) "Fusion" Example.dialog_world = Some w' /\
    style (application w') = "fusion" /\
    revisionUserSettings w' =
      <["Styles/Style" := VString (currentStyle Example.dialog_world)]>
        (revisionUserSettings Example.dialog_world).
Proof.
  assert (Hw : wired Example.dialog_world)
    by (apply wired_by_evaluation; vm_compute; reflexivity).
  assert (Hc : Example.create (libraryPaths (application Example.dialog_world)) "Fusion" =
               Some "fusion") by (vm_compute; reflexivity).
  split; [exact Hw|]. split; [exact Hc|]. split; [vm_compute; reflexivity|].
  destruct (onStyleChanged_stores_current_style Example.palette_of Example.keys
              Example.create Example.dialog_cancel 0 Example.dialog_world "Fusion"
              "fusion" Hw Hc)
    as (w' & Hrun & Hstyle & _ & _ & Hrev & _).
  exists w'. split; [exact Hrun|]. split; [exact Hstyle | exact Hrev].
Defined.

(** X9 on the example: the user chooses Fusion in the settings dialog. *)
Lemma setCurrentStyle_applies_witness :
  wired Example.dialog_world /\
  exists w',
    setCurrentStyle (Example.emit_with Example.dialog_cancel 2) "Fusion"
      Example.dialog_world = Some w' /\
    currentStyle w' = "Fusion" /\
    style (application w') = "fusion" /\
    revisionUserSettings w' =
      <["Styles/Style" := VString "Fusion"]> (revisionUserSettings Example.dialog_world).
Proof.
  assert (Hw : wired Example.dialog_world)
    by (apply wired_by_evaluation; vm_compute; reflexivity).
  assert (Hin : In "Fusion" (items (StyleComboBox (panel Example.dialog_world))))
    by (vm_compute; auto).
  assert (Hcur : currentStyle Example.dialog_world <> "Fusion")
    by (vm_compute; discriminate).
  assert (Hb : signalsBlocked (StyleComboBox (panel Example.dialog_world)) = false)
    by (vm_compute; reflexivity).
  assert (Hc : Example.create (libraryPaths (application Example.dialog_world)) "Fusion" =
               Some "fusion") by (vm_compute; reflexivity).
  split; [exact Hw|].
  destruct (setCurrentStyle_applies_and_stores Example.palette_of Example.keys
              Example.create Example.dialog_cancel 0 Example.dialog_world "Fusion"
              "fusion" Hw Hin Hcur Hb Hc)
    as (w' & Hrun & Hcurrent & Hstyle & _ & _ & Hrev & _).
  exists w'. split; [exact Hrun|]. split; [exact Hcurrent|].
  split; [exact Hstyle | exact Hrev].
Defined.

(** X10 on the example: the view lists ["/a"]. *)
Lemma directoryListChanged_witness :
  wired Example.a_listed_world /\
  exists w',
    Example.emit_with Example.dialog_cancel 4
      (mkEmission obj_AdditionalStylePathsView SIGNAL_directoryListChanged NoArg)
      Example.a_listed_world = Some w' /\
    AdditionalPaths (panel w') =
      directories (AdditionalStylePathsView (panel Example.a_listed_world)) /\
    In "/a" (libraryPaths (application w')) /\
    revisionUserSettings w' !! "Styles/AdditionalPaths" =
      Some (VStringList
              (directories (AdditionalStylePathsView (panel Example.a_listed_world)))).
Proof.
  assert (Hw : wired Example.a_listed_world)
    by (apply wired_by_evaluation; vm_compute; reflexivity).
  assert (Hin : In "/a" (directories (AdditionalStylePathsView (panel Example.a_listed_world))))
    by (vm_compute; auto).
  split; [exact Hw|].
  destruct (directoryListChanged_syncs_and_stores Example.palette_of Example.keys
              Example.create Example.dialog_cancel 0 Example.a_listed_world Hw)
    as (w' & Hrun & Hpaths & _ & Hlibs & Hstored & _).
  exists w'. split; [exact Hrun|]. split; [exact Hpaths|].
  split; [|exact Hstored].
  apply (Hlibs "/a" Hin). discriminate.
Defined.

(** X11 on the example: the user picks ["/a"] in the dialog. *)
Lemma onAddStyleAdditionalPathClicked_accepted_witness :
  wired Example.dialog_world /\
  ~ In "/a" (directories (AdditionalStylePathsView (panel Example.dialog_world))) /\
  exists w',
    onAddStyleAdditionalPathClicked (Example.dialog_pick "/a")
      (Example.emit_with (Example.dialog_pick "/a") 4) Example.dialog_world = Some w' /\
    directories (AdditionalStylePathsView (panel w')) =
      directories (AdditionalStylePathsView (panel Example.dialog_world)) ++ ["/a"] /\
    In "/a" (libraryPaths (application w')).
Proof.
  assert (Hw : wired Example.dialog_world)
    by (apply wired_by_evaluation; vm_compute; reflexivity).
  assert (Hnot : ~ In "/a" (directories (AdditionalStylePathsView
                                           (panel Example.dialog_world))))
    by (vm_compute; tauto).
  assert (Hne : "/a" <> "") by discriminate.
  split; [exact Hw|]. split; [exact Hnot|].
  destruct (onAddStyleAdditionalPathClicked_accepted Example.palette_of Example.keys
              Example.create (Example.dialog_pick "/a") 0 Example.dialog_world "/a" Hw
              eq_refl Hne)
    as [_ Hnew].
  destruct (Hnew Hnot) as (w' & Hrun & Hdirs & _ & Hlib & _).
  exists w'. split; [exact Hrun|]. split; [exact Hdirs | exact Hlib].
Defined.

(** X12 on the example: the tool-button-text box is checked in the
    settings dialog. *)
Lemma toggling_tool_button_text_witness :
  wired Example.dialog_world /\
  ShowToolButtonTextCheckBox (panel Example.dialog_world) = negb true /\
  exists w',
    setChecked (Example.emit_with Example.dialog_cancel 1)
      obj_ShowToolButtonTextCheckBox true Example.dialog_world = Some w' /\
    mainWindow (application w') = Some ToolButtonTextUnderIcon /\
    store UserSettings w' =
      <["MainWindow/ShowToolButtonText" := VBool true]>
        (store UserSettings Example.dialog_world).
Proof.
  assert (Hw : wired Example.dialog_world)
    by (apply wired_by_evaluation; vm_compute; reflexivity).
  assert (Hb : ShowToolButtonTextCheckBox (panel Example.dialog_world) = negb true)
    by (vm_compute; reflexivity).
  assert (Hs : Settings (panel Example.dialog_world) = Some UserSettings)
    by (vm_compute; reflexivity).
  assert (Hm : mainWindow (application Example.dialog_world) = Some ToolButtonIconOnly)
    by (vm_compute; reflexivity).
  split; [exact Hw|]. split; [exact Hb|].
  destruct (toggling_tool_button_text Example.palette_of Example.keys Example.create
              Example.dialog_cancel 0 Example.dialog_world true Hw Hb)
    as (w' & Hrun & _ & Hmain & Hstore & _).
  destruct (Hstore UserSettings Hs) as [Hstored _].
  rewrite Hm in Hmain.
  exists w'. split; [exact Hrun|]. split; [exact Hmain | exact Hstored].
Defined.

(** X13 on the example: the restore-geometry box is unchecked in the
    settings dialog. *)
Lemma toggling_restore_geometry_witness :
  wired Example.dialog_world /\
  RestoreUICheckBox (panel Example.dialog_world) = negb false /\
  exists w',
    setChecked (Example.emit_with Example.dialog_cancel 1)
      obj_RestoreUICheckBox false Example.dialog_world = Some w' /\
    application w' = application Example.dialog_world /\
    store UserSettings w' =
      <["MainWindow/RestoreGeometry" := VBool false]>
        (store UserSettings Example.dialog_world).
Proof.
  assert (Hw : wired Example.dialog_world)
    by (apply wired_by_evaluation; vm_compute; reflexivity).
  assert (Hb : RestoreUICheckBox (panel Example.dialog_world) = negb false)
    by (vm_compute; reflexivity).
  assert (Hs : Settings (panel Example.dialog_world) = Some UserSettings)
    by (vm_compute; reflexivity).
  split; [exact Hw|]. split; [exact Hb|].
  destruct (toggling_restore_geometry Example.palette_of Example.keys Example.create
              Example.dialog_cancel 0 Example.dialog_world false Hw Hb)
    as (w' & Hrun & _ & Happ & _ & _ & Hstore & _).
  destruct (Hstore UserSettings Hs) as [Hstored _].
  exists w'. split; [exact Hrun|]. split; [exact Happ | exact Hstored].
Defined.

(** X14 on the example: ["/a"] is listed, then the list is emptied. *)
Lemma additional_paths_round_trip_witness :
  AdditionalPaths (panel Example.a_listed_world) = [] /\
  ~ In "/a" (libraryPaths (application Example.a_listed_world)) /\
  exists w1,
    onAdditionalStylePathsChanged Example.keys (Example.emit_with Example.dialog_cancel 3)
      Example.a_listed_world = Some w1 /\
    exists w2,
      onAdditionalStylePathsChanged Example.keys (Example.emit_with Example.dialog_cancel 3)
        (set_AdditionalStylePathsView (mkDirectoryListView [] []) w1) = Some w2 /\
      libraryPaths (application w2) = libraryPaths (application Example.a_listed_world).
Proof.
  assert (Hold : AdditionalPaths (panel Example.a_listed_world) = [])
    by (vm_compute; reflexivity).
  assert (Hnot : ~ In "/a" (libraryPaths (application Example.a_listed_world)))
    by (vm_compute; intuition discriminate).
  assert (Hfresh : forall p,
             In p (directories (AdditionalStylePathsView (panel Example.a_listed_world))) ->
             ~ In p (libraryPaths (application Example.a_listed_world))).
  { intros p Hp.
    assert (Hpa : p = "/a") by (vm_compute in Hp; intuition congruence).
    rewrite Hpa. exact Hnot. }
  split; [exact Hold|]. split; [exact Hnot|].
  destruct (additional_paths_round_trip Example.palette_of Example.keys Example.create
              Example.dialog_cancel 0 Example.a_listed_world)
    as (w1 & Hrun1 & w2 & Hrun2 & _ & _ & Hback).
  exists w1. split; [exact Hrun1|]. exists w2. split; [exact Hrun2|].
  exact (Hback Hold Hfresh).
Defined.

(** X15 on the example: the library paths have no duplicate before and
    after. *)
Lemma onAdditionalStylePathsChanged_clean_witness :
  List.NoDup (libraryPaths (application Example.a_listed_world)) /\
  exists w',
    onAdditionalStylePathsChanged Example.keys (Example.emit_with Example.dialog_cancel 3)
      Example.a_listed_world = Some w' /\
    List.NoDup (libraryPaths (application w')).
Proof.
  assert (Hnd : List.NoDup (libraryPaths (application Example.a_listed_world))).
  { vm_compute. constructor; [intros [] | constructor]. }
  split; [exact Hnd|].
  destruct (onAdditionalStylePathsChanged_keeps_paths_clean Example.palette_of
              Example.keys Example.create Example.dialog_cancel 0 Example.a_listed_world)
    as (w' & Hrun & Hkeep & _).
  exists w'. split; [exact Hrun | exact (Hkeep Hnd)].
Defined.

(** X16 on the example: ["/a"] is selected and removed. *)
Lemma onRemoveStyleAdditionalPathClicked_witness :
  wired Example.a_selected_world /\
  In "/a" (libraryPaths (application Example.a_selected_world)) /\
  exists w',
    onRemoveStyleAdditionalPathClicked (Example.emit_with Example.dialog_cancel 4)
      Example.a_selected_world = Some w' /\
    directories (AdditionalStylePathsView (panel w')) =
      keptDirectories (AdditionalStylePathsView (panel Example.a_selected_world)) /\
    ~ In "/a" (libraryPaths (application w')).
Proof.
  assert (Hw : wired Example.a_selected_world)
    by (apply wired_by_evaluation; vm_compute; reflexivity).
  assert (Hdir : In "/a" (directories (AdditionalStylePathsView
                                         (panel Example.a_selected_world))))
    by (vm_compute; auto).
  assert (Hsel : In "/a" (selectedDirectories (AdditionalStylePathsView
                                                 (panel Example.a_selected_world))))
    by (vm_compute; auto).
  assert (Hold : In "/a" (AdditionalPaths (panel Example.a_selected_world)))
    by (vm_compute; auto).
  assert (Hne : "/a" <> "") by discriminate.
  split; [exact Hw|]. split; [vm_compute; auto|].
  destruct (onRemoveStyleAdditionalPathClicked_removes Example.palette_of Example.keys
              Example.create Example.dialog_cancel 0 Example.a_selected_world Hw)
    as [_ Hsome].
  destruct (Hsome (ex_intro _ "/a" (conj Hdir Hsel)))
    as (w' & Hrun & Hdirs & _ & _ & Hgone & _).
  exists w'. split; [exact Hrun|]. split; [exact Hdirs|].
  exact (Hgone "/a" Hsel Hold Hne).
Defined.

(** X17 on the example: the wiring of the panel in the settings dialog. *)
Lemma wiring_is_permanent_witness :
  wired Example.dialog_world /\
  exists w',
    setChecked (Example.emit_with Example.dialog_cancel 5) obj_ShowToolTipsCheckBox true
      Example.dialog_world = Some w' /\
    wired w'.
Proof.
  assert (Hw : wired Example.dialog_world)
    by (apply wired_by_evaluation; vm_compute; reflexivity).
  split; [exact Hw|].
  destruct (wiring_is_permanent Example.palette_of Example.keys Example.create
              Example.dialog_cancel 0 Example.dialog_world Hw) as (_ & _ & Hcheck).
  exact (Hcheck obj_ShowToolTipsCheckBox true).
Defined.

(** X19 on the example: an unknown name while Fusion is current. *)
Lemma onStyleChanged_fallback_applies_witness :
  wired Example.fusion_world /\
  notFound Example.create Example.fusion_world "Bogus" /\
  currentStyle Example.fusion_world <> "Slicer" /\
  exists w',
    onStyleChanged Example.palette_of Example.create
      (Example.emit_with Example.dialog_cancel 2) "Bogus" Example.fusion_world = Some w' /\
    currentStyle w' = "Slicer" /\
    style (application w') = "slicer" /\
    warnings w' = warnings Example.fusion_world ++ ["Bogus"].
Proof.
  assert (Hw : wired Example.fusion_world)
    by (apply wired_by_evaluation; vm_compute; reflexivity).
  assert (Hn : notFound Example.create Example.fusion_world "Bogus")
    by (vm_compute; reflexivity).
  assert (Hin : In "Slicer" (items (StyleComboBox (panel Example.fusion_world))))
    by (vm_compute; auto).
  assert (Hcur : currentStyle Example.fusion_world <> "Slicer")
    by (vm_compute; discriminate).
  assert (Hb : signalsBlocked (StyleComboBox (panel Example.fusion_world)) = false)
    by (vm_compute; reflexivity).
  assert (Hc : Example.create (libraryPaths (application Example.fusion_world)) "Slicer" =
               Some "slicer") by (vm_compute; reflexivity).
  split; [exact Hw|]. split; [exact Hn|]. split; [exact Hcur|].
  destruct (onStyleChanged_fallback_applies_Slicer Example.palette_of Example.keys
              Example.create Example.dialog_cancel 0 Example.fusion_world "Bogus"
              "slicer" Hw Hn Hin Hcur Hb Hc)
    as (w' & Hrun & Hcurrent & Hstyle & _ & _ & Hwarn & _).
  exists w'. split; [exact Hrun|]. split; [exact Hcurrent|].
  split; [exact Hstyle | exact Hwarn].
Defined.

(** X20 on the example: the font button announces Courier. *)
Lemma currentFontChanged_witness :
  wired Example.dialog_world /\
  exists w',
    Example.emit_with Example.dialog_cancel 1
      (mkEmission obj_FontButton SIGNAL_currentFontChanged (FontArg "Courier"))
      Example.dialog_world = Some w' /\
    font (application w') = "Courier".
Proof.
  assert (Hw : wired Example.dialog_world)
    by (apply wired_by_evaluation; vm_compute; reflexivity).
  split; [exact Hw|].
  destruct (currentFontChanged_sets_and_stores Example.palette_of Example.keys
              Example.create Example.dialog_cancel 0 Example.dialog_world "Courier" Hw)
    as (w' & Hrun & Hfont & _).
  exists w'. split; [exact Hrun | exact Hfont].
Defined.

(** X21 on the example: the toggling of the more-button reaches no slot. *)
Lemma signals_reach_their_slots_witness :
  wired Example.dialog_world /\
  Example.emit_with Example.dialog_cancel 1
    (mkEmission obj_AdditionalStylePathMoreButton SIGNAL_toggled (BoolArg true))
    Example.dialog_world = Some Example.dialog_world.
Proof.
  assert (Hw : wired Example.dialog_world)
    by (apply wired_by_evaluation; vm_compute; reflexivity).
  split; [exact Hw|].
  destruct (signals_reach_their_slots Example.palette_of Example.keys Example.create
              Example.dialog_cancel 0 Example.dialog_world Hw) as (_ & _ & _ & Hmore).
  exact (Hmore true).
Defined.
